(** * Pipeline de churn: capas bronze, silver y gold

  Modelo en Rocq de las etapas de limpieza ([utilidades/limpieza.py]),
  anonimizado ([utilidades/hashing.py]), derivación de features
  ([utilidades/features.py]) y del orquestador
  ([transformacion/bronze_a_silver.py]).

  Convenciones del modelo:
  - un [DataFrame] es un diccionario de columnas (nombre ↦ serie) y una
    serie es la lista de sus celdas en el orden de las filas;
  - los objetos [DataFrame] viven en un almacén; las etapas reciben y
    devuelven referencias, de modo que [df[c] = ...] y [df.loc[...] = ...]
    modifican el objeto compartido con quien llama, mientras que
    [df[mask]], [dropna], [sort_values], [drop] y [copy] crean uno nuevo;
  - una excepción de Python ([KeyError], [TypeError],
    [ZeroDivisionError]) es el resultado [None] de la mónada; de los
    mensajes del registro solo se modelan los porcentajes cuya división
    puede lanzarla;
  - los números finitos son racionales exactos (sin redondeo binario);
    NaN y los infinitos siguen las reglas de IEEE 754;
  - una fecha es un número entero de días, y [pd.to_datetime] lee cada
    columna entera, con un formato por columna;
  - una cadena es la secuencia de sus caracteres, cada uno un punto de
    código menor que 256. *)

From Stdlib Require Import QArith ZArith String Ascii List Permutation Sorted Lqa.
From Stdlib Require Import OrdersEx.
From stdpp Require Import base option list gmap strings.

Local Open Scope string_scope.

(** ** Números de punto flotante idealizados *)

Module Numero.

Inductive numero :=
| Fin (q : Q)
| Infinito (negativo : bool)
| NaN.

Definition Qltb (a b : Q) : bool := negb (Qle_bool b a).

Definition opp (x : numero) : numero :=
  match x with
  | Fin q => Fin (- q)
  | Infinito s => Infinito (negb s)
  | NaN => NaN
  end.

Definition add (x y : numero) : numero :=
  match x, y with
  | NaN, _ | _, NaN => NaN
  | Fin a, Fin b => Fin (a + b)
  | Fin _, Infinito s | Infinito s, Fin _ => Infinito s
  | Infinito s, Infinito t => if Bool.eqb s t then Infinito s else NaN
  end.

Definition sub (x y : numero) : numero := add x (opp y).

Definition mul (x y : numero) : numero :=
  match x, y with
  | NaN, _ | _, NaN => NaN
  | Fin a, Fin b => Fin (a * b)
  | Fin a, Infinito s | Infinito s, Fin a =>
      match (a ?= 0)%Q with
      | Eq => NaN
      | Gt => Infinito s
      | Lt => Infinito (negb s)
      end
  | Infinito s, Infinito t => Infinito (xorb s t)
  end.

(** División de numpy: [x / 0] es [±inf] y [0 / 0] es [NaN]. *)
Definition div (x y : numero) : numero :=
  match x, y with
  | NaN, _ | _, NaN => NaN
  | Fin a, Fin b =>
      if Qeq_bool b 0 then
        match (a ?= 0)%Q with
        | Eq => NaN
        | Gt => Infinito false
        | Lt => Infinito true
        end
      else Fin (a / b)
  | Fin _, Infinito _ => Fin 0
  | Infinito s, Fin b => Infinito (xorb s (Qltb b 0))
  | Infinito _, Infinito _ => NaN
  end.

(** Comparaciones: toda comparación con NaN es falsa. *)
Definition ltb (x y : numero) : bool :=
  match x, y with
  | NaN, _ | _, NaN => false
  | Fin a, Fin b => Qltb a b
  | Fin _, Infinito s => negb s
  | Infinito s, Fin _ => s
  | Infinito s, Infinito t => s && negb t
  end.

Definition leb (x y : numero) : bool :=
  match x, y with
  | NaN, _ | _, NaN => false
  | Fin a, Fin b => Qle_bool a b
  | Fin _, Infinito s => negb s
  | Infinito s, Fin _ => s
  | Infinito s, Infinito t => s || negb t
  end.

Definition gtb (x y : numero) : bool := ltb y x.

Definition eqb (x y : numero) : bool :=
  match x, y with
  | Fin a, Fin b => Qeq_bool a b
  | Infinito s, Infinito t => Bool.eqb s t
  | _, _ => false
  end.

Definition es_nan (x : numero) : bool :=
  match x with NaN => true | _ => false end.

Definition de_Z (z : Z) : numero := Fin (inject_Z z).

End Numero.

Export Numero.

(** ** Celdas, series y tablas *)

Inductive celda :=
| Nulo                        (* None, NaN, NaT *)
| Texto (s : string)
| Num (q : Q)
| Inf (negativo : bool)
| Logico (b : bool)
| Fecha (d : Z).

Abbreviation serie := (list celda).
Abbreviation tabla := (gmap string (list celda)).

Definition es_nulo (c : celda) : bool :=
match c with Nulo => true | _ => false end.

Definition es_texto (c : celda) : bool :=
match c with Texto _ => true | _ => false end.

(** Valor numérico de una celda; [None] donde pandas lanza [TypeError]. *)
Definition a_numero (c : celda) : option numero :=
match c with
| Nulo => Some NaN
| Num q => Some (Fin q)
| Inf s => Some (Infinito s)
| Logico b => Some (Fin (if b then 1 else 0))
| Texto _ | Fecha _ => None
end.

Definition de_numero (x : numero) : celda :=
match x with
| Fin q => Num q
| Infinito s => Inf s
| NaN => Nulo
end.

(** Igualdad de valores como la usan [duplicated] y [replace]: los nulos son
  iguales entre sí y los números se comparan por su valor. *)
Definition celda_eqb (a b : celda) : bool :=
match a, b with
| Nulo, Nulo => true
| Texto s, Texto t => String.eqb s t
| Num p, Num q => Qeq_bool p q
| Inf s, Inf t => Bool.eqb s t
| Logico s, Logico t => Bool.eqb s t
| Fecha d, Fecha e => Z.eqb d e
| Num p, Logico b | Logico b, Num p => Qeq_bool p (if b then 1 else 0)
| _, _ => false
end.

Module Serie.

(** [s.isnull().sum()] *)
Definition contar_nulos (s : serie) : nat := length (filter (λ c, es_nulo c = true) s).

(** [mask.sum()] *)
Definition contar (m : list bool) : nat := length (filter (λ b, b = true) m).

(** [s.fillna(v)] *)
Definition fillna (v : celda) (s : serie) : serie :=
  (λ c, if es_nulo c then v else c) <$> s.

(** [s.fillna(method='ffill')]: cada nulo toma el valor no nulo anterior
    más cercano; los nulos iniciales quedan como están. *)
Fixpoint ffill_desde (previo : celda) (s : serie) : serie :=
  match s with
  | [] => []
  | c :: resto =>
      let c' := if es_nulo c then previo else c in
      c' :: ffill_desde c' resto
  end.

Definition ffill (s : serie) : serie := ffill_desde Nulo s.

(** [l[mask]]: los elementos cuya posición está marcada. *)
Fixpoint seleccionar {A} (m : list bool) (l : list A) : list A :=
  match m, l with
  | b :: m', x :: l' => if b then x :: seleccionar m' l' else seleccionar m' l'
  | _, _ => []
  end.

(** [s.loc[mask] = v] *)
Fixpoint poner (m : list bool) (v : celda) (s : serie) : serie :=
  match m, s with
  | b :: m', c :: s' => (if b then v else c) :: poner m' v s'
  | _, _ => s
  end.

(** Lectura numérica de la serie completa. *)
Definition numeros (s : serie) : option (list numero) := mapM a_numero s.

(** [s < x], [s > x], [s <= x] *)
Definition menor_que (s : serie) (x : numero) : option (list bool) :=
  fmap (M := list) (λ n, Numero.ltb n x) <$> numeros s.

Definition mayor_que (s : serie) (x : numero) : option (list bool) :=
  fmap (M := list) (λ n, Numero.gtb n x) <$> numeros s.

Definition menor_igual_que (s : serie) (x : numero) : option (list bool) :=
  fmap (M := list) (λ n, Numero.leb n x) <$> numeros s.

(** Inserción ordenada estable. *)
Fixpoint insertar {A} (le : A → A → bool) (x : A) (l : list A) : list A :=
  match l with
  | [] => [x]
  | y :: l' => if le x y then x :: l else y :: insertar le x l'
  end.

Definition ordenar {A} (le : A → A → bool) (l : list A) : list A :=
  foldr (insertar le) [] l.

Definition no_nan (l : list numero) : list numero :=
  filter (λ x, Numero.es_nan x = false) l.

(** [s.max()], que ignora los nulos; NaN si no queda ningún valor. *)
Definition maximo (l : list numero) : numero :=
  match no_nan l with
  | [] => NaN
  | x :: r => foldl (λ m y, if Numero.ltb m y then y else m) x r
  end.

(** [s.median()], que ignora los nulos. *)
Definition mediana (l : list numero) : numero :=
  let v := ordenar Numero.leb (no_nan l) in
  let n := length v in
  if Nat.eqb n 0 then NaN
  else if Nat.odd n then default NaN (v !! (n / 2)%nat)
  else Numero.div
         (Numero.add (default NaN (v !! (n / 2 - 1)%nat)) (default NaN (v !! (n / 2)%nat)))
         (Fin 2).

(** [s.mean()], que ignora los nulos. *)
Definition media (l : list numero) : numero :=
  let v := no_nan l in
  if Nat.eqb (length v) 0 then NaN
  else Numero.div (foldl Numero.add (Fin 0) v) (Numero.de_Z (Z.of_nat (length v))).

End Serie.

(** ** Almacén de objetos DataFrame *)

Module Almacen.

Abbreviation ref := nat (only parsing).
Abbreviation almacen := (list (gmap string (list celda))).

(** Cómputo sobre el almacén que puede lanzar una excepción. *)
Definition M (A : Type) : Type := almacen → option (A * almacen).

#[export] Instance M_ret : MRet M := λ A x h, Some (x, h).
#[export] Instance M_bind : MBind M :=
  λ A B f m h, match m h with Some (x, h') => f x h' | None => None end.

Definition lanzar {A} : M A := λ _, None.

Definition levantar {A} (o : option A) : M A :=
  λ h, match o with Some x => Some (x, h) | None => None end.

(** Contenido actual del objeto [r]. *)
Definition leer (r : ref) : M tabla := λ h, (λ t, (t, h)) <$> h !! r.

(** [df[c]] *)
Definition columna (r : ref) (c : string) : M serie :=
  λ h, match h !! r with
       | Some t => (λ s, (s, h)) <$> t !! c
       | None => None
       end.

(** [df[c] = s]: asignación sobre el propio objeto. *)
Definition asignar (r : ref) (c : string) (s : serie) : M unit :=
  λ h, match h !! r with
       | Some t => Some ((), <[r := <[c := s]> t]> h)
       | None => None
       end.

(** Un DataFrame nuevo con contenido [t]. *)
Definition crear (t : tabla) : M ref := λ h, Some (length h, (h ++ [t])%list).

(** Ejecuta una etapa sobre una tabla del llamador y devuelve la tabla
    resultante, el contenido final del objeto del llamador y si el
    resultado es ese mismo objeto. *)
Definition ejecutar (f : ref → M ref) (t : tabla) : option (tabla * tabla * bool) :=
  match f 0%nat [t] with
  | Some (r, h) =>
      match h !! r, h !! 0%nat with
      | Some res, Some orig => Some (res, orig, Nat.eqb r 0)
      | _, _ => None
      end
  | None => None
  end.

(** Solo la tabla devuelta. *)
Definition resultado (f : ref → M ref) (t : tabla) : option tabla :=
  (λ x, x.1.1) <$> ejecutar f t.

End Almacen.

Export Almacen.

(** ** configuracion.py *)

Module Configuracion.

Definition COLUMNAS_SENSIBLES : list string :=
  ["full_name"; "email"; "phone"; "home_address"].

Definition SALT_HASHING : string := "proyecto_churn_2025_salt_secreto".

Definition UMBRAL_GASTO_MINIMO : Q := 0.
Definition UMBRAL_GASTO_MAXIMO : Q := 15000.
Definition UMBRAL_ENVIOS_MAXIMO : Q := 500.

Definition VENTANA_RECENCIA_DIAS : Q := 180.

Definition BINS_GASTO_MENSUAL : list numero :=
  [Fin 0; Fin 500; Fin 1500; Fin 5000; Infinito false].
Definition ETIQUETAS_GASTO : list string := ["Bajo"; "Medio"; "Alto"; "Premium"].

Definition BINS_FRECUENCIA_ENVIOS : list numero :=
  [Fin 0; Fin 10; Fin 30; Fin 100; Infinito false].
Definition ETIQUETAS_FRECUENCIA : list string :=
  ["Ocasional"; "Regular"; "Frecuente"; "VIP"].

End Configuracion.

Export Configuracion.

(** ** Operaciones de pandas sobre filas *)

Module Tabla.

(** [len(df)] *)
Definition n_filas (t : tabla) : nat :=
  foldr Nat.max 0%nat ((λ p, length p.2) <$> map_to_list t).

(** La fila [i] como lista de celdas, en un orden fijo de las columnas. *)
Definition fila (t : tabla) (i : nat) : list celda :=
  (λ p, default Nulo (p.2 !! i)) <$> map_to_list t.

Definition filas (t : tabla) : list (list celda) :=
  fila t <$> seq 0 (n_filas t).

Fixpoint fila_eqb (a b : list celda) : bool :=
  match a, b with
  | [], [] => true
  | x :: a', y :: b' => celda_eqb x y && fila_eqb a' b'
  | _, _ => false
  end.

(** [duplicated(keep='first')]: marca cada elemento igual a uno anterior. *)
Fixpoint duplicated_desde {A} (eqb : A → A → bool) (vistos l : list A) : list bool :=
  match l with
  | [] => []
  | x :: r => existsb (eqb x) vistos :: duplicated_desde eqb (x :: vistos) r
  end.

Definition duplicated {A} (eqb : A → A → bool) (l : list A) : list bool :=
  duplicated_desde eqb [] l.

(** [duplicated(keep=False)]: marca todo elemento que aparece más de una vez. *)
Definition duplicated_todos {A} (eqb : A → A → bool) (l : list A) : list bool :=
  (λ x, Nat.ltb 1 (length (filter (λ y, eqb x y = true) l))) <$> l.

(** [df[mask]]: tabla nueva con las filas marcadas. *)
Definition filtrar (m : list bool) (t : tabla) : tabla :=
  Serie.seleccionar m <$> t.

(** [df.iloc[idx]]: tabla nueva con las filas en el orden de [idx]. *)
Definition tomar (idx : list nat) (t : tabla) : tabla :=
  (λ s : serie, (λ i, default Nulo (s !! i)) <$> idx) <$> t.

(** Orden ascendente de los valores de una columna, con los nulos al final
    ([na_position='last']). En una columna que mezcla textos con otros
    valores pandas ordena primero los que no son texto y después los
    textos. *)
Definition celda_leb (a b : celda) : bool :=
  match a, b with
  | _, Nulo => true
  | Nulo, _ => false
  | Texto s, Texto t => String.leb s t
  | Texto _, _ => false
  | _, Texto _ => true
  | Fecha d, Fecha e => Z.leb d e
  | _, _ =>
      match a_numero a, a_numero b with
      | Some x, Some y => Numero.leb x y
      | _, _ => false
      end
  end.

(** Orden descendente, también con los nulos al final. *)
Definition celda_geb (a b : celda) : bool :=
  match a, b with
  | _, Nulo => true
  | Nulo, _ => false
  | _, _ => celda_leb b a
  end.

Definition clase (c : celda) : nat :=
  match c with
  | Nulo => 0 | Texto _ => 1 | Num _ | Inf _ | Logico _ => 2 | Fecha _ => 3
  end%nat.

(** Una columna se puede ordenar cuando sus valores que no son nulos ni
    textos son de una misma clase; si no (fechas mezcladas con números), la
    comparación de Python lanza [TypeError]. *)
Definition ordenable (s : serie) : bool :=
  match filter (λ c, es_nulo c || es_texto c = false) s with
  | [] => true
  | c :: r => forallb (λ d, Nat.eqb (clase c) (clase d)) r
  end.

(** [sort_values([a, b], ascending=[True, False])] como permutación estable
    de los índices de fila. *)
Definition orden_filas (a b : serie) : list nat :=
  let le i j :=
    let ai := default Nulo (a !! i) in
    let aj := default Nulo (a !! j) in
    if celda_eqb ai aj then celda_geb (default Nulo (b !! i)) (default Nulo (b !! j))
    else celda_leb ai aj in
  Serie.ordenar le (seq 0 (length a)).

End Tabla.

(** ** Funciones de pandas que el modelo toma como dadas *)

Class Pandas := {
  (** [pd.to_datetime(s, errors='coerce')] para una celda de la columna [s]
      que no es ya una fecha ni un nulo. pandas infiere un solo formato para
      toda la columna, así que la lectura de una celda depende de la columna
      en la que está; [None] es [NaT]. *)
  fecha_de : serie → celda → option Z;
  (** [pd.to_numeric(x, errors='coerce')] sobre un texto o una fecha. *)
  numero_de : celda → numero;
  (** [s.mode()[0]]; [None] cuando la serie no tiene moda. *)
  moda : serie → option celda
}.

(** Lectura de la celda [c] dentro de la columna [s]. *)
Definition leer_fecha `{Pandas} (s : serie) (c : celda) : celda :=
  match c with
  | Nulo => Nulo
  | Fecha d => Fecha d
  | _ => match fecha_de s c with Some d => Fecha d | None => Nulo end
  end.

(** [pd.to_datetime(s, errors='coerce')] sobre la columna entera. *)
Definition to_datetime `{Pandas} (s : serie) : serie := leer_fecha s <$> s.

Definition to_numeric `{Pandas} (c : celda) : celda :=
  match c with
  | Texto _ | Fecha _ => de_numero (numero_de c)
  | _ => c
  end.

(** Bucle [for x in l] cuyo cuerpo puede volver a ligar la variable [df]. *)
Fixpoint para_cada {A} (cuerpo : ref → A → M ref) (l : list A) (df : ref) : M ref :=
  match l with
  | [] => mret df
  | x :: r => df' ← cuerpo df x; para_cada cuerpo r df'
  end.

(** [if cond: accion] *)
Definition cuando (cond : bool) (accion : M unit) : M unit :=
  if cond then accion else mret ().

(** ** utilidades/limpieza.py *)

Module Limpieza.

Definition ESTRATEGIA_NULOS : list (string * string) :=
  [("phone", "MISSING");
   ("monthly_spend", "mediana");
   ("total_shipments", "mediana");
   ("last_purchase_date", "ffill");
   ("churn_label", "eliminar")].

(** [detectar_duplicados(df, columna_id)]. El parámetro [accion] no se lee
    en el código y no aparece aquí. *)
Definition detectar_duplicados `{Pandas} (df : ref) (columna_id : string) : M ref :=
  t ← leer df;
  (* 1. duplicados completos *)
  let duplicados_completos := Tabla.duplicated Tabla.fila_eqb (Tabla.filas t) in
  df ← (if Nat.ltb 0 (Serie.contar duplicados_completos)
        then crear (Tabla.filtrar (negb <$> duplicados_completos) t)
        else mret df);
  (* 2. duplicados por ID *)
  ids ← columna df columna_id;
  let duplicados_id := Tabla.duplicated_todos celda_eqb ids in
  if Nat.ltb 0 (Serie.contar duplicados_id) then
    t ← leer df;
    match t !! "last_purchase_date" with
    | Some fechas =>
        asignar df "last_purchase_date_temp" (to_datetime fechas);;
        t ← leer df;
        ids ← columna df columna_id;
        temp ← columna df "last_purchase_date_temp";
        (* sort_values lanza TypeError si las claves no se pueden comparar *)
        (if Tabla.ordenable ids then mret () else lanzar);;
        df ← crear (Tabla.tomar (Tabla.orden_filas ids temp) t);
        t ← leer df;
        ids ← columna df columna_id;
        df ← crear (Tabla.filtrar (negb <$> Tabla.duplicated celda_eqb ids) t);
        t ← leer df;
        crear (delete "last_purchase_date_temp" t)
    | None =>
        crear (Tabla.filtrar (negb <$> Tabla.duplicated celda_eqb ids) t)
    end
  else mret df.

(** [normalizar_fechas(df, columnas_fecha)]. El argumento
    [infer_datetime_format=True] de la llamada a [pd.to_datetime] no cambia
    la lectura en pandas 2, que siempre infiere el formato de la columna. *)
Definition normalizar_fechas `{Pandas} (df : ref) (columnas_fecha : list string) : M ref :=
  para_cada (λ df columna,
    t ← leer df;
    match t !! columna with
    | None => mret df
    | Some s => asignar df columna (to_datetime s);; mret df
    end) columnas_fecha df.

(** Cuerpo del bucle de [manejar_valores_nulos] para una entrada
    [(columna, estrategia)] del diccionario. *)
Definition aplicar_estrategia `{Pandas} (df : ref) (ce : string * string) : M ref :=
  let '(columna, estrategia) := ce in
  t ← leer df;
  match t !! columna with
  | None => mret df
  | Some s =>
      if Nat.eqb (Serie.contar_nulos s) 0 then mret df
      else if String.eqb estrategia "MISSING" then
        asignar df columna (Serie.fillna (Texto "MISSING") s);; mret df
      else if String.eqb estrategia "mediana" then
        v ← levantar (Serie.numeros s);
        asignar df columna (Serie.fillna (de_numero (Serie.mediana v)) s);; mret df
      else if String.eqb estrategia "media" then
        v ← levantar (Serie.numeros s);
        asignar df columna (Serie.fillna (de_numero (Serie.media v)) s);; mret df
      else if String.eqb estrategia "moda" then
        m ← levantar (moda s);
        asignar df columna (Serie.fillna m s);; mret df
      else if String.eqb estrategia "ffill" then
        asignar df columna (Serie.ffill s);; mret df
      else if String.eqb estrategia "eliminar" then
        crear (Tabla.filtrar ((λ c, negb (es_nulo c)) <$> s) t)
      else mret df
  end.

(** [manejar_valores_nulos(df, estrategias)]; el diccionario se recorre en
    su orden de inserción. *)
Definition manejar_valores_nulos `{Pandas} (df : ref) (estrategias : list (string * string)) : M ref :=
  para_cada aplicar_estrategia estrategias df.

(** [detectar_outliers(df, columnas_numericas, metodo='umbrales')]: el único
    método que usa el pipeline. Del resultado solo se modela el DataFrame
    marcado, no el diccionario de estadísticas. *)
Definition detectar_outliers (df : ref) (columnas_numericas : list string) : M ref :=
  para_cada (λ df columna,
    t ← leer df;
    match t !! columna with
    | None => mret df
    | Some s =>
        if String.eqb columna "monthly_spend" then
          bajos ← levantar (Serie.menor_que s (Fin UMBRAL_GASTO_MINIMO));
          altos ← levantar (Serie.mayor_que s (Fin UMBRAL_GASTO_MAXIMO));
          asignar df (columna ++ "_is_outlier") (Logico <$> zip_with orb bajos altos);;
          mret df
        else if String.eqb columna "total_shipments" then
          altos ← levantar (Serie.mayor_que s (Fin UMBRAL_ENVIOS_MAXIMO));
          asignar df (columna ++ "_is_outlier") (Logico <$> altos);;
          mret df
        else mret df
    end) columnas_numericas df.

(** [corregir_outliers(df, columna, metodo)] *)
Definition corregir_outliers (df : ref) (columna metodo : string) : M ref :=
  t ← leer df;
  match t !! columna with
  | None => mret df
  | Some _ =>
      if String.eqb metodo "cap" then
        if String.eqb columna "monthly_spend" then
          s ← Almacen.columna df columna;
          negativos ← levantar (Serie.menor_que s (Fin 0));
          cuando (Nat.ltb 0 (Serie.contar negativos))
                 (asignar df columna (Serie.poner negativos (Num 0) s));;
          s ← Almacen.columna df columna;
          altos ← levantar (Serie.mayor_que s (Fin UMBRAL_GASTO_MAXIMO));
          cuando (Nat.ltb 0 (Serie.contar altos))
                 (asignar df columna (Serie.poner altos (Num UMBRAL_GASTO_MAXIMO) s));;
          mret df
        else if String.eqb columna "total_shipments" then
          s ← Almacen.columna df columna;
          altos ← levantar (Serie.mayor_que s (Fin UMBRAL_ENVIOS_MAXIMO));
          cuando (Nat.ltb 0 (Serie.contar altos))
                 (asignar df columna (Serie.poner altos (Num UMBRAL_ENVIOS_MAXIMO) s));;
          mret df
        else mret df
      else mret df
  end.

End Limpieza.

(** ** utilidades/hashing.py *)

(** Funciones de Python que el modelo toma como dadas. *)
Class Python := {
  (** [str(x)] para un valor que no es una cadena. *)
  str_valor : celda → string;
  (** [hashlib.sha256(s.encode('utf-8')).hexdigest()] *)
  sha256_hexdigest : string → string
}.

Module Hashing.

(** [c.isspace()] sobre los puntos de código menores que 256. *)
Definition es_espacio (c : ascii) : bool :=
  let n := nat_of_ascii c in
  (Nat.leb 9 n && Nat.leb n 13) || (Nat.leb 28 n && Nat.leb n 32)
  || Nat.eqb n 133 || Nat.eqb n 160.

Fixpoint lstrip (s : string) : string :=
  match s with
  | String c r => if es_espacio c then lstrip r else s
  | EmptyString => EmptyString
  end.

(** [s.strip()] *)
Definition strip (s : string) : string :=
  String.rev (lstrip (String.rev (lstrip s))).

(** [str(valor)] *)
Definition str `{Python} (valor : celda) : string :=
  match valor with
  | Texto s => s
  | _ => str_valor valor
  end.

(** [hashear_valor(valor, salt)] *)
Definition hashear_valor `{Python} (valor : celda) (salt : string) : string :=
  if es_nulo valor || String.eqb (strip (str valor)) "" then "NULL"
  else
    let valor_con_salt := salt ++ str valor in
    sha256_hexdigest valor_con_salt.

(** [hashear_columna(serie, nombre_columna, salt)]; el nombre solo se usa
    en los mensajes. *)
Definition hashear_columna `{Python} (s : serie) (salt : string) : serie :=
  (λ x, Texto (hashear_valor x salt)) <$> s.

(** [hashear_datos_sensibles(df, columnas, sufijo)] *)
Definition hashear_datos_sensibles `{Python} (df : ref) (columnas : list string) (sufijo : string) : M ref :=
  t ← leer df;
  df_copia ← crear t;
  let columnas := filter (λ col, is_Some (t !! col)) columnas in
  df_copia ← para_cada (λ df_copia columna,
      let nombre_hash := columna ++ sufijo in
      s ← Almacen.columna df_copia columna;
      asignar df_copia nombre_hash (hashear_columna s SALT_HASHING);;
      mret df_copia) columnas df_copia;
  t ← leer df_copia;
  crear (foldr delete t columnas).

(** [s.dropna()] *)
Definition dropna (s : serie) : serie := filter (λ c, es_nulo c = false) s.

(** [s.unique()]: los valores distintos en su orden de aparición. *)
Definition unique (s : serie) : serie :=
  Serie.seleccionar (negb <$> Tabla.duplicated celda_eqb s) s.

(** [crear_mapeo_hash(df, columna)] sin ruta donde guardar el mapeo;
    [lanzar] es el [ValueError] de la columna que no existe. *)
Definition crear_mapeo_hash `{Python} (df : ref) (columna : string) : M ref :=
  t ← leer df;
  match t !! columna with
  | None => lanzar
  | Some s =>
      let valores_unicos := unique (dropna s) in
      crear {[ "valor_original" := valores_unicos;
               "valor_hash" := (λ v, Texto (hashear_valor v SALT_HASHING))
                                 <$> valores_unicos ]}
  end.

(** [verificar_reproducibilidad_hash(valor, hash_esperado, salt)] *)
Definition verificar_reproducibilidad_hash `{Python}
    (valor : celda) (hash_esperado salt : string) : bool :=
  let hash_generado := hashear_valor valor salt in
  String.eqb hash_generado hash_esperado.

End Hashing.

(** ** utilidades/features.py *)

Module Features.

(** [pd.cut(x, bins, labels)] sobre un valor: intervalos abiertos a la
    izquierda y cerrados a la derecha; fuera de ellos, nulo. *)
Fixpoint cut (bins : list numero) (labels : list string) (x : numero) : celda :=
  match bins, labels with
  | a :: ((b :: _) as bins'), l :: labels' =>
      if Numero.ltb a x && Numero.leb x b then Texto l else cut bins' labels' x
  | _, _ => Nulo
  end.

Definition cut_serie (s : serie) (bins : list numero) (labels : list string) : M serie :=
  v ← levantar (Serie.numeros s);
  mret (cut bins labels <$> v).

(** Lectura de una columna de tipo fecha. *)
Definition fechas (s : serie) : option (list (option Z)) :=
  mapM (λ c, match c with
             | Fecha d => Some (Some d)
             | Nulo => Some None
             | _ => None
             end) s.

(** [s.max()] de una columna de fechas. *)
Definition fecha_maxima (l : list (option Z)) : option Z :=
  foldr (λ f m, match f, m with
                | Some d, Some e => Some (Z.max d e)
                | Some d, None => Some d
                | None, _ => m
                end) None l.

(** [(fecha_referencia - f).days] *)
Definition dias_desde (fecha_referencia f : option Z) : celda :=
  match fecha_referencia, f with
  | Some r, Some d => Num (inject_Z (r - d))
  | _, _ => Nulo
  end.

(** [mask.astype(int)] *)
Definition a_entero (b : bool) : celda := Num (if b then 1 else 0).

(** [s.value_counts()] sobre una columna categórica: una entrada por
    categoría, también para las categorías que no aparecen en la columna.
    El orden de las entradas solo decide el orden de los mensajes. *)
Definition value_counts (labels : list string) (s : serie) : list (string * nat) :=
  (λ l, (l, length (filter (λ c, celda_eqb c (Texto l) = true) s))) <$> labels.

(** [(cantidad / len(df)) * 100] sobre enteros de Python: la división
    entre cero lanza [ZeroDivisionError]. *)
Definition porcentaje (cantidad total : nat) : option Q :=
  if Nat.eqb total 0 then None
  else Some (inject_Z (Z.of_nat cantidad) / inject_Z (Z.of_nat total) * 100)%Q.

(** Bucle [for categoria, cantidad in distribucion.items()] que calcula el
    porcentaje de cada categoría de la columna [nombre] para el registro. *)
Definition registrar_distribucion (df : ref) (nombre : string) (labels : list string) : M ref :=
  s ← columna df nombre;
  let distribucion := value_counts labels s in
  para_cada (λ df fila,
      t ← leer df;
      levantar (porcentaje fila.2 (Tabla.n_filas t));;
      mret df) distribucion df.

(** [calcular_recencia(df, columna_fecha, fecha_referencia)] *)
Definition calcular_recencia (df : ref) (columna_fecha : string) (fecha_referencia : option Z) : M ref :=
  f ← columna df columna_fecha;
  f ← levantar (fechas f);
  let fecha_referencia :=
    match fecha_referencia with
    | None => fecha_maxima f
    | Some r => Some r
    end in
  asignar df "recencia_dias" (dias_desde fecha_referencia <$> f);;
  s ← columna df "recencia_dias";
  c ← cut_serie s [Fin 0; Fin 30; Fin 90; Fin 180; Infinito false]
                  ["Muy_Reciente"; "Reciente"; "Inactivo"; "Muy_Inactivo"];
  asignar df "categoria_recencia" c;;
  mret df.

(** [calcular_antiguedad(df, columna_signup, fecha_referencia)] *)
Definition calcular_antiguedad (df : ref) (columna_signup : string) (fecha_referencia : option Z) : M ref :=
  fecha_referencia ←
    match fecha_referencia with
    | None => u ← columna df "last_purchase_date";
              u ← levantar (fechas u);
              mret (fecha_maxima u)
    | Some r => mret (Some r)
    end;
  f ← columna df columna_signup;
  f ← levantar (fechas f);
  asignar df "antiguedad_dias" (dias_desde fecha_referencia <$> f);;
  s ← columna df "antiguedad_dias";
  c ← cut_serie s [Fin 0; Fin 180; Fin 365; Fin 730; Infinito false]
                  ["Nuevo"; "Establecido"; "Veterano"; "Antiguo"];
  asignar df "categoria_antiguedad" c;;
  mret df.

(** [categorizar_monetary(df, columna_gasto)] *)
Definition categorizar_monetary (df : ref) (columna_gasto : string) : M ref :=
  s ← columna df columna_gasto;
  c ← cut_serie s BINS_GASTO_MENSUAL ETIQUETAS_GASTO;
  asignar df "segmento_gasto" c;;
  (* Distribución de segmentos *)
  registrar_distribucion df "segmento_gasto" ETIQUETAS_GASTO;;
  mret df.

(** [categorizar_frequency(df, columna_envios)] *)
Definition categorizar_frequency (df : ref) (columna_envios : string) : M ref :=
  s ← columna df columna_envios;
  c ← cut_serie s BINS_FRECUENCIA_ENVIOS ETIQUETAS_FRECUENCIA;
  asignar df "segmento_frecuencia" c;;
  registrar_distribucion df "segmento_frecuencia" ETIQUETAS_FRECUENCIA;;
  mret df.

(** Columna numérica [df[c]]. *)
Definition columna_numerica (df : ref) (c : string) : M (list numero) :=
  s ← columna df c;
  levantar (Serie.numeros s).

(** Fórmula del score ponderado para una fila. *)
Definition score_ponderado (recencia_norm frecuencia_norm gasto_norm : numero) : numero :=
  Numero.mul
    (Numero.add
       (Numero.add (Numero.mul recencia_norm (Fin (4 # 10)))
                   (Numero.mul frecuencia_norm (Fin (3 # 10))))
       (Numero.mul gasto_norm (Fin (3 # 10))))
    (Fin 100).

(** [calcular_engagement_score(df)] *)
Definition calcular_engagement_score (df : ref) : M ref :=
  (* Normalizar recencia (invertir: menos días = mejor) *)
  recencia ← columna_numerica df "recencia_dias";
  let recencia_max := Serie.maximo recencia in
  asignar df "recencia_norm"
    ((λ x, de_numero (Numero.sub (Fin 1) (Numero.div x recencia_max))) <$> recencia);;
  (* Normalizar frecuencia *)
  envios ← columna_numerica df "total_shipments";
  let frecuencia_max := Serie.maximo envios in
  asignar df "frecuencia_norm" ((λ x, de_numero (Numero.div x frecuencia_max)) <$> envios);;
  (* Normalizar gasto *)
  gasto ← columna_numerica df "monthly_spend";
  let gasto_max := Serie.maximo gasto in
  asignar df "gasto_norm" ((λ x, de_numero (Numero.div x gasto_max)) <$> gasto);;
  (* Calcular score ponderado (0-100) *)
  rn ← columna_numerica df "recencia_norm";
  fn ← columna_numerica df "frecuencia_norm";
  gn ← columna_numerica df "gasto_norm";
  asignar df "engagement_score"
    (de_numero <$> zip_with (λ r fg, score_ponderado r fg.1 fg.2) rn (zip fn gn));;
  (* Categorizar engagement *)
  s ← columna df "engagement_score";
  c ← cut_serie s [Fin 0; Fin 25; Fin 50; Fin 75; Fin 100]
                  ["Bajo"; "Medio"; "Alto"; "Muy_Alto"];
  asignar df "nivel_engagement" c;;
  (* Eliminar columnas temporales de normalización *)
  t ← leer df;
  df ← crear (delete "gasto_norm" (delete "frecuencia_norm" (delete "recencia_norm" t)));
  registrar_distribucion df "nivel_engagement" ["Bajo"; "Medio"; "Alto"; "Muy_Alto"];;
  mret df.

(** [s.replace(0, 1)] *)
Definition reemplazar_cero (x : numero) : numero :=
  if Numero.eqb x (Fin 0) then Fin 1 else x.

(** [crear_features_comportamiento(df)] *)
Definition crear_features_comportamiento (df : ref) : M ref :=
  gasto ← columna_numerica df "monthly_spend";
  envios ← columna_numerica df "total_shipments";
  asignar df "gasto_por_envio"
    (de_numero <$> zip_with (λ g e, Numero.div g (reemplazar_cero e)) gasto envios);;
  s ← columna df "gasto_por_envio";
  c ← cut_serie s [Fin 0; Fin 50; Fin 100; Fin 200; Infinito false]
                  ["Bajo"; "Medio"; "Alto"; "Premium"];
  asignar df "categoria_ticket" c;;
  antiguedad ← columna_numerica df "antiguedad_dias";
  envios ← columna_numerica df "total_shipments";
  asignar df "dias_entre_compras"
    (de_numero <$> zip_with (λ a e, Numero.div a (reemplazar_cero e)) antiguedad envios);;
  recencia ← columna_numerica df "recencia_dias";
  asignar df "cliente_activo_reciente" ((λ r, a_entero (Numero.leb r (Fin 90))) <$> recencia);;
  gasto ← columna_numerica df "monthly_spend";
  envios ← columna_numerica df "total_shipments";
  asignar df "cliente_alto_valor"
    (zip_with (λ g e, a_entero (Numero.gtb g (Fin 1500) || Numero.gtb e (Fin 50))) gasto envios);;
  mret df.

(** [crear_features_riesgo_churn(df)] *)
Definition crear_features_riesgo_churn (df : ref) : M ref :=
  (* Flag de inactividad prolongada *)
  recencia ← columna_numerica df "recencia_dias";
  asignar df "riesgo_inactividad"
    ((λ r, a_entero (Numero.gtb r (Fin VENTANA_RECENCIA_DIAS))) <$> recencia);;
  (* Flag de bajo engagement *)
  engagement ← columna_numerica df "engagement_score";
  asignar df "riesgo_bajo_engagement"
    ((λ e, a_entero (Numero.ltb e (Fin 30))) <$> engagement);;
  (* Flag de cliente nuevo sin actividad reciente *)
  antiguedad ← columna_numerica df "antiguedad_dias";
  recencia ← columna_numerica df "recencia_dias";
  asignar df "riesgo_nuevo_inactivo"
    (zip_with (λ a r, a_entero (Numero.ltb a (Fin 180) && Numero.gtb r (Fin 90)))
              antiguedad recencia);;
  (* Score de riesgo combinado *)
  ri ← columna_numerica df "riesgo_inactividad";
  rb ← columna_numerica df "riesgo_bajo_engagement";
  rn ← columna_numerica df "riesgo_nuevo_inactivo";
  asignar df "score_riesgo_churn"
    (de_numero <$> zip_with (λ i bn,
       Numero.add (Numero.add (Numero.mul i (Fin 3)) (Numero.mul bn.1 (Fin 2)))
                  (Numero.mul bn.2 (Fin 1))) ri (zip rb rn));;
  (* Categorizar nivel de riesgo *)
  s ← columna df "score_riesgo_churn";
  c ← cut_serie s [Fin (-1); Fin 0; Fin 2; Fin 4; Fin 6]
                  ["Bajo"; "Medio"; "Alto"; "Crítico"];
  asignar df "nivel_riesgo" c;;
  registrar_distribucion df "nivel_riesgo" ["Bajo"; "Medio"; "Alto"; "Crítico"];;
  mret df.

(** [generar_todas_features(df)] *)
Definition generar_todas_features (df : ref) : M ref :=
  df ← calcular_recencia df "last_purchase_date" None;
  df ← calcular_antiguedad df "signup_date" None;
  df ← categorizar_monetary df "monthly_spend";
  df ← categorizar_frequency df "total_shipments";
  df ← calcular_engagement_score df;
  df ← crear_features_comportamiento df;
  crear_features_riesgo_churn df.

End Features.

(** ** transformacion/bronze_a_silver.py *)

Module BronzeASilver.

(** [df.replace(viejo, np.nan)] *)
Definition reemplazar (viejo : string) (t : tabla) : tabla :=
  fmap (M := list) (λ c, if celda_eqb c (Texto viejo) then Nulo else c) <$> t.

(** [col.endswith(sufijo)] *)
Definition termina_con (sufijo col : string) : bool :=
  let n := String.length col in
  let m := String.length sufijo in
  Nat.leb m n && String.eqb (substring (n - m) m col) sufijo.

(** [df.columns] *)
Definition columnas (t : tabla) : list string := (map_to_list t).*1.

(** Paso 4: conversión de tipos. *)
Definition convertir_tipos `{Pandas} (df : ref) : M ref :=
  t ← leer df;
  df ← crear (reemplazar "NULL" t);
  t ← leer df;
  df ← crear (reemplazar "" t);
  t ← leer df;
  df ← crear (reemplazar "N/A" t);
  para_cada (λ df columna,
    t ← leer df;
    match t !! columna with
    | Some s => asignar df columna (to_numeric <$> s);; mret df
    | None => mret df
    end) ["monthly_spend"; "total_shipments"; "churn_label"] df.

(** Corrección de las dos columnas acotadas, como en el paso 5. *)
Definition corregir_gasto_y_envios (df : ref) : M ref :=
  df ← Limpieza.corregir_outliers df "monthly_spend" "cap";
  Limpieza.corregir_outliers df "total_shipments" "cap".

(** Paso 5: detección y corrección de outliers. *)
Definition paso_outliers (df : ref) : M ref :=
  df ← Limpieza.detectar_outliers df ["monthly_spend"; "total_shipments"];
  df ← corregir_gasto_y_envios df;
  t ← leer df;
  let columnas_outlier := filter (λ col, termina_con "_is_outlier" col = true) (columnas t) in
  crear (foldr delete t columnas_outlier).

(** Pasos 2 a 6 de [transformar_bronze_a_silver]: la secuencia de limpieza
    entre la carga del archivo y el hashing. *)
Definition limpiar `{Pandas} (df : ref) : M ref :=
  df ← Limpieza.detectar_duplicados df "customer_id";
  df ← Limpieza.normalizar_fechas df ["signup_date"; "last_purchase_date"];
  df ← convertir_tipos df;
  df ← paso_outliers df;
  Limpieza.manejar_valores_nulos df Limpieza.ESTRATEGIA_NULOS.

(** Pasos 2 a 7: limpieza y hashing de los datos sensibles. *)
Definition transformar `{Pandas} `{Python} (df : ref) : M ref :=
  df ← limpiar df;
  Hashing.hashear_datos_sensibles df COLUMNAS_SENSIBLES "_hash".

End BronzeASilver.

(** ** Instancias concretas para los ejemplos *)

Module Ejemplo.

Definition digito (c : ascii) : option Z :=
  let n := Z.of_nat (nat_of_ascii c) in
  if ((48 <=? n) && (n <=? 57))%Z then Some (n - 48)%Z else None.

Fixpoint entero_desde (acc : Z) (s : string) : option Z :=
  match s with
  | EmptyString => Some acc
  | String c r => d ← digito c; entero_desde (acc * 10 + d)%Z r
  end.

Definition entero (s : string) : option Z :=
  match s with
  | EmptyString => None
  | _ => entero_desde 0%Z s
  end.

(** Días desde 1970-01-01 de una fecha civil. *)
Definition dias_civiles (y m d : Z) : Z :=
  let y' := (if m <=? 2 then y - 1 else y)%Z in
  let era := (y' / 400)%Z in
  let yoe := (y' - era * 400)%Z in
  let mp := ((m + 9) mod 12)%Z in
  let doy := ((153 * mp + 2) / 5 + d - 1)%Z in
  let doe := (yoe * 365 + yoe / 4 - yoe / 100 + doy)%Z in
  (era * 146097 + doe - 719468)%Z.

(** Lectura de fechas en el formato [AAAA-MM-DD]. *)
Definition fecha_iso (s : string) : option Z :=
  if (Nat.eqb (String.length s) 10 && String.eqb (substring 4 1 s) "-"
      && String.eqb (substring 7 1 s) "-")%bool then
    y ← entero (substring 0 4 s);
    m ← entero (substring 5 2 s);
    d ← entero (substring 8 2 s);
    if ((1 <=? m) && (m <=? 12) && (1 <=? d) && (d <=? 31))%Z
    then Some (dias_civiles y m d) else None
  else None.

(** Lectura de fechas con barras, con el día o el mes en primer lugar. *)
Definition fecha_barras (dia_primero : bool) (s : string) : option Z :=
  if (Nat.eqb (String.length s) 10 && String.eqb (substring 2 1 s) "/"
      && String.eqb (substring 5 1 s) "/")%bool then
    a ← entero (substring 0 2 s);
    b ← entero (substring 3 2 s);
    y ← entero (substring 6 4 s);
    let d := if dia_primero then a else b in
    let m := if dia_primero then b else a in
    if ((1 <=? m) && (m <=? 12) && (1 <=? d) && (d <=? 31))%Z
    then Some (dias_civiles y m d) else None
  else None.

Inductive formato := AnioMesDia | MesDiaAnio | DiaMesAnio.

Definition fecha_con (f : formato) (s : string) : option Z :=
  match f with
  | AnioMesDia => fecha_iso s
  | MesDiaAnio => fecha_barras false s
  | DiaMesAnio => fecha_barras true s
  end.

(** Formato que se infiere de un texto: con barras, el mes va primero
    salvo que el primer número no pueda ser un mes. *)
Definition formato_de (s : string) : option formato :=
  if bool_decide (is_Some (fecha_iso s)) then Some AnioMesDia
  else if bool_decide (is_Some (fecha_barras false s)) then Some MesDiaAnio
  else if bool_decide (is_Some (fecha_barras true s)) then Some DiaMesAnio
  else None.

(** Formato de la columna: el de su primera celda no nula. *)
Definition formato_inferido (columna : serie) : option formato :=
  match filter (λ c, es_nulo c = false) columna with
  | Texto s :: _ => formato_de s
  | _ => None
  end.

(** Con un formato inferido todas las celdas se leen con él; sin formato,
    cada celda se lee por separado con el suyo. *)
Definition pandas_ejemplo : Pandas := {|
  fecha_de columna c :=
    match c with
    | Texto s =>
        match formato_inferido columna with
        | Some f => fecha_con f s
        | None => f ← formato_de s; fecha_con f s
        end
    | _ => None
    end;
  numero_de c := match c with
                 | Texto s => match entero s with Some z => Numero.de_Z z | None => NaN end
                 | _ => NaN
                 end;
  moda s := head (filter (λ c, es_nulo c = false) s)
|}.

Definition python_ejemplo : Python := {|
  str_valor c := match c with Texto s => s | _ => "valor" end;
  sha256_hexdigest s := "sha256:" ++ s
|}.

(** Tabla con un gasto negativo, uno excesivo y un número de envíos
    excesivo. *)
Definition tabla_outliers : tabla :=
  {[ "customer_id" := [Texto "C002"; Texto "C003"; Texto "C004"; Texto "C005"];
     "monthly_spend" := [Num (-50); Num 99999; Num 1200; Nulo];
     "total_shipments" := [Num 15; Num 1000; Num 45; Num 12] ]}.

(** Primera fila sin etiqueta y segunda fila sin fecha de última compra. *)
Definition tabla_orden : tabla :=
  {[ "last_purchase_date" := [Fecha 19800; Nulo];
     "churn_label" := [Nulo; Num 1] ]}.

(** Las estrategias configuradas con la eliminación de filas en primer
    lugar. *)
Definition eliminar_primero : list (string * string) :=
  [("churn_label", "eliminar");
   ("phone", "MISSING");
   ("monthly_spend", "mediana");
   ("total_shipments", "mediana");
   ("last_purchase_date", "ffill")].

(** Los rellenos configurados en orden inverso. *)
Definition rellenos_invertidos : list (string * string) :=
  [("last_purchase_date", "ffill");
   ("total_shipments", "mediana");
   ("monthly_spend", "mediana");
   ("phone", "MISSING")].

(** Tabla con nulos en todas las columnas con estrategia y en
    [signup_date]. *)
Definition tabla_nulos : tabla :=
  {[ "customer_id" := [Texto "C001"; Texto "C002"; Texto "C003"; Texto "C004"];
     "phone" := [Texto "555-0101"; Nulo; Texto "555-0103"; Texto "555-0104"];
     "signup_date" := [Nulo; Fecha 19000; Fecha 19100; Fecha 19200];
     "last_purchase_date" := [Nulo; Fecha 19800; Nulo; Fecha 19900];
     "monthly_spend" := [Num 100; Nulo; Num 300; Num 50];
     "total_shipments" := [Num 12; Num 15; Nulo; Num 45];
     "churn_label" := [Num 0; Num 1; Num 0; Nulo] ]}.

(** Un cliente inactivo (200 días) con engagement 50 y antigüedad 400, y
    otro activo. *)
Definition tabla_riesgo : tabla :=
  {[ "recencia_dias" := [Num 200; Num 10];
     "engagement_score" := [Num 50; Num 80];
     "antiguedad_dias" := [Num 400; Num 500] ]}.

(** Escenario de la especificación: un cliente con recencia 0, sin envíos ni
    gasto, junto a otro con recencia 100 y envíos y gasto positivos. *)
Definition tabla_engagement : tabla :=
  {[ "recencia_dias" := [Num 0; Num 100];
     "total_shipments" := [Num 0; Num 20];
     "monthly_spend" := [Num 0; Num 800] ]}.

(** Lote de un solo cliente: su recencia es 0 y también el máximo. *)
Definition tabla_un_cliente : tabla :=
  {[ "recencia_dias" := [Num 0];
     "total_shipments" := [Num 12];
     "monthly_spend" := [Num 450] ]}.

(** Dos clientes de la capa silver. El primero tiene la compra más reciente
    del lote y se registró ese mismo día; el segundo no tiene gasto ni
    envíos. *)
Definition tabla_bordes : tabla :=
  {[ "customer_id" := [Texto "C001"; Texto "C002"];
     "signup_date" := [Fecha 19900; Fecha 19000];
     "last_purchase_date" := [Fecha 19900; Fecha 19870];
     "monthly_spend" := [Num 500; Num 0];
     "total_shipments" := [Num 10; Num 0] ]}.

(** Tabla como la deja la secuencia de limpieza. *)
Definition tabla_limpia : tabla :=
  {[ "customer_id" := [Texto "C001"; Texto "C002"; Texto "C003"];
     "full_name" := [Texto "Juan Perez"; Texto "Maria Garcia"; Texto "Carlos Rodriguez"];
     "phone" := [Texto "555-0101"; Texto "MISSING"; Texto "555-0103"];
     "signup_date" := [Fecha 19372; Fecha 19509; Fecha 19723];
     "last_purchase_date" := [Fecha 20209; Fecha 20072; Fecha 20240];
     "monthly_spend" := [Num (901 # 2); Num 1200; Num 0];
     "total_shipments" := [Num 12; Num 45; Num 500];
     "churn_label" := [Num 0; Num 1; Num 0] ]}.

(** Dos filas de C1 con fechas distintas y una fila de C2 repetida por
    completo. *)
Definition tabla_duplicados : tabla :=
  {[ "customer_id" := [Texto "C1"; Texto "C2"; Texto "C1"; Texto "C2"];
     "last_purchase_date" := [Texto "2024-01-01"; Texto "2024-03-15";
                              Texto "2024-06-01"; Texto "2024-03-15"];
     "monthly_spend" := [Num 100; Num 200; Num 300; Num 200] ]}.

(** Dos columnas con las mismas fechas en formatos mezclados y en distinto
    orden. *)
Definition tabla_formatos : tabla :=
  {[ "signup_date" := [Texto "2024-01-15"; Texto "20/02/2024"];
     "last_purchase_date" := [Texto "20/02/2024"; Texto "2024-01-15"] ]}.

(** Claves que mezclan números y textos, cada una en dos filas. *)
Definition tabla_claves_mixtas : tabla :=
  {[ "customer_id" := [Texto "C1"; Num 7; Texto "C1"; Num 7];
     "last_purchase_date" := [Texto "2024-01-01"; Texto "2024-02-10";
                              Texto "2024-06-01"; Texto "2024-03-15"];
     "monthly_spend" := [Num 100; Num 200; Num 300; Num 400] ]}.

(** Dos filas distintas de un mismo cliente. *)
Definition tabla_clave_repetida : tabla :=
  {[ "customer_id" := [Texto "C1"; Texto "C1"];
     "last_purchase_date" := [Texto "2024-01-01"; Texto "2024-06-01"] ]}.

(** Tabla como la entrega la capa bronze: todo texto, con un cliente
    repetido, centinelas de valor ausente y valores fuera de rango. *)
Definition tabla_bronce : tabla :=
  {[ "customer_id" := [Texto "C001"; Texto "C002"; Texto "C002"; Texto "C003"];
     "full_name" := [Texto "Juan Perez"; Texto "Maria Garcia"; Texto "Maria Garcia";
                     Texto "Carlos Rodriguez"];
     "email" := [Texto "jperez@email.com"; Texto "m.garcia@provider.net";
                 Texto "m.garcia@provider.net"; Texto "NULL"];
     "phone" := [Texto "555-0101"; Texto "NULL"; Texto "555-0102"; Texto "N/A"];
     "signup_date" := [Texto "2023-01-15"; Texto "2023-06-01"; Texto "2023-06-01";
                       Texto "2024-01-01"];
     "last_purchase_date" := [Texto "2024-05-01"; Texto "2024-01-01"; Texto "2024-06-01";
                              Texto "NULL"];
     "monthly_spend" := [Texto "450"; Texto "-50"; Texto "99999"; Texto "NULL"];
     "total_shipments" := [Texto "12"; Texto "1000"; Texto "45"; Texto "7"];
     "churn_label" := [Texto "0"; Texto "1"; Texto "1"; Texto "0"] ]}.

(** Dos clientes con sus métricas; el segundo no tiene envíos. *)
Definition tabla_comportamiento : tabla :=
  {[ "monthly_spend" := [Num 500; Num 120];
     "total_shipments" := [Num 10; Num 0];
     "antiguedad_dias" := [Num 900; Num 30];
     "recencia_dias" := [Num 30; Num 0] ]}.

End Ejemplo.

(** ** Funciones de especificación *)

Module Especificacion.

(** Valor numérico de una celda de una columna numérica. *)
Definition valor (c : celda) : numero := default NaN (a_numero c).

(** Celda de [monthly_spend] tras la corrección. *)
Definition gasto_corregido (c : celda) : celda :=
  if Numero.ltb (valor c) (Fin 0) then Num 0
  else if Numero.gtb (valor c) (Fin UMBRAL_GASTO_MAXIMO) then Num UMBRAL_GASTO_MAXIMO
  else c.

(** Celda de [total_shipments] tras la corrección. *)
Definition envios_corregidos (c : celda) : celda :=
  if Numero.gtb (valor c) (Fin UMBRAL_ENVIOS_MAXIMO) then Num UMBRAL_ENVIOS_MAXIMO
  else c.

(** La columna, si existe, solo tiene celdas numéricas o nulas. *)
Definition numerica (t : tabla) (c : string) : bool :=
  match t !! c with
  | Some s => bool_decide (is_Some (Serie.numeros s))
  | None => true
  end.

(** La celda es nula o un número finito del intervalo [[lo, hi]]. *)
Definition entre (lo hi : Q) (c : celda) : Prop :=
  match a_numero c with
  | Some (Fin q) => (lo <= q)%Q ∧ (q <= hi)%Q
  | Some NaN => True
  | _ => False
  end.

(** La celda es nula o un número no mayor que [hi]. *)
Definition como_mucho (hi : Q) (c : celda) : Prop :=
  match a_numero c with
  | Some (Fin q) => (q <= hi)%Q
  | Some (Infinito s) => s = true
  | Some NaN => True
  | None => False
  end.

(** Columna que deja una estrategia de relleno; [None] si lanza. *)
Definition rellenar `{Pandas} (estrategia : string) (s : serie) : option serie :=
  if Nat.eqb (Serie.contar_nulos s) 0 then Some s
  else if String.eqb estrategia "MISSING" then Some (Serie.fillna (Texto "MISSING") s)
  else if String.eqb estrategia "mediana" then
    v ← Serie.numeros s; Some (Serie.fillna (de_numero (Serie.mediana v)) s)
  else if String.eqb estrategia "media" then
    v ← Serie.numeros s; Some (Serie.fillna (de_numero (Serie.media v)) s)
  else if String.eqb estrategia "moda" then
    m ← moda s; Some (Serie.fillna m s)
  else if String.eqb estrategia "ffill" then Some (Serie.ffill s)
  else Some s.

(** Tabla que deja una estrategia de relleno aplicada a su columna. *)
Definition rellenar_tabla `{Pandas} (ce : string * string) (t : tabla) : option tabla :=
  match t !! ce.1 with
  | None => Some t
  | Some s => s' ← rellenar ce.2 s; Some (<[ce.1 := s']> t)
  end.

Fixpoint rellenar_todas `{Pandas} (l : list (string * string)) (t : tabla) : option tabla :=
  match l with
  | [] => Some t
  | ce :: l' => t' ← rellenar_tabla ce t; rellenar_todas l' t'
  end.

(** Máscara de las filas que conserva [dropna(subset=[c])]. *)
Definition filas_no_nulas (s : serie) : list bool := (λ c, negb (es_nulo c)) <$> s.

(** Una estrategia es de relleno si no es la eliminación de filas. *)
Definition es_relleno (ce : string * string) : bool := negb (String.eqb ce.2 "eliminar").

(** Las cuatro estrategias de relleno configuradas. *)
Definition RELLENOS : list (string * string) := take 4 Limpieza.ESTRATEGIA_NULOS.

Definition ELIMINAR_ETIQUETA : string * string := ("churn_label", "eliminar").

(** Cadena formada solo por espacios en blanco (o vacía). *)
Fixpoint solo_espacios (s : string) : bool :=
  match s with
  | EmptyString => true
  | String c r => Hashing.es_espacio c && solo_espacios r
  end.

(** Valor 0/1 de un indicador. *)
Definition indicador (b : bool) : numero := Fin (if b then 1 else 0).

(** Score de riesgo de una fila a partir de sus tres indicadores. *)
Definition score_riesgo (inactividad bajo_engagement nuevo_inactivo : numero) : numero :=
  Numero.add
    (Numero.add (Numero.mul inactividad (Fin 3)) (Numero.mul bajo_engagement (Fin 2)))
    (Numero.mul nuevo_inactivo (Fin 1)).

Definition BINS_RIESGO : list numero := [Fin (-1); Fin 0; Fin 2; Fin 4; Fin 6].
Definition ETIQUETAS_RIESGO : list string := ["Bajo"; "Medio"; "Alto"; "Crítico"].

(** Score de riesgo de cada fila cuando las columnas de recencia, engagement
    y antigüedad valen [vr], [ve] y [va]. *)
Definition scores_riesgo (vr ve va : list numero) : list numero :=
  zip_with (λ i bn, score_riesgo i bn.1 bn.2)
    ((λ r, indicador (Numero.gtb r (Fin VENTANA_RECENCIA_DIAS))) <$> vr)
    (zip ((λ e, indicador (Numero.ltb e (Fin 30))) <$> ve)
         (zip_with (λ a r, indicador (Numero.ltb a (Fin 180) && Numero.gtb r (Fin 90)))
                   va vr)).

(** Columnas que [crear_features_riesgo_churn] añade a la tabla. *)
Definition con_riesgo (vr ve va : list numero) (t : tabla) : tabla :=
  <["nivel_riesgo" := Features.cut BINS_RIESGO ETIQUETAS_RIESGO <$> scores_riesgo vr ve va]>
    (<["score_riesgo_churn" := de_numero <$> scores_riesgo vr ve va]>
      (<["riesgo_nuevo_inactivo" :=
           zip_with (λ a r, Features.a_entero
                              (Numero.ltb a (Fin 180) && Numero.gtb r (Fin 90))) va vr]>
        (<["riesgo_bajo_engagement" :=
             (λ e, Features.a_entero (Numero.ltb e (Fin 30))) <$> ve]>
          (<["riesgo_inactividad" :=
               (λ r, Features.a_entero (Numero.gtb r (Fin VENTANA_RECENCIA_DIAS))) <$> vr]>
             t)))).

Definition BINS_ENGAGEMENT : list numero := [Fin 0; Fin 25; Fin 50; Fin 75; Fin 100].
Definition ETIQUETAS_ENGAGEMENT : list string := ["Bajo"; "Medio"; "Alto"; "Muy_Alto"].

(** La fórmula del engagement con las palabras de la especificación:
    100 × (0.4 × (1 − recencia/máx) + 0.3 × envíos/máx + 0.3 × gasto/máx). *)
Definition formula_engagement (r rmax f fmax g gmax : numero) : numero :=
  Numero.mul
    (Numero.add
       (Numero.add (Numero.mul (Numero.sub (Fin 1) (Numero.div r rmax)) (Fin (4 # 10)))
                   (Numero.mul (Numero.div f fmax) (Fin (3 # 10))))
       (Numero.mul (Numero.div g gmax) (Fin (3 # 10))))
    (Fin 100).

(** Engagement de cada fila cuando las columnas de recencia, envíos y gasto
    valen [vr], [ve] y [vg]; los máximos son los del lote. *)
Definition engagement (vr ve vg : list numero) : list numero :=
  zip_with (λ r fg, formula_engagement r (Serie.maximo vr) fg.1 (Serie.maximo ve)
                                       fg.2 (Serie.maximo vg))
           vr (zip ve vg).

(** Contenido del objeto recibido por [calcular_engagement_score] al
    terminar: conserva las tres columnas de normalización. *)
Definition con_engagement (vr ve vg : list numero) (t : tabla) : tabla :=
  <["nivel_engagement" :=
      Features.cut BINS_ENGAGEMENT ETIQUETAS_ENGAGEMENT <$> engagement vr ve vg]>
    (<["engagement_score" := de_numero <$> engagement vr ve vg]>
      (<["gasto_norm" := (λ x, de_numero (Numero.div x (Serie.maximo vg))) <$> vg]>
        (<["frecuencia_norm" := (λ x, de_numero (Numero.div x (Serie.maximo ve))) <$> ve]>
          (<["recencia_norm" :=
               (λ x, de_numero (Numero.sub (Fin 1) (Numero.div x (Serie.maximo vr)))) <$> vr]>
             t)))).

(** Tabla que devuelve [calcular_engagement_score]. *)
Definition sin_normalizacion (t : tabla) : tabla :=
  delete "gasto_norm" (delete "frecuencia_norm" (delete "recencia_norm" t)).

(** Todos los valores son finitos y no negativos. *)
Definition no_negativos (v : list numero) : Prop :=
  Forall (λ x, ∃ q, x = Fin q ∧ (0 <= q)%Q) v.

(** El máximo del lote es finito y positivo. *)
Definition maximo_positivo (v : list numero) : Prop :=
  ∃ m, Serie.maximo v = Fin m ∧ (0 < m)%Q.

(** Todas las columnas tienen el mismo número de filas. *)
Definition rectangular (t : tabla) : bool :=
  forallb (λ p, Nat.eqb (length p.2) (Tabla.n_filas t)) (map_to_list t).

(** La columna de claves existe y ninguna clave se repite. *)
Definition claves_unicas (t : tabla) (columna_id : string) : bool :=
  match t !! columna_id with
  | Some ids => Nat.eqb (Serie.contar (Tabla.duplicated_todos celda_eqb ids)) 0
  | None => false
  end.

Definition es_fecha (c : celda) : bool :=
  match c with Fecha _ => true | _ => false end.

(** La columna, si existe, solo contiene fechas ya convertidas. *)
Definition fechas_canonicas (t : tabla) (c : string) : bool :=
  match t !! c with
  | Some s => forallb es_fecha s
  | None => true
  end.

(** Textos con los que la capa bronze escribe un valor ausente. *)
Definition es_centinela (c : celda) : bool :=
  celda_eqb c (Texto "NULL") || celda_eqb c (Texto "") || celda_eqb c (Texto "N/A").

(** Ninguna celda es nula ni un texto centinela de valor ausente. *)
Definition sin_faltantes (t : tabla) : bool :=
  forallb (λ p, forallb (λ c, negb (es_nulo c) && negb (es_centinela c)) p.2)
          (map_to_list t).

Definition es_numero (c : celda) : bool :=
  match c with Texto _ | Fecha _ => false | _ => true end.

(** La columna, si existe, es numérica y ninguna celda cumple [fuera]. *)
Definition columna_dentro (t : tabla) (c : string) (fuera : numero → bool) : bool :=
  match t !! c with
  | Some s => forallb (λ x, es_numero x && negb (fuera (valor x))) s
  | None => true
  end.

(** Ningún valor fuera de los umbrales de outliers. *)
Definition sin_outliers (t : tabla) : bool :=
  columna_dentro t "monthly_spend"
    (λ x, Numero.ltb x (Fin UMBRAL_GASTO_MINIMO) || Numero.gtb x (Fin UMBRAL_GASTO_MAXIMO))
  && columna_dentro t "total_shipments" (λ x, Numero.gtb x (Fin UMBRAL_ENVIOS_MAXIMO))
  && columna_dentro t "churn_label" (λ _, false).

(** Ninguna columna transitoria de marcas de outlier. *)
Definition sin_marcas_outlier (t : tabla) : bool :=
  forallb (λ col, negb (BronzeASilver.termina_con "_is_outlier" col))
          (BronzeASilver.columnas t).

(** Tabla de la capa limpia: claves únicas, fechas canónicas, sin outliers y
    sin valores ausentes. *)
Definition ya_limpia (t : tabla) : bool :=
  rectangular t
  && claves_unicas t "customer_id"
  && fechas_canonicas t "signup_date" && fechas_canonicas t "last_purchase_date"
  && sin_outliers t
  && sin_faltantes t
  && sin_marcas_outlier t.

(** Tabla con las columnas de marcas que añade [detectar_outliers]. *)
Definition con_marcas (t : tabla) : tabla :=
  let t1 :=
    match t !! "monthly_spend" with
    | Some s =>
        <["monthly_spend_is_outlier" :=
            Logico <$> zip_with orb
              ((λ c, Numero.ltb (valor c) (Fin UMBRAL_GASTO_MINIMO)) <$> s)
              ((λ c, Numero.gtb (valor c) (Fin UMBRAL_GASTO_MAXIMO)) <$> s)]> t
    | None => t
    end in
  match t !! "total_shipments" with
  | Some s =>
      <["total_shipments_is_outlier" :=
          Logico <$> ((λ c, Numero.gtb (valor c) (Fin UMBRAL_ENVIOS_MAXIMO)) <$> s)]> t1
  | None => t1
  end.

(** La celda es nula, un texto o de la clase [n]. *)
Definition compatible (n : nat) (c : celda) : Prop :=
  es_nulo c = true ∨ Tabla.clase c = 1%nat ∨ Tabla.clase c = n.

(** Orden de [sort_values([id, fecha], ascending=[True, False])] entre dos
    filas, dadas la clave [K] y la fecha ya convertida [D] de cada una. *)
Definition le_fila {A} (K D : A → celda) (x y : A) : bool :=
  if celda_eqb (K x) (K y) then Tabla.celda_geb (D x) (D y)
  else Tabla.celda_leb (K x) (K y).

(** Elementos que conserva [drop_duplicates(keep='first')]. *)
Definition primeros_desde {A} (eqb : A → A → bool) (vistos l : list A) : list A :=
  Serie.seleccionar (negb <$> Tabla.duplicated_desde eqb vistos l) l.

Definition primeros {A} (eqb : A → A → bool) (l : list A) : list A :=
  primeros_desde eqb [] l.

(** No hay dos posiciones distintas con elementos iguales. *)
Definition distintos {A} (eqb : A → A → bool) (l : list A) : Prop :=
  ∀ i j x y, i ≠ j → l !! i = Some x → l !! j = Some y → eqb x y = false.

(** Igualdad de las claves de dos filas. *)
Definition eqb_clave {A} (K : A → celda) (x y : A) : bool := celda_eqb (K x) (K y).

(** Celda de la posición [i] de una columna. *)
Definition celda_en (s : serie) (i : nat) : celda := default Nulo (s !! i).

(** Máscara de las filas que no repiten por completo una fila anterior:
    las que deja el paso 1 de [detectar_duplicados]. *)
Definition filas_unicas (t : tabla) : list bool :=
  negb <$> Tabla.duplicated Tabla.fila_eqb (Tabla.filas t).

(** La columna de fechas tal como la lee [detectar_duplicados]: sin las
    filas repetidas por completo, que se quitan antes de convertirla. *)
Definition fechas_vistas (t : tabla) (fechas : serie) : serie :=
  Serie.seleccionar (filas_unicas t) fechas.

(** Tabla que devuelve [detectar_duplicados]; [None] si lanza. *)
Definition sin_duplicados `{Pandas} (t : tabla) (columna_id : string) : option tabla :=
  let dup := Tabla.duplicated Tabla.fila_eqb (Tabla.filas t) in
  let t1 := if Nat.ltb 0 (Serie.contar dup) then Tabla.filtrar (negb <$> dup) t else t in
  ids ← t1 !! columna_id;
  if Nat.ltb 0 (Serie.contar (Tabla.duplicated_todos celda_eqb ids)) then
    match t1 !! "last_purchase_date" with
    | Some fechas =>
        let t1' := <["last_purchase_date_temp" := to_datetime fechas]> t1 in
        ids ← t1' !! columna_id;
        temp ← t1' !! "last_purchase_date_temp";
        if Tabla.ordenable ids then
          let t2 := Tabla.tomar (Tabla.orden_filas ids temp) t1' in
          ids2 ← t2 !! columna_id;
          Some (delete "last_purchase_date_temp"
                  (Tabla.filtrar (negb <$> Tabla.duplicated celda_eqb ids2) t2))
        else None
    | None => Some (Tabla.filtrar (negb <$> Tabla.duplicated celda_eqb ids) t1)
    end
  else Some t1.

(** La columna [c], si existe, no tiene nulos. *)
Definition sin_nulos_en (t : tabla) (c : string) : bool :=
  match t !! c with
  | Some s => Nat.eqb (Serie.contar_nulos s) 0
  | None => true
  end.

(** Tabla de trabajo de [hashear_datos_sensibles] tras su bucle: cada
    columna de [cols] presente ha recibido su columna de hashes. *)
Definition con_hashes `{Python} (sufijo : string) (cols : list string) (t : tabla) : tabla :=
  foldl (λ (T : tabla) c,
           match T !! c with
           | Some s => <[c ++ sufijo := Hashing.hashear_columna s SALT_HASHING]> T
           | None => T
           end) t cols.

(** Ninguna columna de [cols] se llama como la columna de hashes de
    otra. *)
Definition sin_choque_de_nombres (cols : list string) (sufijo : string) : bool :=
  forallb (λ c, forallb (λ d, negb (String.eqb c (d ++ sufijo))) cols) cols.

(** Segmento [g] de un valor [x] con umbrales [0 < a < b < c]: cada
    intervalo incluye su borde derecho y excluye el izquierdo; el 0, los
    negativos y los nulos no tienen segmento. *)
Definition segmento_por_umbrales (a b c : Q) (l1 l2 l3 l4 : string) (x g : celda) : Prop :=
  (x = Nulo → g = Nulo)
  ∧ ∀ q, valor x = Fin q →
      ((q <= 0)%Q → g = Nulo)
      ∧ ((0 < q)%Q ∧ (q <= a)%Q → g = Texto l1)
      ∧ ((a < q)%Q ∧ (q <= b)%Q → g = Texto l2)
      ∧ ((b < q)%Q ∧ (q <= c)%Q → g = Texto l3)
      ∧ ((c < q)%Q → g = Texto l4).

(** Columnas que [crear_features_comportamiento] añade a la tabla cuando
    las columnas de gasto, envíos, antigüedad y recencia valen [vg], [ve],
    [va] y [vr]. *)
Definition con_comportamiento (vg ve va vr : list numero) (t : tabla) : tabla :=
  <["cliente_alto_valor" :=
      zip_with (λ g e, Features.a_entero
                         (Numero.gtb g (Fin 1500) || Numero.gtb e (Fin 50))) vg ve]>
    (<["cliente_activo_reciente" :=
         (λ r, Features.a_entero (Numero.leb r (Fin 90))) <$> vr]>
      (<["dias_entre_compras" :=
           de_numero <$> zip_with (λ a e, Numero.div a (Features.reemplazar_cero e)) va ve]>
        (<["categoria_ticket" :=
             Features.cut [Fin 0; Fin 50; Fin 100; Fin 200; Infinito false]
                          ["Bajo"; "Medio"; "Alto"; "Premium"]
             <$> zip_with (λ g e, Numero.div g (Features.reemplazar_cero e)) vg ve]>
          (<["gasto_por_envio" :=
               de_numero <$> zip_with (λ g e, Numero.div g (Features.reemplazar_cero e))
                                      vg ve]>
             t)))).

(** Columnas que añade [generar_todas_features]. *)
Definition COLUMNAS_FEATURES : list string :=
  ["recencia_dias"; "categoria_recencia"; "antiguedad_dias"; "categoria_antiguedad";
   "segmento_gasto"; "segmento_frecuencia"; "engagement_score"; "nivel_engagement";
   "gasto_por_envio"; "categoria_ticket"; "dias_entre_compras";
   "cliente_activo_reciente"; "cliente_alto_valor";
   "riesgo_inactividad"; "riesgo_bajo_engagement"; "riesgo_nuevo_inactivo";
   "score_riesgo_churn"; "nivel_riesgo"].

(** Columnas temporales de [calcular_engagement_score]. *)
Definition COLUMNAS_NORMALIZACION : list string :=
  ["recencia_norm"; "frecuencia_norm"; "gasto_norm"].

(** Recencia y antigüedad de cada fila respecto a la compra más reciente
    del lote, con las fechas de última compra [fl] y de registro [fs]. *)
Definition recencias (fl : list (option Z)) : serie :=
  Features.dias_desde (Features.fecha_maxima fl) <$> fl.

Definition antiguedades (fl fs : list (option Z)) : serie :=
  Features.dias_desde (Features.fecha_maxima fl) <$> fs.

(** Tabla tras las cuatro primeras funciones de [generar_todas_features]. *)
Definition con_rfm (fl fs : list (option Z)) (sg se : serie) (t : tabla) : tabla :=
  <["segmento_frecuencia" :=
      Features.cut BINS_FRECUENCIA_ENVIOS ETIQUETAS_FRECUENCIA <$> (valor <$> se)]>
    (<["segmento_gasto" :=
         Features.cut BINS_GASTO_MENSUAL ETIQUETAS_GASTO <$> (valor <$> sg)]>
      (<["categoria_antiguedad" :=
           Features.cut [Fin 0; Fin 180; Fin 365; Fin 730; Infinito false]
             ["Nuevo"; "Establecido"; "Veterano"; "Antiguo"]
           <$> (valor <$> antiguedades fl fs)]>
        (<["antiguedad_dias" := antiguedades fl fs]>
          (<["categoria_recencia" :=
               Features.cut [Fin 0; Fin 30; Fin 90; Fin 180; Infinito false]
                 ["Muy_Reciente"; "Reciente"; "Inactivo"; "Muy_Inactivo"]
               <$> (valor <$> recencias fl)]>
            (<["recencia_dias" := recencias fl]> t))))).

(** Contenido final del objeto del llamador de [generar_todas_features]:
    llega hasta el engagement y conserva las columnas de normalización. *)
Definition a_medio_procesar (fl fs : list (option Z)) (sg se : serie) (t : tabla) : tabla :=
  con_engagement (valor <$> recencias fl) (valor <$> se) (valor <$> sg)
    (con_rfm fl fs sg se t).

(** Tabla que devuelve [generar_todas_features]. *)
Definition con_todas_las_features (fl fs : list (option Z)) (sg se : serie) (t : tabla) : tabla :=
  con_riesgo (valor <$> recencias fl)
    (engagement (valor <$> recencias fl) (valor <$> se) (valor <$> sg))
    (valor <$> antiguedades fl fs)
    (con_comportamiento (valor <$> sg) (valor <$> se)
       (valor <$> antiguedades fl fs) (valor <$> recencias fl)
       (sin_normalizacion (a_medio_procesar fl fs sg se t))).

(** El cómputo no crea objetos. *)
Definition conserva {A} (m : M A) : Prop :=
  ∀ h a h', m h = Some (a, h') → length h' = length h.

(** Cuando termina, el cómputo devuelve el objeto [df] y no crea ninguno. *)
Definition mismo_objeto (df : ref) (m : M ref) : Prop :=
  ∀ h r h', m h = Some (r, h') → r = df ∧ length h' = length h.

(** La etapa escribe en el objeto del llamador: cuando termina, lo que
    devuelve es ese mismo objeto con su contenido final. *)
Definition en_sitio (f : ref → M ref) : Prop :=
  ∀ t T orig alias, ejecutar f t = Some (T, orig, alias) → alias = true ∧ orig = T.

(** La etapa es pura para el llamador: su tabla queda como estaba y el
    resultado es un objeto nuevo. *)
Definition pura (f : ref → M ref) : Prop :=
  ∀ t T orig alias, ejecutar f t = Some (T, orig, alias) → orig = t ∧ alias = false.

(** La etapa termina y el objeto que devuelve contiene [T]; los objetos ya
    existentes siguen en el almacén. *)
Definition devuelve (m : M ref) (h : almacen) (T : tabla) : Prop :=
  ∃ df' h', m h = Some (df', h') ∧ h' !! df' = Some T ∧ (length h ≤ length h')%nat.

(** Columna [c] de la tabla que devuelve la etapa [f] sobre [t]. *)
Definition columna_de_resultado (f : ref → M ref) (t : tabla) (c : string) : option serie :=
  resultado f t ≫= (λ t' : tabla, t' !! c).

End Especificacion.

Export Especificacion.

(** * Propiedades *)

Local Open Scope list_scope.

(** ** Ejecución de las primitivas del almacén *)

Lemma bind_ejecuta {A B} (m : M A) (f : A → M B) h :
  (m ≫= f) h = match m h with Some (x, h') => f x h' | None => None end.
Proof. reflexivity. Qed.

Lemma ret_ejecuta {A} (x : A) (h : almacen) : (mret x : M A) h = Some (x, h).
Proof. reflexivity. Qed.

Lemma leer_ejecuta (h : almacen) r t :
  h !! r = Some t → leer r h = Some (t, h).
Proof. intros E. unfold leer. by rewrite E. Qed.

Lemma columna_ejecuta (h : almacen) r t c s :
  h !! r = Some t → t !! c = Some s → columna r c h = Some (s, h).
Proof. intros E E'. unfold columna. by rewrite E, E'. Qed.

Lemma asignar_ejecuta (h : almacen) r t c s :
  h !! r = Some t → asignar r c s h = Some ((), <[r := <[c := s]> t]> h).
Proof. intros E. unfold asignar. by rewrite E. Qed.

Lemma almacen_insert_eq (h : almacen) r t t' :
  h !! r = Some t → <[r := t']> h !! r = Some t'.
Proof. intros E. apply list_lookup_insert_eq. by eapply lookup_lt_Some. Qed.

Lemma almacen_insert_insert (h : almacen) r t t' :
  <[r := t']> (<[r := t]> h) = <[r := t']> h.
Proof. apply list_insert_insert_eq. Qed.

Lemma almacen_insert_id (h : almacen) r t :
  h !! r = Some t → <[r := t]> h = h.
Proof. apply list_insert_id. Qed.

(** ** Series *)

Lemma numeros_valor s v :
  Serie.numeros s = Some v → v = valor <$> s.
Proof.
  unfold Serie.numeros. intros E. apply mapM_Some in E.
  induction E as [|c x s v Ec _ IH]; simpl; [done|].
  unfold valor at 1. rewrite Ec. simpl. by f_equal.
Qed.

Lemma numeros_fmap_conserva (f : celda → celda) s :
  is_Some (Serie.numeros s) →
  (∀ c, is_Some (a_numero c) → is_Some (a_numero (f c))) →
  is_Some (Serie.numeros (f <$> s)).
Proof.
  unfold Serie.numeros. rewrite !mapM_is_Some. intros Hs Hf.
  apply Forall_fmap. eapply Forall_impl; [exact Hs|].
  intros c Hc. apply Hf, Hc.
Qed.

Lemma poner_fmap (p : celda → bool) v s :
  Serie.poner (p <$> s) v s = (λ c, if p c then v else c) <$> s.
Proof. induction s as [|c s IH]; csimpl; [done|]. by rewrite IH. Qed.

Lemma poner_sin_marcas (p : celda → bool) v s :
  Serie.contar (p <$> s) = 0%nat → Serie.poner (p <$> s) v s = s.
Proof.
  unfold Serie.contar. induction s as [|c s IH]; csimpl; [done|].
  rewrite filter_cons. destruct (p c) eqn:Ep.
  - rewrite decide_True by done. simpl. lia.
  - rewrite decide_False by (by intros ?). intros E. f_equal. by apply IH.
Qed.

Lemma menor_que_valor s x :
  is_Some (Serie.numeros s) →
  Serie.menor_que s x = Some ((λ c, Numero.ltb (valor c) x) <$> s).
Proof.
  intros [v Hv]. unfold Serie.menor_que. rewrite Hv. simpl.
  apply numeros_valor in Hv as ->. by rewrite <- list_fmap_compose.
Qed.

Lemma mayor_que_valor s x :
  is_Some (Serie.numeros s) →
  Serie.mayor_que s x = Some ((λ c, Numero.gtb (valor c) x) <$> s).
Proof.
  intros [v Hv]. unfold Serie.mayor_que. rewrite Hv. simpl.
  apply numeros_valor in Hv as ->. by rewrite <- list_fmap_compose.
Qed.

(** ** Corrección de outliers *)

Lemma cuando_asignar (h : almacen) df t c s (p : celda → bool) v :
  h !! df = Some t → t !! c = Some s →
  cuando (Nat.ltb 0 (Serie.contar (p <$> s)))
         (asignar df c (Serie.poner (p <$> s) v s)) h
  = Some ((), <[df := <[c := (λ x, if p x then v else x) <$> s]> t]> h).
Proof.
  intros Eh Et. unfold cuando. destruct (Nat.ltb 0 _) eqn:E.
  - rewrite (asignar_ejecuta _ _ t) by done. by rewrite poner_fmap.
  - apply Nat.ltb_ge in E.
    rewrite <- poner_fmap, poner_sin_marcas by lia.
    rewrite insert_id by done. by rewrite list_insert_id.
Qed.

Lemma gasto_corregido_compone (s : serie) :
  (λ x, if Numero.gtb (valor x) (Fin UMBRAL_GASTO_MAXIMO)
        then Num UMBRAL_GASTO_MAXIMO else x)
    <$> ((λ x, if Numero.ltb (valor x) (Fin 0) then Num 0 else x) <$> s)
  = gasto_corregido <$> s.
Proof.
  rewrite <- list_fmap_compose. apply list_fmap_ext. intros _ c _. simpl.
  unfold gasto_corregido. by destruct (Numero.ltb (valor c) (Fin 0)).
Qed.

Lemma corregir_gasto_ejecuta (h : almacen) df t s :
  h !! df = Some t → t !! "monthly_spend" = Some s → is_Some (Serie.numeros s) →
  Limpieza.corregir_outliers df "monthly_spend" "cap" h
  = Some (df, <[df := <["monthly_spend" := gasto_corregido <$> s]> t]> h).
Proof.
  intros Eh Et Hs. unfold Limpieza.corregir_outliers.
  rewrite bind_ejecuta, (leer_ejecuta _ _ t) by done. rewrite Et. simpl.
  rewrite bind_ejecuta, (columna_ejecuta _ _ t _ s) by done.
  rewrite bind_ejecuta, menor_que_valor by done. simpl.
  rewrite bind_ejecuta, (cuando_asignar _ _ t) by done.
  set (s1 := (λ x, if Numero.ltb (valor x) (Fin 0) then Num 0 else x) <$> s).
  assert (Hs1 : is_Some (Serie.numeros s1)).
  { apply numeros_fmap_conserva; [done|]. intros c Hc.
    by destruct (Numero.ltb (valor c) (Fin 0)). }
  rewrite bind_ejecuta.
  rewrite (columna_ejecuta _ _ (<["monthly_spend" := s1]> t) _ s1);
    [|by eapply almacen_insert_eq|by rewrite lookup_insert_eq].
  rewrite bind_ejecuta, mayor_que_valor by done. simpl.
  rewrite bind_ejecuta.
  rewrite (cuando_asignar _ _ (<["monthly_spend" := s1]> t));
    [|by eapply almacen_insert_eq|by rewrite lookup_insert_eq].
  rewrite insert_insert_eq, list_insert_insert_eq.
  unfold s1. by rewrite gasto_corregido_compone.
Qed.

Lemma alter_presente (t : tabla) c s (f : serie → serie) :
  t !! c = Some s → alter f c t = <[c := f s]> t.
Proof.
  intros E. apply map_eq. intros k. rewrite lookup_alter, lookup_insert.
  case_decide; simplify_eq; [by rewrite E|done].
Qed.

Lemma alter_ausente (t : tabla) c (f : serie → serie) :
  t !! c = None → alter f c t = t.
Proof.
  intros E. apply map_eq. intros k. rewrite lookup_alter.
  case_decide; simplify_eq; [by rewrite E|done].
Qed.

Lemma corregir_envios_ejecuta (h : almacen) df t s :
  h !! df = Some t → t !! "total_shipments" = Some s → is_Some (Serie.numeros s) →
  Limpieza.corregir_outliers df "total_shipments" "cap" h
  = Some (df, <[df := <["total_shipments" := envios_corregidos <$> s]> t]> h).
Proof.
  intros Eh Et Hs. unfold Limpieza.corregir_outliers.
  rewrite bind_ejecuta, (leer_ejecuta _ _ t) by done. rewrite Et. simpl.
  rewrite bind_ejecuta, (columna_ejecuta _ _ t _ s) by done.
  rewrite bind_ejecuta, mayor_que_valor by done. simpl.
  rewrite bind_ejecuta, (cuando_asignar _ _ t) by done. done.
Qed.

Lemma corregir_ausente_ejecuta (h : almacen) df t c metodo :
  h !! df = Some t → t !! c = None →
  Limpieza.corregir_outliers df c metodo h = Some (df, h).
Proof.
  intros Eh Et. unfold Limpieza.corregir_outliers.
  rewrite bind_ejecuta, (leer_ejecuta _ _ t) by done. by rewrite Et.
Qed.

(** Resultado de las dos correcciones: el mismo objeto, con cada columna
    presente sustituida por su versión corregida. *)
Lemma corregir_gasto_y_envios_ejecuta (h : almacen) df t :
  h !! df = Some t →
  numerica t "monthly_spend" = true → numerica t "total_shipments" = true →
  BronzeASilver.corregir_gasto_y_envios df h
  = Some (df, <[df := alter (fmap envios_corregidos) "total_shipments"
                       (alter (fmap gasto_corregido) "monthly_spend" t)]> h).
Proof.
  intros Eh Hg He. unfold BronzeASilver.corregir_gasto_y_envios.
  rewrite bind_ejecuta.
  set (t1 := alter (fmap gasto_corregido) "monthly_spend" t).
  assert (E1 : Limpieza.corregir_outliers df "monthly_spend" "cap" h
               = Some (df, <[df := t1]> h)).
  { unfold t1. destruct (t !! "monthly_spend") as [s|] eqn:Es.
    - rewrite (alter_presente _ _ s) by done.
      apply corregir_gasto_ejecuta; [done..|].
      unfold numerica in Hg. rewrite Es in Hg. by apply bool_decide_eq_true in Hg.
    - rewrite alter_ausente, list_insert_id by done.
      by eapply corregir_ausente_ejecuta. }
  rewrite E1.
  assert (Eh1 : <[df := t1]> h !! df = Some t1) by by eapply almacen_insert_eq.
  assert (Et1 : t1 !! "total_shipments" = t !! "total_shipments").
  { unfold t1. by rewrite lookup_alter_ne. }
  destruct (t !! "total_shipments") as [s|] eqn:Es.
  - rewrite (alter_presente _ _ s) by done.
    rewrite (corregir_envios_ejecuta _ _ t1 s); [|done|by rewrite Et1|].
    + by rewrite list_insert_insert_eq.
    + unfold numerica in He. rewrite Es in He. by apply bool_decide_eq_true in He.
  - rewrite alter_ausente by done.
    by rewrite (corregir_ausente_ejecuta _ _ t1).
Qed.

Lemma resultado_en_sitio (f : ref → M ref) (t t' : tabla) :
  f 0%nat [t] = Some (0%nat, <[0%nat := t']> [t]) → resultado f t = Some t'.
Proof. intros E. unfold resultado, ejecutar. by rewrite E. Qed.

Lemma resultado_definido (o : option tabla) :
  bool_decide (is_Some o) = true → ∃ t', o = Some t'.
Proof. intros E. by apply bool_decide_eq_true in E. Qed.

(** Lectura de una columna de la tabla devuelta. *)
Lemma columna_observada (o : option tabla) (t' : tabla) c :
  o = Some t' → t' !! c = o ≫= (λ t : tabla, t !! c).
Proof. by intros ->. Qed.

Lemma numero_no_menor_ni_mayor c :
  Numero.ltb (valor c) (Fin 0) = true →
  Numero.gtb (valor c) (Fin UMBRAL_GASTO_MAXIMO) = true → False.
Proof.
  unfold Numero.gtb, UMBRAL_GASTO_MAXIMO.
  destruct (valor c) as [q|[]|]; simpl; try done.
  unfold Numero.Qltb. rewrite !negb_true_iff. intros H1 H2.
  assert (¬ (0 <= q)%Q) by (intros ?%Qle_bool_iff; congruence).
  assert (¬ (q <= 15000)%Q) by (intros ?%Qle_bool_iff; congruence). lra.
Qed.

Lemma gasto_corregido_entre c :
  is_Some (a_numero c) → entre 0 UMBRAL_GASTO_MAXIMO (gasto_corregido c).
Proof.
  intros [x Hx]. unfold gasto_corregido, valor, Numero.gtb. rewrite Hx. simpl.
  unfold entre, UMBRAL_GASTO_MAXIMO.
  destruct x as [q|[]|]; simpl; try done; try (rewrite Hx; done).
  unfold Numero.Qltb.
  destruct (Qle_bool 0 q) eqn:E0; simpl; [|split; lra].
  destruct (Qle_bool q 15000) eqn:E1; simpl; [|split; lra].
  rewrite Hx. split; by apply Qle_bool_iff.
Qed.

Lemma envios_corregidos_como_mucho c :
  is_Some (a_numero c) → como_mucho UMBRAL_ENVIOS_MAXIMO (envios_corregidos c).
Proof.
  intros [x Hx]. unfold envios_corregidos, valor, Numero.gtb. rewrite Hx. simpl.
  unfold como_mucho, UMBRAL_ENVIOS_MAXIMO.
  destruct x as [q|[]|]; simpl; try done; try (rewrite Hx; done).
  unfold Numero.Qltb.
  destruct (Qle_bool q 500) eqn:E1; simpl; [|lra].
  rewrite Hx. by apply Qle_bool_iff.
Qed.

Lemma numerica_celdas (t : tabla) c s :
  numerica t c = true → t !! c = Some s → Forall (λ x, is_Some (a_numero x)) s.
Proof.
  unfold numerica. intros H E. rewrite E in H.
  apply bool_decide_eq_true in H. by apply mapM_is_Some in H.
Qed.

(** C8. Tras la corrección con el método 'cap', todo valor de monthly_spend
    queda en [0, 15000] y todo valor de total_shipments es como mucho 500:
    los gastos negativos pasan a 0, los gastos por encima del máximo pasan al
    máximo, y los envíos por encima del máximo pasan al máximo. Las celdas
    nulas siguen nulas. *)
Theorem correccion_cap_acota (t : tabla) :
  numerica t "monthly_spend" = true → numerica t "total_shipments" = true →
  ∃ t', resultado BronzeASilver.corregir_gasto_y_envios t = Some t' ∧
    (∀ s, t' !! "monthly_spend" = Some s →
          Forall (entre UMBRAL_GASTO_MINIMO UMBRAL_GASTO_MAXIMO) s) ∧
    (∀ s, t' !! "total_shipments" = Some s →
          Forall (como_mucho UMBRAL_ENVIOS_MAXIMO) s) ∧
    (∀ s i c, t !! "monthly_spend" = Some s → s !! i = Some c →
       ∃ s' c', t' !! "monthly_spend" = Some s' ∧ s' !! i = Some c' ∧
         (Numero.ltb (valor c) (Fin 0) = true → c' = Num 0) ∧
         (Numero.gtb (valor c) (Fin UMBRAL_GASTO_MAXIMO) = true →
          c' = Num UMBRAL_GASTO_MAXIMO)) ∧
    (∀ s i c, t !! "total_shipments" = Some s → s !! i = Some c →
       ∃ s' c', t' !! "total_shipments" = Some s' ∧ s' !! i = Some c' ∧
         (Numero.gtb (valor c) (Fin UMBRAL_ENVIOS_MAXIMO) = true →
          c' = Num UMBRAL_ENVIOS_MAXIMO)).
Proof.
  intros Hg He. eexists. split.
  { apply resultado_en_sitio. by apply corregir_gasto_y_envios_ejecuta. }
  repeat split.
  - intros s. rewrite lookup_alter_ne by done. rewrite lookup_alter.
    rewrite decide_True by done.
    destruct (t !! "monthly_spend") as [s0|] eqn:E; [|done]. simpl. intros [= <-].
    apply Forall_fmap. pose proof (numerica_celdas _ _ _ Hg E) as Hn.
    eapply Forall_impl; [exact Hn|].
    intros c Hc. by apply gasto_corregido_entre.
  - intros s. rewrite lookup_alter, decide_True by done.
    rewrite lookup_alter_ne by done.
    destruct (t !! "total_shipments") as [s0|] eqn:E; [|done]. simpl. intros [= <-].
    apply Forall_fmap. pose proof (numerica_celdas _ _ _ He E) as Hn.
    eapply Forall_impl; [exact Hn|].
    intros c Hc. by apply envios_corregidos_como_mucho.
  - intros s i c Es Ei. exists (gasto_corregido <$> s), (gasto_corregido c).
    rewrite lookup_alter_ne by done. rewrite lookup_alter, decide_True by done.
    rewrite Es. simpl. rewrite list_lookup_fmap, Ei. simpl.
    repeat split; unfold gasto_corregido.
    + by intros ->.
    + intros H2. change (Numero.gtb (valor c) (Fin UMBRAL_GASTO_MAXIMO) = true) in H2.
      destruct (Numero.ltb (valor c) (Fin 0)) eqn:H1.
      * by destruct (numero_no_menor_ni_mayor c).
      * by rewrite H2.
  - intros s i c Es Ei. exists (envios_corregidos <$> s), (envios_corregidos c).
    rewrite lookup_alter, decide_True by done. rewrite lookup_alter_ne by done.
    rewrite Es. simpl. rewrite list_lookup_fmap, Ei. simpl.
    repeat split; unfold envios_corregidos. intros H2.
    change (Numero.gtb (valor c) (Fin UMBRAL_ENVIOS_MAXIMO) = true) in H2.
    by rewrite H2.
Qed.

Lemma correccion_cap_acota_witness :
  numerica Ejemplo.tabla_outliers "monthly_spend" = true
  ∧ numerica Ejemplo.tabla_outliers "total_shipments" = true
  ∧ ∃ t', resultado BronzeASilver.corregir_gasto_y_envios Ejemplo.tabla_outliers = Some t'
      ∧ t' !! "monthly_spend" = Some [Num 0; Num 15000; Num 1200; Nulo]
      ∧ t' !! "total_shipments" = Some [Num 15; Num 500; Num 45; Num 12]
      ∧ (∀ s, t' !! "monthly_spend" = Some s →
              Forall (entre UMBRAL_GASTO_MINIMO UMBRAL_GASTO_MAXIMO) s)
      ∧ (∀ s, t' !! "total_shipments" = Some s →
              Forall (como_mucho UMBRAL_ENVIOS_MAXIMO) s).
Proof.
  split; [vm_compute; reflexivity|]. split; [vm_compute; reflexivity|].
  destruct (correccion_cap_acota Ejemplo.tabla_outliers)
    as (t' & E & Hg & He & _); [vm_compute; reflexivity..|].
  exists t'. split; [exact E|].
  split; [rewrite (columna_observada _ _ _ E); vm_compute; reflexivity|].
  split; [rewrite (columna_observada _ _ _ E); vm_compute; reflexivity|].
  split; [exact Hg|exact He].
Defined.

(** ** Tratamiento de nulos *)

Section Nulos.
Context `{Pandas}.

Arguments Limpieza.aplicar_estrategia : simpl never.

Lemma levantar_ejecuta {A} (o : option A) (h : almacen) :
  levantar o h = (λ x, (x, h)) <$> o.
Proof. by destruct o. Qed.

(** Una estrategia de relleno escribe en el mismo objeto la tabla que
    describe [rellenar_tabla]. *)
Lemma aplicar_relleno_ejecuta (h : almacen) df t ce :
  h !! df = Some t → es_relleno ce = true →
  Limpieza.aplicar_estrategia df ce h
  = (λ t', (df, <[df := t']> h)) <$> rellenar_tabla ce t.
Proof.
  intros Eh Hr. destruct ce as [c e]. unfold es_relleno in Hr. simpl in Hr.
  apply negb_true_iff in Hr.
  unfold Limpieza.aplicar_estrategia, rellenar_tabla, rellenar. simpl.
  rewrite bind_ejecuta, (leer_ejecuta _ _ t) by done.
  destruct (t !! c) as [s|] eqn:Es; simpl; [|by rewrite list_insert_id].
  destruct (Nat.eqb (Serie.contar_nulos s) 0); simpl.
  { by rewrite insert_id, list_insert_id. }
  destruct (String.eqb e "MISSING").
  { rewrite bind_ejecuta, (asignar_ejecuta _ _ t) by done. done. }
  destruct (String.eqb e "mediana").
  { rewrite bind_ejecuta, levantar_ejecuta.
    destruct (Serie.numeros s) as [v|]; simpl; [|done].
    rewrite bind_ejecuta, (asignar_ejecuta _ _ t) by done. done. }
  destruct (String.eqb e "media").
  { rewrite bind_ejecuta, levantar_ejecuta.
    destruct (Serie.numeros s) as [v|]; simpl; [|done].
    rewrite bind_ejecuta, (asignar_ejecuta _ _ t) by done. done. }
  destruct (String.eqb e "moda").
  { rewrite bind_ejecuta, levantar_ejecuta.
    destruct (moda s) as [v|]; simpl; [|done].
    rewrite bind_ejecuta, (asignar_ejecuta _ _ t) by done. done. }
  destruct (String.eqb e "ffill").
  { rewrite bind_ejecuta, (asignar_ejecuta _ _ t) by done. done. }
  rewrite Hr. simpl. by rewrite insert_id, list_insert_id.
Qed.

Lemma para_cada_rellenos (l : list (string * string)) (h : almacen) df t :
  h !! df = Some t → forallb es_relleno l = true →
  para_cada Limpieza.aplicar_estrategia l df h
  = (λ t', (df, <[df := t']> h)) <$> rellenar_todas l t.
Proof.
  revert h t. induction l as [|ce l IH]; intros h t Eh Hl; simpl.
  - by rewrite list_insert_id.
  - simpl in Hl. apply andb_true_iff in Hl as [Hce Hl].
    rewrite bind_ejecuta, (aplicar_relleno_ejecuta _ _ t) by done.
    destruct (rellenar_tabla ce t) as [t1|]; simpl; [|done].
    rewrite (IH _ t1); [|by eapply almacen_insert_eq|done].
    destruct (rellenar_todas l t1) as [t2|]; simpl; [|done].
    by rewrite list_insert_insert_eq.
Qed.

Lemma para_cada_app {A} (f : ref → A → M ref) (l1 l2 : list A) df (h : almacen) :
  para_cada f (l1 ++ l2) df h
  = match para_cada f l1 df h with
    | Some (df', h') => para_cada f l2 df' h'
    | None => None
    end.
Proof.
  revert df h. induction l1 as [|x l1 IH]; intros df h; simpl; [done|].
  rewrite !bind_ejecuta. destruct (f df x h) as [[df' h']|]; [|done]. apply IH.
Qed.

Lemma rellenar_tabla_conmuta (a b : string * string) (t : tabla) :
  a.1 ≠ b.1 →
  (rellenar_tabla a t ≫= rellenar_tabla b) = (rellenar_tabla b t ≫= rellenar_tabla a).
Proof.
  intros Hab. unfold rellenar_tabla.
  destruct (t !! a.1) as [sa|] eqn:Ea; destruct (t !! b.1) as [sb|] eqn:Eb; simpl.
  - destruct (rellenar a.2 sa) as [sa'|] eqn:Ra;
      destruct (rellenar b.2 sb) as [sb'|] eqn:Rb; simpl;
      rewrite ?lookup_insert_ne, ?Ea, ?Eb by done; simpl;
      rewrite ?Ra, ?Rb; simpl; try done.
    by rewrite insert_insert_ne.
  - destruct (rellenar a.2 sa) as [sa'|] eqn:Ra; simpl;
      rewrite ?lookup_insert_ne, ?Ea, ?Eb by done; simpl; rewrite ?Ra; done.
  - destruct (rellenar b.2 sb) as [sb'|] eqn:Rb; simpl;
      rewrite ?lookup_insert_ne, ?Ea, ?Eb by done; simpl; rewrite ?Rb; done.
  - by rewrite Ea, Eb.
Qed.

(** El resultado de una lista de rellenos sobre columnas distintas no
    depende del orden de la lista. *)
Lemma rellenar_todas_permutacion (l l' : list (string * string)) :
  l ≡ₚ l' → NoDup l.*1 → ∀ t, rellenar_todas l t = rellenar_todas l' t.
Proof.
  induction 1 as [|x l l' Hp IH|x y l|l l' l'' Hp IH Hp' IH']; intros Hn t.
  - done.
  - simpl. destruct (rellenar_tabla x t) as [t1|]; simpl; [|done].
    apply IH. by inversion Hn.
  - simpl.
    assert (Hxy : y.1 ≠ x.1).
    { rewrite !fmap_cons in Hn. apply NoDup_cons in Hn as [Hn _].
      intros E. apply Hn. rewrite E. by left. }
    pose proof (rellenar_tabla_conmuta y x t Hxy) as Hc.
    destruct (rellenar_tabla y t) as [ty|]; destruct (rellenar_tabla x t) as [tx|];
      simpl in *; try done.
    + by rewrite Hc.
    + by rewrite Hc.
    + by rewrite <- Hc.
  - rewrite IH by done. apply IH'. by rewrite <- Hp.
Qed.

Lemma aplicar_eliminar_ejecuta (h : almacen) df t c :
  h !! df = Some t →
  Limpieza.aplicar_estrategia df (c, "eliminar") h
  = match t !! c with
    | None => Some (df, h)
    | Some s =>
        if Nat.eqb (Serie.contar_nulos s) 0 then Some (df, h)
        else Some (length h, (h ++ [Tabla.filtrar (filas_no_nulas s) t])%list)
    end.
Proof.
  intros Eh. unfold Limpieza.aplicar_estrategia.
  rewrite bind_ejecuta, (leer_ejecuta _ _ t) by done.
  destruct (t !! c) as [s|]; [|done].
  by destruct (Nat.eqb (Serie.contar_nulos s) 0).
Qed.

Lemma rellenos_permutados (l : list (string * string)) :
  l ≡ₚ RELLENOS → forallb es_relleno l = true ∧ NoDup l.*1.
Proof.
  intros Hp. split.
  - apply forallb_forall. intros x Hx.
    assert (Hr : forallb es_relleno RELLENOS = true) by reflexivity.
    eapply forallb_forall in Hr; [exact Hr|]. by eapply Permutation_in.
  - rewrite Hp. by apply (bool_decide_unpack _).
Qed.

(** C3 (enmendada). Los cuatro rellenos configurados (constante para phone,
    mediana para monthly_spend y total_shipments, forward-fill para
    last_purchase_date) dan la misma tabla en cualquier orden, siempre que la
    eliminación de filas de churn_label se aplique al final, como en la
    configuración. *)
Theorem rellenos_en_cualquier_orden (l : list (string * string)) (t : tabla) :
  l ≡ₚ RELLENOS →
  resultado (λ df, Limpieza.manejar_valores_nulos df (l ++ [ELIMINAR_ETIQUETA])%list) t
  = resultado (λ df, Limpieza.manejar_valores_nulos df Limpieza.ESTRATEGIA_NULOS) t.
Proof.
  intros Hp. destruct (rellenos_permutados l Hp) as [Hr Hn].
  unfold resultado, ejecutar. f_equal.
  change Limpieza.ESTRATEGIA_NULOS with (RELLENOS ++ [ELIMINAR_ETIQUETA])%list.
  unfold Limpieza.manejar_valores_nulos. rewrite !para_cada_app.
  rewrite (para_cada_rellenos l _ _ t) by done.
  rewrite (para_cada_rellenos RELLENOS _ _ t) by done.
  by rewrite (rellenar_todas_permutacion l RELLENOS Hp Hn).
Qed.

Lemma rellenar_tabla_otra (ce : string * string) (t t' : tabla) c :
  rellenar_tabla ce t = Some t' → c ≠ ce.1 → t' !! c = t !! c.
Proof.
  unfold rellenar_tabla. intros E Hc.
  destruct (t !! ce.1) as [s|]; simpl in E; [|by simplify_eq].
  destruct (rellenar ce.2 s) as [s'|]; simpl in E; [|done].
  simplify_eq. by rewrite lookup_insert_ne.
Qed.

Lemma rellenar_todas_otra (l : list (string * string)) (t t' : tabla) c :
  rellenar_todas l t = Some t' → c ∉ l.*1 → t' !! c = t !! c.
Proof.
  revert t. induction l as [|ce l IH]; intros t E Hc; simpl in E.
  - by simplify_eq.
  - destruct (rellenar_tabla ce t) as [t1|] eqn:E1; simpl in E; [|done].
    rewrite fmap_cons in Hc. apply not_elem_of_cons in Hc as [Hc Hl].
    rewrite (IH t1) by done. by eapply rellenar_tabla_otra.
Qed.

(** La ejecución con las estrategias configuradas: primero los rellenos
    sobre el objeto recibido y después, si quedan etiquetas nulas, un objeto
    nuevo sin esas filas. *)
Lemma manejar_configurado_ejecuta (h : almacen) df t :
  h !! df = Some t →
  Limpieza.manejar_valores_nulos df Limpieza.ESTRATEGIA_NULOS h
  = match rellenar_todas RELLENOS t with
    | None => None
    | Some t1 =>
        match t1 !! "churn_label" with
        | None => Some (df, <[df := t1]> h)
        | Some e =>
            if Nat.eqb (Serie.contar_nulos e) 0 then Some (df, <[df := t1]> h)
            else Some (length h,
                       (<[df := t1]> h ++ [Tabla.filtrar (filas_no_nulas e) t1])%list)
        end
    end.
Proof.
  intros Eh. unfold Limpieza.manejar_valores_nulos.
  change Limpieza.ESTRATEGIA_NULOS with (RELLENOS ++ [ELIMINAR_ETIQUETA])%list.
  rewrite para_cada_app, (para_cada_rellenos RELLENOS _ _ t) by done.
  destruct (rellenar_todas RELLENOS t) as [t1|]; simpl; [|done].
  rewrite bind_ejecuta. unfold ELIMINAR_ETIQUETA.
  rewrite (aplicar_eliminar_ejecuta _ _ t1) by by eapply almacen_insert_eq.
  destruct (t1 !! "churn_label") as [e|]; [|done].
  destruct (Nat.eqb (Serie.contar_nulos e) 0); [done|].
  by rewrite length_insert.
Qed.

(** Tabla devuelta con las estrategias configuradas. *)
Lemma manejar_configurado_resultado (t t' : tabla) :
  resultado (λ df, Limpieza.manejar_valores_nulos df Limpieza.ESTRATEGIA_NULOS) t = Some t' →
  ∃ t1, rellenar_todas RELLENOS t = Some t1 ∧
    match t1 !! "churn_label" with
    | None => t' = t1
    | Some e =>
        if Nat.eqb (Serie.contar_nulos e) 0 then t' = t1
        else t' = Tabla.filtrar (filas_no_nulas e) t1
    end.
Proof.
  unfold resultado, ejecutar.
  rewrite (manejar_configurado_ejecuta _ _ t) by done.
  destruct (rellenar_todas RELLENOS t) as [t1|]; [|done].
  intros E. exists t1. split; [done|].
  destruct (t1 !! "churn_label") as [e|]; [|by simplify_eq/=].
  destruct (Nat.eqb (Serie.contar_nulos e) 0); by simplify_eq/=.
Qed.

Lemma rellenar_todas_cons ce (l : list (string * string)) (t : tabla) :
  rellenar_todas (ce :: l) t = rellenar_tabla ce t ≫= rellenar_todas l.
Proof. reflexivity. Qed.

Lemma rellenar_ffill_primera_nula (t : tabla) c resto :
  t !! c = Some (Nulo :: resto) →
  rellenar_tabla (c, "ffill") t
  = Some (<[c := Nulo :: Serie.ffill_desde Nulo resto]> t).
Proof. intros E. unfold rellenar_tabla. simpl. by rewrite E. Qed.

Lemma seleccionar_todas {A} (l : list A) :
  Serie.seleccionar (replicate (length l) true) l = l.
Proof. induction l as [|x l IH]; simpl; [done|]. by rewrite IH. Qed.

End Nulos.

Lemma rellenos_en_cualquier_orden_witness :
  Ejemplo.rellenos_invertidos ≡ₚ RELLENOS
  ∧ resultado (λ df, Limpieza.manejar_valores_nulos (H := Ejemplo.pandas_ejemplo) df
                       (Ejemplo.rellenos_invertidos ++ [ELIMINAR_ETIQUETA])%list)
              Ejemplo.tabla_nulos
    = resultado (λ df, Limpieza.manejar_valores_nulos (H := Ejemplo.pandas_ejemplo) df
                         Limpieza.ESTRATEGIA_NULOS)
                Ejemplo.tabla_nulos.
Proof.
  assert (Hp : Ejemplo.rellenos_invertidos ≡ₚ RELLENOS).
  { change Ejemplo.rellenos_invertidos with (reverse RELLENOS).
    apply reverse_Permutation. }
  split; [exact Hp|].
  exact (rellenos_en_cualquier_orden (H := Ejemplo.pandas_ejemplo)
           Ejemplo.rellenos_invertidos Ejemplo.tabla_nulos Hp).
Defined.

(** C3 (contraejemplo). Con la eliminación de filas antes del forward-fill,
    la fila que sigue a la eliminada ya no hereda su fecha: el orden
    configurado deja la fecha 19800 y la permutación deja un nulo. *)
Lemma orden_de_estrategias_contraejemplo :
  Ejemplo.eliminar_primero ≡ₚ Limpieza.ESTRATEGIA_NULOS
  ∧ (resultado (λ df, Limpieza.manejar_valores_nulos (H := Ejemplo.pandas_ejemplo) df
                        Limpieza.ESTRATEGIA_NULOS) Ejemplo.tabla_orden
       ≫= (λ t, t !! "last_purchase_date")) = Some [Fecha 19800]
  ∧ (resultado (λ df, Limpieza.manejar_valores_nulos (H := Ejemplo.pandas_ejemplo) df
                        Ejemplo.eliminar_primero) Ejemplo.tabla_orden
       ≫= (λ t, t !! "last_purchase_date")) = Some [Nulo]
  ∧ ¬ (∀ (l : list (string * string)) (t : tabla),
         l ≡ₚ Limpieza.ESTRATEGIA_NULOS →
         resultado (λ df, Limpieza.manejar_valores_nulos (H := Ejemplo.pandas_ejemplo) df l) t
         = resultado (λ df, Limpieza.manejar_valores_nulos (H := Ejemplo.pandas_ejemplo) df
                              Limpieza.ESTRATEGIA_NULOS) t).
Proof.
  assert (Hp : Ejemplo.eliminar_primero ≡ₚ Limpieza.ESTRATEGIA_NULOS).
  { change Limpieza.ESTRATEGIA_NULOS with (RELLENOS ++ [ELIMINAR_ETIQUETA])%list.
    change Ejemplo.eliminar_primero with ([ELIMINAR_ETIQUETA] ++ RELLENOS)%list.
    apply Permutation_app_comm. }
  split; [exact Hp|]. split; [by vm_compute|]. split; [by vm_compute|].
  intros Hc. specialize (Hc _ Ejemplo.tabla_orden Hp).
  apply (f_equal (λ o, o ≫= (λ t : tabla, t !! "last_purchase_date"))) in Hc.
  vm_compute in Hc. discriminate Hc.
Qed.

(** C10. La etapa de nulos no garantiza una tabla sin nulos: ninguna
    estrategia está configurada para signup_date, de modo que su columna de
    salida es una selección de filas de la de entrada y un nulo nunca se
    rellena; un last_purchase_date nulo en la primera fila sigue nulo tras el
    forward-fill cuando esa fila se conserva; y hay una entrada concreta cuya
    salida contiene ambos nulos. *)
Theorem nulos_que_permanecen `{Pandas} :
  ("signup_date" ∉ Limpieza.ESTRATEGIA_NULOS.*1)
  ∧ (∀ (t t' : tabla) s,
       resultado (λ df, Limpieza.manejar_valores_nulos df Limpieza.ESTRATEGIA_NULOS) t = Some t' →
       t !! "signup_date" = Some s →
       ∃ m, t' !! "signup_date" = Some (Serie.seleccionar m s))
  ∧ (∀ (t t' : tabla) resto e resto_e,
       resultado (λ df, Limpieza.manejar_valores_nulos df Limpieza.ESTRATEGIA_NULOS) t = Some t' →
       t !! "last_purchase_date" = Some (Nulo :: resto) →
       t !! "churn_label" = Some (e :: resto_e) → es_nulo e = false →
       ∃ resto', t' !! "last_purchase_date" = Some (Nulo :: resto'))
  ∧ (∃ t' resto resto',
       resultado (λ df, Limpieza.manejar_valores_nulos df Limpieza.ESTRATEGIA_NULOS)
                 Ejemplo.tabla_nulos = Some t'
       ∧ t' !! "signup_date" = Some (Nulo :: resto)
       ∧ t' !! "last_purchase_date" = Some (Nulo :: resto')).
Proof.
  split; [by apply (bool_decide_unpack _)|]. split; [|split].
  - intros t t' s Hr Es.
    apply manejar_configurado_resultado in Hr as (t1 & E1 & Ht').
    assert (E : t1 !! "signup_date" = Some s).
    { rewrite <- Es. eapply rellenar_todas_otra; [done|].
      by apply (bool_decide_unpack _). }
    assert (Hid : ∃ m, Some s = Some (Serie.seleccionar m s)).
    { exists (replicate (length s) true). by rewrite seleccionar_todas. }
    destruct (t1 !! "churn_label") as [e|]; [|subst; by rewrite E].
    destruct (Nat.eqb (Serie.contar_nulos e) 0); [subst; by rewrite E|].
    subst t'. exists (filas_no_nulas e). unfold Tabla.filtrar.
    by rewrite lookup_fmap, E.
  - intros t t' resto e resto_e Hr Ef Ee He.
    apply manejar_configurado_resultado in Hr as (t1 & E1 & Ht').
    assert (Ee1 : t1 !! "churn_label" = Some (e :: resto_e)).
    { rewrite <- Ee. eapply rellenar_todas_otra; [done|].
      by apply (bool_decide_unpack _). }
    assert (Ef1 : ∃ r, t1 !! "last_purchase_date" = Some (Nulo :: r)).
    { rewrite (rellenar_todas_permutacion RELLENOS
                 (("last_purchase_date", "ffill") :: take 3 RELLENOS)) in E1.
      - rewrite rellenar_todas_cons,
          (rellenar_ffill_primera_nula _ _ resto) in E1 by done.
        eexists. erewrite rellenar_todas_otra; [|exact E1|by apply (bool_decide_unpack _)].
        by rewrite lookup_insert_eq.
      - change RELLENOS with (take 3 RELLENOS ++ [("last_purchase_date", "ffill")])%list at 1.
        by rewrite Permutation_app_comm.
      - by apply (bool_decide_unpack _). }
    destruct Ef1 as [r Ef1]. rewrite Ee1 in Ht'.
    destruct (Nat.eqb (Serie.contar_nulos (e :: resto_e)) 0); [subst; eauto|].
    subst t'. unfold Tabla.filtrar. rewrite lookup_fmap, Ef1. simpl.
    rewrite He. simpl. eauto.
  - destruct (resultado_definido
                (resultado (λ df, Limpieza.manejar_valores_nulos df Limpieza.ESTRATEGIA_NULOS)
                           Ejemplo.tabla_nulos)) as [t' E]; [vm_compute; reflexivity|].
    exists t', [Fecha 19000; Fecha 19100], [Fecha 19800; Fecha 19800].
    split; [exact E|].
    split; rewrite (columna_observada _ _ _ E); vm_compute; reflexivity.
Qed.

Lemma nulos_que_permanecen_witness :
  ∃ t',
    resultado (λ df, Limpieza.manejar_valores_nulos (H := Ejemplo.pandas_ejemplo) df
                       Limpieza.ESTRATEGIA_NULOS) Ejemplo.tabla_nulos = Some t'
    ∧ t' !! "signup_date" = Some [Nulo; Fecha 19000; Fecha 19100]
    ∧ t' !! "last_purchase_date" = Some [Nulo; Fecha 19800; Fecha 19800]
    ∧ t' !! "monthly_spend" = Some [Num 100; Num 100; Num 300]
    ∧ ∃ m, t' !! "signup_date"
           = Some (Serie.seleccionar m [Nulo; Fecha 19000; Fecha 19100; Fecha 19200]).
Proof.
  destruct (nulos_que_permanecen (H := Ejemplo.pandas_ejemplo)) as (_ & Hs & _ & _).
  destruct (resultado_definido
              (resultado (λ df, Limpieza.manejar_valores_nulos (H := Ejemplo.pandas_ejemplo)
                                  df Limpieza.ESTRATEGIA_NULOS)
                         Ejemplo.tabla_nulos)) as [t' E]; [vm_compute; reflexivity|].
  exists t'. split; [exact E|].
  split; [rewrite (columna_observada _ _ _ E); vm_compute; reflexivity|].
  split; [rewrite (columna_observada _ _ _ E); vm_compute; reflexivity|].
  split; [rewrite (columna_observada _ _ _ E); vm_compute; reflexivity|].
  apply (Hs Ejemplo.tabla_nulos t'); [exact E|vm_compute; reflexivity].
Defined.

(** ** Hashing *)

Lemma lstrip_vacio s : Hashing.lstrip s = "" ↔ solo_espacios s = true.
Proof.
  induction s as [|c s IH]; simpl; [done|].
  destruct (Hashing.es_espacio c); simpl; [done|]. split; discriminate.
Qed.

Lemma lstrip_solo_espacios s : solo_espacios (Hashing.lstrip s) = solo_espacios s.
Proof.
  induction s as [|c s IH]; simpl; [done|].
  destruct (Hashing.es_espacio c) eqn:E; simpl; [done|]. by rewrite E.
Qed.

Lemma rev_app_solo_espacios s acc :
  solo_espacios (String.rev_app s acc) = solo_espacios s && solo_espacios acc.
Proof.
  revert acc. induction s as [|c s IH]; intros acc; simpl; [done|].
  rewrite IH. simpl. destruct (Hashing.es_espacio c), (solo_espacios s); done.
Qed.

Lemma rev_app_vacio s acc : String.rev_app s acc = "" → s = "" ∧ acc = "".
Proof.
  revert acc. induction s as [|c s IH]; intros acc; simpl; [done|].
  intros E. by apply IH in E as [_ ?].
Qed.

(** [strip] deja la cadena vacía exactamente cuando solo tiene espacios. *)
Lemma strip_vacio s : Hashing.strip s = "" ↔ solo_espacios s = true.
Proof.
  unfold Hashing.strip, String.rev. split.
  - intros E. apply rev_app_vacio in E as [E _].
    apply lstrip_vacio in E. rewrite rev_app_solo_espacios in E. simpl in E.
    rewrite andb_true_r in E. by rewrite lstrip_solo_espacios in E.
  - intros E.
    assert (E' : Hashing.lstrip (String.rev_app (Hashing.lstrip s) "") = "").
    { apply lstrip_vacio. rewrite rev_app_solo_espacios. simpl.
      by rewrite andb_true_r, lstrip_solo_espacios. }
    by rewrite E'.
Qed.

(** C9. hashear_valor es determinista: el mismo valor con el mismo salt da
    siempre la misma cadena, que para un valor presente es el SHA-256 de
    salt + valor; y para una entrada nula o formada solo por espacios en
    blanco devuelve el marcador 'NULL' en lugar de un hash. *)
Theorem hashear_valor_determinista `{Python} :
  (∀ v1 v2 salt1 salt2, v1 = v2 → salt1 = salt2 →
     Hashing.hashear_valor v1 salt1 = Hashing.hashear_valor v2 salt2)
  ∧ (∀ salt, Hashing.hashear_valor Nulo salt = "NULL")
  ∧ (∀ s salt, solo_espacios s = true → Hashing.hashear_valor (Texto s) salt = "NULL")
  ∧ (∀ s salt, solo_espacios s = false →
       Hashing.hashear_valor (Texto s) salt = sha256_hexdigest (salt +:+ s)).
Proof.
  repeat split.
  - by intros v1 v2 salt1 salt2 -> ->.
  - intros s salt E. unfold Hashing.hashear_valor. simpl.
    apply strip_vacio in E. by rewrite E.
  - intros s salt E. unfold Hashing.hashear_valor. simpl.
    destruct (String.eqb (Hashing.strip s) "") eqn:E'; [|done].
    apply String.eqb_eq, strip_vacio in E'. congruence.
Qed.

Lemma hashear_valor_determinista_witness :
  solo_espacios "   " = true
  ∧ solo_espacios " a@b.c " = false
  ∧ Hashing.hashear_valor (H := Ejemplo.python_ejemplo) (Texto "   ") SALT_HASHING = "NULL"
  ∧ Hashing.hashear_valor (H := Ejemplo.python_ejemplo) (Texto " a@b.c ") SALT_HASHING
    = sha256_hexdigest (Python := Ejemplo.python_ejemplo) (SALT_HASHING +:+ " a@b.c ")
  ∧ Hashing.hashear_valor (H := Ejemplo.python_ejemplo) (Texto "x") "s"
    = Hashing.hashear_valor (H := Ejemplo.python_ejemplo) (Texto "x") "s".
Proof.
  destruct (hashear_valor_determinista (H := Ejemplo.python_ejemplo))
    as (Hd & _ & Hb & Hh).
  split; [reflexivity|]. split; [reflexivity|].
  split; [apply Hb; reflexivity|]. split; [apply Hh; reflexivity|].
  apply Hd; reflexivity.
Defined.

(** ** Ejecución sobre un objeto modificado en sitio

    Mientras una etapa solo asigna columnas sobre el objeto [df], el almacén
    tiene la forma [<[df := T]> h]. *)

Section EnSitio.
Context (h : almacen) (df : nat) (t0 : tabla) (Eh : h !! df = Some t0).

Lemma sitio_inicio : h = <[df := t0]> h.
Proof. by rewrite list_insert_id. Qed.

Lemma sitio_leer (T : tabla) :
  leer df (<[df := T]> h) = Some (T, <[df := T]> h).
Proof. apply leer_ejecuta. by eapply almacen_insert_eq. Qed.

Lemma sitio_columna (T : tabla) c s :
  T !! c = Some s → columna df c (<[df := T]> h) = Some (s, <[df := T]> h).
Proof. intros E. eapply columna_ejecuta; [by eapply almacen_insert_eq|done]. Qed.

Lemma sitio_asignar (T : tabla) c s :
  asignar df c s (<[df := T]> h) = Some ((), <[df := <[c := s]> T]> h).
Proof.
  erewrite asignar_ejecuta by by eapply almacen_insert_eq.
  by rewrite list_insert_insert_eq.
Qed.

Lemma sitio_columna_numerica (T : tabla) c s v :
  T !! c = Some s → Serie.numeros s = Some v →
  Features.columna_numerica df c (<[df := T]> h) = Some (v, <[df := T]> h).
Proof.
  intros E Ev. unfold Features.columna_numerica.
  rewrite bind_ejecuta, (sitio_columna _ _ s) by done.
  by rewrite levantar_ejecuta, Ev.
Qed.

End EnSitio.

Lemma cut_serie_ejecuta (s : serie) v bins labels (h : almacen) :
  Serie.numeros s = Some v →
  Features.cut_serie s bins labels h = Some (Features.cut bins labels <$> v, h).
Proof.
  intros E. unfold Features.cut_serie.
  by rewrite bind_ejecuta, levantar_ejecuta, E.
Qed.

(** ** El registro de la distribución y las tablas sin filas *)

Lemma maximo_cota_inferior (n : nat) (xs : list nat) :
  n ∈ xs → (n ≤ foldr Nat.max 0%nat xs)%nat.
Proof.
  induction xs as [|x xs IH]; [by intros ?%elem_of_nil|].
  intros [->|Hn]%elem_of_cons; simpl; [lia|]. specialize (IH Hn). lia.
Qed.

Lemma maximo_cero (xs : list nat) :
  foldr Nat.max 0%nat xs = 0%nat ↔ Forall (λ x, x = 0%nat) xs.
Proof.
  induction xs as [|x xs IH]; simpl; [split; [constructor|done]|].
  rewrite Forall_cons, <- IH. lia.
Qed.

(** [len(df)] no es menor que la longitud de ninguna columna. *)
Lemma columna_cota (t : tabla) c s :
  t !! c = Some s → (length s ≤ Tabla.n_filas t)%nat.
Proof.
  intros E. unfold Tabla.n_filas. apply maximo_cota_inferior.
  apply list_elem_of_fmap. exists (c, s). split; [done|].
  by apply elem_of_map_to_list.
Qed.

Lemma n_filas_positivo (t : tabla) c s :
  t !! c = Some s → s ≠ [] → Tabla.n_filas t ≠ 0%nat.
Proof.
  intros E Hs. pose proof (columna_cota t c s E).
  destruct s; [done|]. simpl in *. lia.
Qed.

(** Una tabla tiene cero filas cuando todas sus columnas están vacías. *)
Lemma n_filas_cero (t : tabla) :
  Tabla.n_filas t = 0%nat ↔ ∀ c s, t !! c = Some s → s = [].
Proof.
  unfold Tabla.n_filas. rewrite maximo_cero, list.Forall_forall. split.
  - intros Hl c s E. apply length_zero_iff_nil. apply Hl.
    apply list_elem_of_fmap. exists (c, s). split; [done|].
    by apply elem_of_map_to_list.
  - intros Hc n ([c s] & -> & Hp)%list_elem_of_fmap.
    apply elem_of_map_to_list in Hp. by rewrite (Hc c s Hp).
Qed.

Lemma n_filas_cero_insert (t : tabla) c :
  Tabla.n_filas t = 0%nat → Tabla.n_filas (<[c := []]> t) = 0%nat.
Proof.
  rewrite !n_filas_cero. intros Ht k s.
  destruct (decide (k = c)) as [->|Hk].
  - rewrite lookup_insert_eq. by intros [= <-].
  - rewrite lookup_insert_ne by done. apply Ht.
Qed.

Lemma n_filas_cero_delete (t : tabla) c :
  Tabla.n_filas t = 0%nat → Tabla.n_filas (delete c t) = 0%nat.
Proof.
  rewrite !n_filas_cero. intros Ht k s.
  destruct (decide (k = c)) as [->|Hk].
  - by rewrite lookup_delete_eq.
  - rewrite lookup_delete_ne by done. apply Ht.
Qed.

(** El bucle del registro no cambia nada cuando la tabla tiene filas y
    lanza [ZeroDivisionError] cuando no tiene ninguna. *)
Lemma registrar_distribucion_ejecuta (h : almacen) df (T : tabla) nombre labels s :
  h !! df = Some T → T !! nombre = Some s → labels ≠ [] →
  Features.registrar_distribucion df nombre labels h
  = if Nat.eqb (Tabla.n_filas T) 0 then None else Some (df, h).
Proof.
  intros Eh Es Hl. unfold Features.registrar_distribucion.
  rewrite bind_ejecuta, (columna_ejecuta _ _ T _ s) by done.
  assert (Hd : Features.value_counts labels s ≠ []).
  { unfold Features.value_counts. by destruct labels. }
  revert Hd. generalize (Features.value_counts labels s). intros l Hd.
  destruct (Nat.eqb (Tabla.n_filas T) 0) eqn:E0.
  - destruct l as [|[e n] l]; [done|]. cbn [para_cada].
    rewrite bind_ejecuta, bind_ejecuta, (leer_ejecuta _ _ T) by done.
    rewrite bind_ejecuta, levantar_ejecuta.
    assert (Ep : Features.porcentaje (e, n).2 (Tabla.n_filas T) = None)
      by (unfold Features.porcentaje; by rewrite E0).
    by rewrite Ep.
  - clear Hd. induction l as [|[e n] l IH]; [done|]. cbn [para_cada].
    rewrite bind_ejecuta, bind_ejecuta, (leer_ejecuta _ _ T) by done.
    rewrite bind_ejecuta, levantar_ejecuta.
    assert (Ep : is_Some (Features.porcentaje (e, n).2 (Tabla.n_filas T)))
      by (unfold Features.porcentaje; rewrite E0; by eexists).
    destruct Ep as [q ->]. exact IH.
Qed.

Lemma con_filas_si {A} (T : tabla) c s (x : A) :
  T !! c = Some s → s ≠ [] →
  (if Nat.eqb (Tabla.n_filas T) 0 then None else Some x) = Some x.
Proof.
  intros Ec Hs. pose proof (n_filas_positivo T c s Ec Hs) as Hn.
  by apply Nat.eqb_neq in Hn as ->.
Qed.

Lemma numeros_fmap {A} (f : A → celda) (g : A → numero) (l : list A) :
  (∀ x, a_numero (f x) = Some (g x)) → Serie.numeros (f <$> l) = Some (g <$> l).
Proof.
  intros Hfg. unfold Serie.numeros. apply mapM_Some.
  apply Forall2_fmap. apply Forall_Forall2_diag.
  apply list.Forall_forall. intros x _. apply Hfg.
Qed.

Lemma a_numero_de_numero (x : numero) : a_numero (de_numero x) = Some x.
Proof. by destruct x as [q|[]|]. Qed.

Lemma numeros_de_numero (v : list numero) : Serie.numeros (de_numero <$> v) = Some v.
Proof.
  rewrite (numeros_fmap de_numero id); [by rewrite list_fmap_id|].
  apply a_numero_de_numero.
Qed.

Lemma numeros_a_entero {A} (p : A → bool) (l : list A) :
  Serie.numeros ((λ x, Features.a_entero (p x)) <$> l)
  = Some ((λ x, Fin (if p x then 1 else 0)) <$> l).
Proof. apply numeros_fmap. intros x. by destruct (p x). Qed.

(** ** Features de riesgo *)

Lemma numeros_indicador {A} (p : A → bool) (l : list A) :
  Serie.numeros ((λ x, Features.a_entero (p x)) <$> l)
  = Some ((λ x, indicador (p x)) <$> l).
Proof. apply numeros_fmap. intros x. by destruct (p x). Qed.

Lemma numeros_indicador2 {A B} (p : A → B → bool) (la : list A) (lb : list B) :
  Serie.numeros (zip_with (λ x y, Features.a_entero (p x y)) la lb)
  = Some (zip_with (λ x y, indicador (p x y)) la lb).
Proof.
  unfold Serie.numeros. apply mapM_Some.
  revert lb. induction la as [|x la IH]; intros [|y lb]; simpl; try constructor.
  - by destruct (p x y).
  - apply IH.
Qed.

Lemma crear_features_riesgo_ejecuta (h : almacen) df (t : tabla) sr se sa vr ve va :
  h !! df = Some t →
  t !! "recencia_dias" = Some sr → Serie.numeros sr = Some vr →
  t !! "engagement_score" = Some se → Serie.numeros se = Some ve →
  t !! "antiguedad_dias" = Some sa → Serie.numeros sa = Some va →
  Features.crear_features_riesgo_churn df h
  = if Nat.eqb (Tabla.n_filas (con_riesgo vr ve va t)) 0 then None
    else Some (df, <[df := con_riesgo vr ve va t]> h).
Proof.
  intros Eh Er Evr Ee Eve Ea Eva. unfold Features.crear_features_riesgo_churn.
  rewrite (sitio_inicio h df t Eh) at 1.
  rewrite bind_ejecuta, (sitio_columna_numerica _ _ _ Eh _ _ sr vr) by done.
  rewrite bind_ejecuta, (sitio_asignar _ _ _ Eh).
  rewrite bind_ejecuta, (sitio_columna_numerica _ _ _ Eh _ _ se ve)
    by (by simplify_map_eq).
  rewrite bind_ejecuta, (sitio_asignar _ _ _ Eh).
  rewrite bind_ejecuta, (sitio_columna_numerica _ _ _ Eh _ _ sa va)
    by (by simplify_map_eq).
  rewrite bind_ejecuta, (sitio_columna_numerica _ _ _ Eh _ _ sr vr)
    by (by simplify_map_eq).
  rewrite bind_ejecuta, (sitio_asignar _ _ _ Eh).
  rewrite bind_ejecuta.
  erewrite (sitio_columna_numerica _ _ _ Eh);
    [|by simplify_map_eq|apply numeros_indicador].
  rewrite bind_ejecuta.
  erewrite (sitio_columna_numerica _ _ _ Eh);
    [|by simplify_map_eq|apply numeros_indicador].
  rewrite bind_ejecuta.
  erewrite (sitio_columna_numerica _ _ _ Eh);
    [|by simplify_map_eq|apply numeros_indicador2].
  rewrite bind_ejecuta, (sitio_asignar _ _ _ Eh).
  rewrite bind_ejecuta.
  erewrite (sitio_columna _ _ _ Eh); [|by simplify_map_eq].
  rewrite bind_ejecuta.
  erewrite cut_serie_ejecuta; [|apply numeros_de_numero].
  rewrite bind_ejecuta, (sitio_asignar _ _ _ Eh).
  rewrite bind_ejecuta.
  erewrite registrar_distribucion_ejecuta;
    [|by eapply almacen_insert_eq|by simplify_map_eq|done].
  fold (scores_riesgo vr ve va). fold BINS_RIESGO ETIQUETAS_RIESGO.
  by destruct (Nat.eqb _ 0).
Qed.

(** Con al menos una fila la etapa termina. *)
Lemma crear_features_riesgo_con_filas (h : almacen) df (t : tabla) sr se sa vr ve va :
  h !! df = Some t →
  t !! "recencia_dias" = Some sr → Serie.numeros sr = Some vr →
  t !! "engagement_score" = Some se → Serie.numeros se = Some ve →
  t !! "antiguedad_dias" = Some sa → Serie.numeros sa = Some va →
  sr ≠ [] →
  Features.crear_features_riesgo_churn df h
  = Some (df, <[df := con_riesgo vr ve va t]> h).
Proof.
  intros Eh Er Evr Ee Eve Ea Eva Hs.
  rewrite (crear_features_riesgo_ejecuta h df t sr se sa vr ve va) by done.
  assert (Hn : Tabla.n_filas (con_riesgo vr ve va t) ≠ 0%nat).
  { apply (n_filas_positivo _ "recencia_dias" sr); [|done].
    unfold con_riesgo. by simplify_map_eq. }
  by apply Nat.eqb_neq in Hn as ->.
Qed.

Lemma numerica_numeros (t : tabla) c s :
  numerica t c = true → t !! c = Some s → Serie.numeros s = Some (valor <$> s).
Proof.
  unfold numerica. intros Hn E. rewrite E in Hn.
  apply bool_decide_eq_true in Hn as [v Hv]. rewrite Hv. f_equal.
  by apply numeros_valor.
Qed.

Lemma leb_no_ltb x y : Numero.leb x y = true → Numero.ltb y x = false.
Proof.
  destruct x as [a|[]|], y as [b|[]|]; simpl; try done.
  unfold Numero.Qltb. by intros ->.
Qed.

(** C1 (enmendada). Para un registro cuyo único indicador de riesgo es la
    inactividad (recencia mayor que la ventana de 180 días, engagement de al
    menos 30 y no nuevo-inactivo), crear_features_riesgo_churn asigna
    score_riesgo_churn = 3 y nivel_riesgo = 'Alto', el tercero de los cuatro
    niveles. *)
Theorem riesgo_solo_inactividad (t : tabla) sr se sa i cr ce ca :
  t !! "recencia_dias" = Some sr → numerica t "recencia_dias" = true →
  t !! "engagement_score" = Some se → numerica t "engagement_score" = true →
  t !! "antiguedad_dias" = Some sa → numerica t "antiguedad_dias" = true →
  sr !! i = Some cr → se !! i = Some ce → sa !! i = Some ca →
  Numero.gtb (valor cr) (Fin VENTANA_RECENCIA_DIAS) = true →
  Numero.leb (Fin 30) (valor ce) = true →
  Numero.ltb (valor ca) (Fin 180) && Numero.gtb (valor cr) (Fin 90) = false →
  ∃ t' ss sn,
    resultado Features.crear_features_riesgo_churn t = Some t'
    ∧ t' !! "score_riesgo_churn" = Some ss ∧ ss !! i = Some (Num 3)
    ∧ t' !! "nivel_riesgo" = Some sn ∧ sn !! i = Some (Texto "Alto")
    ∧ nth_error ETIQUETAS_RIESGO 2 = Some "Alto".
Proof.
  intros Er Nr Ee Ne Ea Na Ir Ie Ia Hr He Hn.
  pose proof (numerica_numeros _ _ _ Nr Er) as Vr.
  pose proof (numerica_numeros _ _ _ Ne Ee) as Ve.
  pose proof (numerica_numeros _ _ _ Na Ea) as Va.
  apply leb_no_ltb in He.
  assert (Es : scores_riesgo (valor <$> sr) (valor <$> se) (valor <$> sa) !! i
               = Some (Fin 3)).
  { unfold scores_riesgo. rewrite lookup_zip_with, lookup_zip_with.
    rewrite !list_lookup_fmap, lookup_zip_with, !list_lookup_fmap, Ir, Ie, Ia.
    cbn [fmap option_fmap option_map mbind option_bind fst snd].
    rewrite Hr, He, Hn. reflexivity. }
  eexists _, _, _. split.
  { apply resultado_en_sitio.
    eapply crear_features_riesgo_con_filas; try done. by intros ->. }
  unfold con_riesgo. split; [by simplify_map_eq|]. split.
  { by rewrite list_lookup_fmap, Es. }
  split; [by simplify_map_eq|]. split; [|done].
  by rewrite list_lookup_fmap, Es.
Qed.

Lemma riesgo_solo_inactividad_witness :
  ∃ t' ss sn,
    resultado Features.crear_features_riesgo_churn Ejemplo.tabla_riesgo = Some t'
    ∧ t' !! "score_riesgo_churn" = Some ss ∧ ss !! 0%nat = Some (Num 3)
    ∧ t' !! "nivel_riesgo" = Some sn ∧ sn !! 0%nat = Some (Texto "Alto")
    ∧ nth_error ETIQUETAS_RIESGO 2 = Some "Alto".
Proof.
  apply (riesgo_solo_inactividad Ejemplo.tabla_riesgo
           [Num 200; Num 10] [Num 50; Num 80] [Num 400; Num 500] 0%nat
           (Num 200) (Num 50) (Num 400)); reflexivity.
Defined.

(** C1 (contraejemplo). Un cliente con recencia 200, engagement 50 y
    antigüedad 400 solo tiene el indicador de inactividad; su score es 3 y su
    nivel es 'Alto', no 'Medio'. *)
Lemma riesgo_nivel_medio_contraejemplo :
  ∃ t',
    resultado Features.crear_features_riesgo_churn Ejemplo.tabla_riesgo = Some t'
    ∧ t' !! "riesgo_inactividad" = Some [Num 1; Num 0]
    ∧ t' !! "riesgo_bajo_engagement" = Some [Num 0; Num 0]
    ∧ t' !! "riesgo_nuevo_inactivo" = Some [Num 0; Num 0]
    ∧ t' !! "score_riesgo_churn" = Some [Num 3; Num 0]
    ∧ t' !! "nivel_riesgo" = Some [Texto "Alto"; Texto "Bajo"]
    ∧ nth_error ETIQUETAS_RIESGO 1 = Some "Medio"
    ∧ (t' !! "nivel_riesgo" ≫= (λ s, s !! 0%nat)) ≠ Some (Texto "Medio").
Proof.
  destruct (resultado_definido
              (resultado Features.crear_features_riesgo_churn Ejemplo.tabla_riesgo))
    as [t' E]; [vm_compute; reflexivity|].
  assert (En : t' !! "nivel_riesgo" = Some [Texto "Alto"; Texto "Bajo"]).
  { rewrite (columna_observada _ _ _ E); vm_compute; reflexivity. }
  exists t'. split; [exact E|].
  split; [rewrite (columna_observada _ _ _ E); vm_compute; reflexivity|].
  split; [rewrite (columna_observada _ _ _ E); vm_compute; reflexivity|].
  split; [rewrite (columna_observada _ _ _ E); vm_compute; reflexivity|].
  split; [rewrite (columna_observada _ _ _ E); vm_compute; reflexivity|].
  split; [exact En|]. split; [reflexivity|].
  rewrite En. simpl. discriminate.
Qed.

(** ** Engagement *)

Lemma crear_ejecuta (T : tabla) (h : almacen) :
  crear T h = Some (length h, (h ++ [T])%list).
Proof. reflexivity. Qed.

Lemma resultado_nuevo (f : ref → M ref) (t t1 t2 : tabla) :
  f 0%nat [t] = Some (1%nat, (<[0%nat := t1]> [t] ++ [t2])%list) →
  resultado f t = Some t2.
Proof. intros E. unfold resultado, ejecutar. by rewrite E. Qed.

Lemma zip_with_fmap3 {A B C D A' B' C'} (f : A' → B' * C' → D)
    (fa : A → A') (fb : B → B') (fc : C → C')
    (la : list A) (lb : list B) (lc : list C) :
  zip_with f (fa <$> la) (zip (fb <$> lb) (fc <$> lc))
  = zip_with (λ a bc, f (fa a) (fb bc.1, fc bc.2)) la (zip lb lc).
Proof.
  revert lb lc. induction la as [|a la IH]; intros [|b lb] [|c lc]; simpl; try done.
  by rewrite IH.
Qed.

Lemma calcular_engagement_ejecuta (h : almacen) df (t : tabla) sr se sg vr ve vg :
  h !! df = Some t →
  t !! "recencia_dias" = Some sr → Serie.numeros sr = Some vr →
  t !! "total_shipments" = Some se → Serie.numeros se = Some ve →
  t !! "monthly_spend" = Some sg → Serie.numeros sg = Some vg →
  Features.calcular_engagement_score df h
  = if Nat.eqb (Tabla.n_filas (sin_normalizacion (con_engagement vr ve vg t))) 0
    then None
    else Some (length h,
               (<[df := con_engagement vr ve vg t]> h
                  ++ [sin_normalizacion (con_engagement vr ve vg t)])%list).
Proof.
  intros Eh Er Evr Ee Eve Eg Evg. unfold Features.calcular_engagement_score.
  rewrite (sitio_inicio h df t Eh) at 1.
  rewrite bind_ejecuta, (sitio_columna_numerica _ _ _ Eh _ _ sr vr) by done.
  rewrite bind_ejecuta, (sitio_asignar _ _ _ Eh).
  rewrite bind_ejecuta, (sitio_columna_numerica _ _ _ Eh _ _ se ve)
    by (by simplify_map_eq).
  rewrite bind_ejecuta, (sitio_asignar _ _ _ Eh).
  rewrite bind_ejecuta, (sitio_columna_numerica _ _ _ Eh _ _ sg vg)
    by (by simplify_map_eq).
  rewrite bind_ejecuta, (sitio_asignar _ _ _ Eh).
  rewrite bind_ejecuta.
  erewrite (sitio_columna_numerica _ _ _ Eh);
    [|by simplify_map_eq|apply numeros_fmap; intros x; apply a_numero_de_numero].
  rewrite bind_ejecuta.
  erewrite (sitio_columna_numerica _ _ _ Eh);
    [|by simplify_map_eq|apply numeros_fmap; intros x; apply a_numero_de_numero].
  rewrite bind_ejecuta.
  erewrite (sitio_columna_numerica _ _ _ Eh);
    [|by simplify_map_eq|apply numeros_fmap; intros x; apply a_numero_de_numero].
  rewrite bind_ejecuta, (sitio_asignar _ _ _ Eh).
  rewrite bind_ejecuta.
  erewrite (sitio_columna _ _ _ Eh); [|by simplify_map_eq].
  rewrite bind_ejecuta.
  erewrite cut_serie_ejecuta; [|apply numeros_de_numero].
  rewrite bind_ejecuta, (sitio_asignar _ _ _ Eh).
  rewrite bind_ejecuta, (sitio_leer _ _ _ Eh).
  rewrite bind_ejecuta, crear_ejecuta, length_insert.
  rewrite bind_ejecuta.
  erewrite registrar_distribucion_ejecuta;
    [|apply list_lookup_middle; by rewrite length_insert|by simplify_map_eq|done].
  unfold con_engagement, sin_normalizacion, engagement.
  rewrite !zip_with_fmap3. by destruct (Nat.eqb _ 0).
Qed.

(** Con al menos una fila la etapa termina. *)
Lemma calcular_engagement_con_filas (h : almacen) df (t : tabla) sr se sg vr ve vg :
  h !! df = Some t →
  t !! "recencia_dias" = Some sr → Serie.numeros sr = Some vr →
  t !! "total_shipments" = Some se → Serie.numeros se = Some ve →
  t !! "monthly_spend" = Some sg → Serie.numeros sg = Some vg →
  sr ≠ [] →
  Features.calcular_engagement_score df h
  = Some (length h,
          (<[df := con_engagement vr ve vg t]> h
             ++ [sin_normalizacion (con_engagement vr ve vg t)])%list).
Proof.
  intros Eh Er Evr Ee Eve Eg Evg Hs.
  rewrite (calcular_engagement_ejecuta h df t sr se sg vr ve vg) by done.
  assert (Hn : Tabla.n_filas (sin_normalizacion (con_engagement vr ve vg t)) ≠ 0%nat).
  { apply (n_filas_positivo _ "recencia_dias" sr); [|done].
    unfold sin_normalizacion, con_engagement. by simplify_map_eq. }
  by apply Nat.eqb_neq in Hn as ->.
Qed.

(** Sin filas la etapa lanza [ZeroDivisionError] al registrar la
    distribución. *)
Lemma calcular_engagement_sin_filas (t : tabla) sr se sg :
  t !! "recencia_dias" = Some sr → t !! "total_shipments" = Some se →
  t !! "monthly_spend" = Some sg →
  Tabla.n_filas t = 0%nat → resultado Features.calcular_engagement_score t = None.
Proof.
  intros Er Ee Eg Hn. unfold resultado, ejecutar.
  assert (Hv : ∀ c s, t !! c = Some s → s = []) by by apply n_filas_cero.
  rewrite (Hv _ _ Er) in Er. rewrite (Hv _ _ Ee) in Ee. rewrite (Hv _ _ Eg) in Eg.
  rewrite (calcular_engagement_ejecuta [t] 0%nat t [] [] [] [] [] []) by done.
  assert (E0 : Tabla.n_filas (sin_normalizacion (con_engagement [] [] [] t)) = 0%nat).
  { unfold sin_normalizacion, con_engagement. cbn [fmap list_fmap engagement zip_with].
    by do 3 apply n_filas_cero_delete; do 5 apply n_filas_cero_insert. }
  by rewrite E0.
Qed.

Lemma maximo_desde_cota (r : list numero) a :
  Forall (λ x, ∃ q, x = Fin q) r →
  ∃ b, foldl (λ m y, if Numero.ltb m y then y else m) (Fin a) r = Fin b
       ∧ (a <= b)%Q ∧ Forall (λ x, ∃ q, x = Fin q ∧ (q <= b)%Q) r.
Proof.
  revert a. induction r as [|x r IH]; intros a Hr; simpl.
  - exists a. split; [done|]. split; [lra|constructor].
  - apply Forall_cons in Hr as [[q ->] Hr]. simpl. unfold Numero.Qltb.
    destruct (Qle_bool q a) eqn:E; simpl.
    + apply Qle_bool_iff in E. destruct (IH a Hr) as (b & Eb & Hab & Hb).
      exists b. split; [done|]. split; [done|]. constructor; [|done].
      exists q. split; [done|lra].
    + assert (¬ (q <= a)%Q) by (intros ?%Qle_bool_iff; congruence).
      destruct (IH q Hr) as (b & Eb & Hab & Hb).
      exists b. split; [done|]. split; [lra|]. constructor; [|done]. by exists q.
Qed.

Lemma no_nan_finitos (v : list numero) :
  Forall (λ x, ∃ q, x = Fin q) v → Serie.no_nan v = v.
Proof.
  unfold Serie.no_nan. induction 1 as [|x v [q ->] _ IH]; [done|].
  rewrite filter_cons, decide_True by done. by rewrite IH.
Qed.

Lemma maximo_cota (v : list numero) m :
  Forall (λ x, ∃ q, x = Fin q) v → Serie.maximo v = Fin m →
  Forall (λ x, ∃ q, x = Fin q ∧ (q <= m)%Q) v.
Proof.
  intros Hv. unfold Serie.maximo.
  rewrite (no_nan_finitos v Hv). destruct v as [|x r]; [done|].
  apply Forall_cons in Hv as [[a ->] Hr].
  destruct (maximo_desde_cota r a Hr) as (b & Eb & Hab & Hb).
  rewrite Eb. intros [= <-]. constructor; [by exists a|done].
Qed.

Lemma cociente_en_unidad (a m : Q) :
  (0 <= a)%Q → (a <= m)%Q → (0 < m)%Q →
  Numero.div (Fin a) (Fin m) = Fin (a / m) ∧ (0 <= a / m)%Q ∧ (a / m <= 1)%Q.
Proof.
  intros H0 H1 Hm. simpl.
  destruct (Qeq_bool m 0) eqn:E; [apply Qeq_bool_eq in E; lra|].
  split; [done|]. split.
  - apply Qle_shift_div_l; lra.
  - apply Qle_shift_div_r; lra.
Qed.

(** Con valores no negativos y máximos positivos el score queda en
    [[0, 100]]. *)
Lemma engagement_en_rango (vr ve vg : list numero) :
  no_negativos vr → no_negativos ve → no_negativos vg →
  maximo_positivo vr → maximo_positivo ve → maximo_positivo vg →
  Forall (λ x, ∃ q, x = Fin q ∧ (0 <= q)%Q ∧ (q <= 100)%Q) (engagement vr ve vg).
Proof.
  intros Hr He Hg (mr & Emr & Hmr) (me & Eme & Hme) (mg & Emg & Hmg).
  assert (Cr := maximo_cota vr mr). assert (Ce := maximo_cota ve me).
  assert (Cg := maximo_cota vg mg).
  apply list.Forall_lookup. intros i x. unfold engagement.
  rewrite lookup_zip_with, lookup_zip_with. intros Hx.
  destruct (vr !! i) as [r|] eqn:Ir; simpl in Hx; [|done].
  destruct (ve !! i) as [f|] eqn:If; simpl in Hx; [|done].
  destruct (vg !! i) as [g|] eqn:Ig; simpl in Hx; [|done].
  simplify_eq. rewrite Emr, Eme, Emg.
  pose proof (proj1 (list.Forall_lookup _ _) Hr i r Ir) as (qr & -> & Hqr).
  pose proof (proj1 (list.Forall_lookup _ _) He i f If) as (qf & -> & Hqf).
  pose proof (proj1 (list.Forall_lookup _ _) Hg i g Ig) as (qg & -> & Hqg).
  assert (Br : (qr <= mr)%Q).
  { assert (F : Forall (λ x, ∃ q, x = Fin q) vr)
      by (eapply Forall_impl; [exact Hr|]; intros ? (q & -> & _); by exists q).
    pose proof (proj1 (list.Forall_lookup _ _) (Cr F Emr) i _ Ir) as (q & [= <-] & ?).
    done. }
  assert (Bf : (qf <= me)%Q).
  { assert (F : Forall (λ x, ∃ q, x = Fin q) ve)
      by (eapply Forall_impl; [exact He|]; intros ? (q & -> & _); by exists q).
    pose proof (proj1 (list.Forall_lookup _ _) (Ce F Eme) i _ If) as (q & [= <-] & ?).
    done. }
  assert (Bg : (qg <= mg)%Q).
  { assert (F : Forall (λ x, ∃ q, x = Fin q) vg)
      by (eapply Forall_impl; [exact Hg|]; intros ? (q & -> & _); by exists q).
    pose proof (proj1 (list.Forall_lookup _ _) (Cg F Emg) i _ Ig) as (q & [= <-] & ?).
    done. }
  destruct (cociente_en_unidad qr mr Hqr Br Hmr) as (Dr & Lr & Ur).
  destruct (cociente_en_unidad qf me Hqf Bf Hme) as (Df & Lf & Uf).
  destruct (cociente_en_unidad qg mg Hqg Bg Hmg) as (Dg & Lg & Ug).
  unfold formula_engagement. rewrite Dr, Df, Dg. simpl.
  eexists. split; [reflexivity|]. split; lra.
Qed.

(** C7. Sobre un lote con al menos una fila, calcular_engagement_score
    calcula
    100 × (0.4 × (1 − recencia/máx) + 0.3 × envíos/máx + 0.3 × gasto/máx) con
    los máximos del lote; con valores no negativos y máximos positivos el
    score queda en [0, 100], y en el escenario de la especificación vale 40.
    Sobre un lote sin filas la función lanza ZeroDivisionError al registrar
    la distribución de niveles. En un lote cuyo máximo de recencia es 0 (por
    ejemplo, un solo cliente) la división 0/0 da NaN y el score es nulo,
    fuera de [0, 100]. *)
Theorem engagement_score_formula (t : tabla) sr se sg :
  t !! "recencia_dias" = Some sr → numerica t "recencia_dias" = true →
  t !! "total_shipments" = Some se → numerica t "total_shipments" = true →
  t !! "monthly_spend" = Some sg → numerica t "monthly_spend" = true →
  (sr ≠ [] →
   ∃ t', resultado Features.calcular_engagement_score t = Some t'
     ∧ t' !! "engagement_score"
       = Some (de_numero <$> engagement (valor <$> sr) (valor <$> se) (valor <$> sg))
     ∧ (no_negativos (valor <$> sr) → no_negativos (valor <$> se) →
        no_negativos (valor <$> sg) →
        maximo_positivo (valor <$> sr) → maximo_positivo (valor <$> se) →
        maximo_positivo (valor <$> sg) →
        Forall (λ x, ∃ q, x = Fin q ∧ (0 <= q)%Q ∧ (q <= 100)%Q)
               (engagement (valor <$> sr) (valor <$> se) (valor <$> sg))))
  ∧ (Tabla.n_filas t = 0%nat →
     resultado Features.calcular_engagement_score t = None)
  ∧ (∃ t' q resto,
       resultado Features.calcular_engagement_score Ejemplo.tabla_engagement = Some t'
       ∧ t' !! "engagement_score" = Some (Num q :: resto) ∧ (q == 40)%Q)
  ∧ (∃ t',
       resultado Features.calcular_engagement_score Ejemplo.tabla_un_cliente = Some t'
       ∧ t' !! "engagement_score" = Some [Nulo]
       ∧ t' !! "nivel_engagement" = Some [Nulo]).
Proof.
  intros Er Nr Ee Ne Eg Ng.
  pose proof (numerica_numeros _ _ _ Nr Er) as Vr.
  pose proof (numerica_numeros _ _ _ Ne Ee) as Ve.
  pose proof (numerica_numeros _ _ _ Ng Eg) as Vg.
  split; [|split; [|split]].
  - intros Hs. eexists. split.
    { eapply resultado_nuevo. by eapply calcular_engagement_con_filas. }
    split.
    { unfold sin_normalizacion, con_engagement. by simplify_map_eq. }
    apply engagement_en_rango.
  - by apply (calcular_engagement_sin_filas t sr se sg).
  - destruct (resultado_definido
                (resultado Features.calcular_engagement_score Ejemplo.tabla_engagement))
      as [t' E]; [vm_compute; reflexivity|].
    exists t'. eexists _, _. split; [exact E|].
    split; [rewrite (columna_observada _ _ _ E); vm_compute; reflexivity|].
    reflexivity.
  - destruct (resultado_definido
                (resultado Features.calcular_engagement_score Ejemplo.tabla_un_cliente))
      as [t' E]; [vm_compute; reflexivity|].
    exists t'. split; [exact E|].
    split; rewrite (columna_observada _ _ _ E); vm_compute; reflexivity.
Qed.

Lemma engagement_score_formula_witness :
  ∃ t' q1 q2,
    resultado Features.calcular_engagement_score Ejemplo.tabla_engagement = Some t'
    ∧ t' !! "engagement_score" = Some [Num q1; Num q2]
    ∧ (q1 == 40)%Q ∧ (q2 == 60)%Q
    ∧ t' !! "engagement_score"
      = Some (de_numero <$> engagement [Fin 0; Fin 100] [Fin 0; Fin 20] [Fin 0; Fin 800]).
Proof.
  destruct (engagement_score_formula Ejemplo.tabla_engagement
              [Num 0; Num 100] [Num 0; Num 20] [Num 0; Num 800])
    as (Hf & _ & _ & _); [vm_compute; reflexivity..|].
  destruct Hf as (t' & Et & Es & _); [discriminate|].
  exists t'. eexists _, _. split; [exact Et|].
  split; [rewrite Es; vm_compute; reflexivity|].
  split; [reflexivity|]. split; [reflexivity|exact Es].
Defined.

(** ** Intervalos de las categorías *)

(** C2. En todas las features categóricas un valor situado en un borde
    interior (o en el borde derecho) recibe la etiqueta del intervalo
    inferior: recencia 30, gasto 500, envíos 10, ticket 50, engagement 100 y
    score de riesgo 2. Pero un valor igual al borde izquierdo 0 no recibe
    ninguna etiqueta en recencia, antigüedad, gasto, envíos, ticket y
    engagement; solo los intervalos de riesgo, que empiezan en -1, etiquetan
    el 0. *)
Theorem borde_izquierdo_sin_etiqueta :
  let col := columna_de_resultado Features.generar_todas_features Ejemplo.tabla_bordes in
  col "recencia_dias" = Some [Num 0; Num 30]
  ∧ col "categoria_recencia" = Some [Nulo; Texto "Muy_Reciente"]
  ∧ col "antiguedad_dias" = Some [Num 0; Num 900]
  ∧ col "categoria_antiguedad" = Some [Nulo; Texto "Antiguo"]
  ∧ col "segmento_gasto" = Some [Texto "Bajo"; Nulo]
  ∧ col "segmento_frecuencia" = Some [Texto "Ocasional"; Nulo]
  ∧ col "nivel_engagement" = Some [Texto "Muy_Alto"; Nulo]
  ∧ col "categoria_ticket" = Some [Texto "Bajo"; Nulo]
  ∧ col "score_riesgo_churn" = Some [Num 0; Num 2]
  ∧ col "nivel_riesgo" = Some [Texto "Bajo"; Texto "Medio"].
Proof.
  intros col. unfold col.
  repeat split; vm_compute; reflexivity.
Qed.

(** ** Etapas que dejan la tabla como está *)

Lemma devuelve_bind (m : M ref) (f : ref → M ref) (h : almacen) (T1 T2 : tabla) :
  devuelve m h T1 →
  (∀ df h', h' !! df = Some T1 → devuelve (f df) h' T2) →
  devuelve (m ≫= f) h T2.
Proof.
  intros (df1 & h1 & E1 & L1 & N1) Hf.
  destruct (Hf df1 h1 L1) as (df2 & h2 & E2 & L2 & N2).
  exists df2, h2. rewrite bind_ejecuta, E1. split; [done|]. split; [done|lia].
Qed.

Lemma devuelve_leer (f : tabla → M ref) (h : almacen) df (t T : tabla) :
  h !! df = Some t → devuelve (f t) h T → devuelve (leer df ≫= f) h T.
Proof.
  intros Eh (df' & h' & E & L & N). exists df', h'.
  by rewrite bind_ejecuta, (leer_ejecuta _ _ t).
Qed.

Lemma devuelve_resultado (f : ref → M ref) (t T : tabla) :
  devuelve (f 0%nat) [t] T → resultado f t = Some T.
Proof.
  intros (df & h & E & L & N). unfold resultado, ejecutar. rewrite E, L.
  destruct (h !! 0%nat) as [x|] eqn:E0; [done|].
  apply lookup_ge_None in E0. simpl in N. lia.
Qed.

Lemma columna_en_lista (t : tabla) c s :
  t !! c = Some s → In (c, s) (map_to_list t).
Proof. intros E. apply list_elem_of_In. by apply elem_of_map_to_list. Qed.

Lemma sin_faltantes_columna (t : tabla) c s :
  sin_faltantes t = true → t !! c = Some s →
  Forall (λ x, es_nulo x = false ∧ es_centinela x = false) s.
Proof.
  unfold sin_faltantes. intros Hf E.
  eapply forallb_forall in Hf; [|by eapply columna_en_lista]. simpl in Hf.
  apply list.Forall_forall. intros x Hx.
  eapply forallb_forall in Hf; [|by apply list_elem_of_In].
  apply andb_true_iff in Hf as [H1 H2].
  by apply negb_true_iff in H1, H2.
Qed.

Lemma contar_nulos_cero (s : serie) :
  Forall (λ x, es_nulo x = false) s → Serie.contar_nulos s = 0%nat.
Proof.
  unfold Serie.contar_nulos. induction 1 as [|x s Hx _ IH]; [done|].
  rewrite filter_cons, decide_False by congruence. exact IH.
Qed.

Lemma sin_faltantes_contar_nulos (t : tabla) c s :
  sin_faltantes t = true → t !! c = Some s → Serie.contar_nulos s = 0%nat.
Proof.
  intros Hf E. apply contar_nulos_cero.
  eapply Forall_impl; [by eapply sin_faltantes_columna|]. by intros x [? _].
Qed.

Section Identidad.
Context `{Pandas}.

Lemma rellenar_tabla_sin_nulos (t : tabla) ce :
  sin_faltantes t = true → rellenar_tabla ce t = Some t.
Proof.
  intros Hf. unfold rellenar_tabla, rellenar.
  destruct (t !! ce.1) as [s|] eqn:E; [|done].
  rewrite (sin_faltantes_contar_nulos t ce.1 s) by done. simpl.
  by rewrite insert_id.
Qed.

Lemma rellenar_todas_sin_nulos (l : list (string * string)) (t : tabla) :
  sin_faltantes t = true → rellenar_todas l t = Some t.
Proof.
  intros Hf. induction l as [|ce l IH]; [done|].
  by rewrite rellenar_todas_cons, rellenar_tabla_sin_nulos.
Qed.

(** Sin valores ausentes ninguna estrategia se aplica. *)
Lemma manejar_sin_nulos (h : almacen) df (t : tabla) :
  h !! df = Some t → sin_faltantes t = true →
  devuelve (Limpieza.manejar_valores_nulos df Limpieza.ESTRATEGIA_NULOS) h t.
Proof.
  intros Eh Hf. exists df, h.
  rewrite (manejar_configurado_ejecuta _ _ t), rellenar_todas_sin_nulos by done.
  rewrite list_insert_id by done.
  destruct (t !! "churn_label") as [e|] eqn:E; [|done].
  by rewrite (sin_faltantes_contar_nulos t "churn_label" e).
Qed.

(** Bucle que sustituye cada columna presente por su imagen por [g]. *)
Lemma para_cada_alter (g : serie → serie) (cols : list string)
    (h : almacen) df (t0 : tabla) (T : tabla) :
  h !! df = Some t0 →
  para_cada (λ df columna,
      t ← leer df;
      match t !! columna with
      | None => mret df
      | Some s => asignar df columna (g s);; mret df
      end) cols df (<[df := T]> h)
  = Some (df, <[df := foldl (λ T c, alter g c T) T cols]> h).
Proof.
  intros Eh. revert T. induction cols as [|c cols IH]; intros T; [done|].
  cbn [para_cada foldl]. rewrite bind_ejecuta, bind_ejecuta, (sitio_leer _ _ _ Eh).
  destruct (T !! c) as [s|] eqn:E.
  - rewrite bind_ejecuta, (sitio_asignar _ _ _ Eh).
    rewrite (alter_presente _ _ s) by done. apply IH.
  - rewrite alter_ausente by done. apply IH.
Qed.

Lemma normalizar_fechas_ejecuta (cols : list string) (h : almacen) df (t : tabla) :
  h !! df = Some t →
  Limpieza.normalizar_fechas df cols h
  = Some (df, <[df := foldl (λ T c, alter to_datetime c T) t cols]> h).
Proof.
  intros Eh. unfold Limpieza.normalizar_fechas.
  rewrite (sitio_inicio h df t Eh) at 1.
  by apply (para_cada_alter to_datetime _ _ _ t).
Qed.

Lemma fmap_identidad (f : celda → celda) (s : serie) :
  Forall (λ x, f x = x) s → f <$> s = s.
Proof. induction 1 as [|x s Hx _ IH]; csimpl; [done|]. by rewrite Hx, IH. Qed.

Lemma alter_identidad_columna (g : serie → serie) (t : tabla) c :
  (∀ s, t !! c = Some s → g s = s) → alter g c t = t.
Proof.
  intros Hs. destruct (t !! c) as [s|] eqn:E.
  - rewrite (alter_presente _ _ s) by done. apply insert_id. rewrite E. f_equal.
    symmetry. by apply Hs.
  - by apply alter_ausente.
Qed.

Lemma alter_identidad (f : celda → celda) (t : tabla) c :
  (∀ s, t !! c = Some s → Forall (λ x, f x = x) s) → alter (fmap f) c t = t.
Proof.
  intros Hs. apply alter_identidad_columna. intros s E. by apply fmap_identidad, Hs.
Qed.

(** Una columna que ya solo tiene fechas y nulos se queda como está, sea
    cual sea el formato que pandas infiera. *)
Lemma to_datetime_convertida `{Pandas} (s : serie) :
  Forall (λ x, es_nulo x || es_fecha x = true) s → to_datetime s = s.
Proof.
  intros Hs. unfold to_datetime. apply fmap_identidad.
  eapply Forall_impl; [exact Hs|]. intros x Hx. by destruct x.
Qed.

Lemma fechas_canonicas_identidad (t : tabla) c :
  fechas_canonicas t c = true → alter to_datetime c t = t.
Proof.
  unfold fechas_canonicas. intros Hc. apply alter_identidad_columna. intros s E.
  rewrite E in Hc. apply to_datetime_convertida. apply list.Forall_forall. intros x Hx.
  eapply forallb_forall in Hc; [|by apply list_elem_of_In]. by destruct x.
Qed.

Lemma normalizar_fechas_canonicas (h : almacen) df (t : tabla) :
  h !! df = Some t →
  fechas_canonicas t "signup_date" = true →
  fechas_canonicas t "last_purchase_date" = true →
  devuelve (Limpieza.normalizar_fechas df ["signup_date"; "last_purchase_date"]) h t.
Proof.
  intros Eh H1 H2. exists df, h.
  rewrite (normalizar_fechas_ejecuta _ _ _ t) by done. simpl.
  rewrite (fechas_canonicas_identidad t "signup_date") by done.
  rewrite (fechas_canonicas_identidad t "last_purchase_date") by done.
  by rewrite list_insert_id.
Qed.

Lemma reemplazar_identidad (t : tabla) x :
  (∀ c s, t !! c = Some s → Forall (λ y, celda_eqb y (Texto x) = false) s) →
  BronzeASilver.reemplazar x t = t.
Proof.
  intros Hs. unfold BronzeASilver.reemplazar. apply map_eq. intros k.
  rewrite lookup_fmap. destruct (t !! k) as [s|] eqn:E; [|done]. simpl. f_equal.
  apply fmap_identidad. eapply Forall_impl; [by eapply Hs|].
  intros y Hy. simpl. by rewrite Hy.
Qed.

Lemma sin_faltantes_reemplazar (t : tabla) x :
  sin_faltantes t = true → In x ["NULL"; ""; "N/A"] →
  BronzeASilver.reemplazar x t = t.
Proof.
  intros Hf Hx. apply reemplazar_identidad. intros c s E.
  eapply Forall_impl; [by eapply sin_faltantes_columna|].
  intros y [_ Hy]. unfold es_centinela in Hy.
  apply orb_false_iff in Hy as [Hy H3]. apply orb_false_iff in Hy as [H1 H2].
  simpl in Hx. destruct Hx as [<-|[<-|[<-|[]]]]; done.
Qed.

Lemma columna_dentro_celdas (t : tabla) c fuera s :
  columna_dentro t c fuera = true → t !! c = Some s →
  Forall (λ x, es_numero x = true ∧ fuera (valor x) = false) s.
Proof.
  unfold columna_dentro. intros Hc E. rewrite E in Hc.
  apply list.Forall_forall. intros x Hx.
  eapply forallb_forall in Hc; [|by apply list_elem_of_In].
  apply andb_true_iff in Hc as [H1 H2]. by apply negb_true_iff in H2.
Qed.

Lemma columna_dentro_to_numeric (t : tabla) c fuera :
  columna_dentro t c fuera = true → alter (fmap to_numeric) c t = t.
Proof.
  intros Hc. apply alter_identidad. intros s E.
  eapply Forall_impl; [by eapply columna_dentro_celdas|].
  intros x [Hx _]. by destruct x.
Qed.

Lemma crear_devuelve (T : tabla) (h : almacen) :
  ∃ df' h', crear T h = Some (df', h') ∧ h' !! df' = Some T
            ∧ (length h ≤ length h')%nat.
Proof.
  exists (length h), (h ++ [T])%list. split; [done|]. split.
  - by rewrite lookup_app_r, Nat.sub_diag.
  - rewrite length_app. lia.
Qed.

(** La conversión de tipos no cambia una tabla sin textos centinela y con
    las columnas numéricas ya convertidas. *)
Lemma convertir_tipos_identidad (h : almacen) df (t : tabla) :
  h !! df = Some t → sin_faltantes t = true → sin_outliers t = true →
  devuelve (BronzeASilver.convertir_tipos df) h t.
Proof.
  intros Eh Hf Ho. unfold BronzeASilver.convertir_tipos.
  unfold sin_outliers in Ho. apply andb_true_iff in Ho as [Ho H3].
  apply andb_true_iff in Ho as [H1 H2].
  apply (devuelve_leer _ _ _ t); [done|].
  rewrite sin_faltantes_reemplazar by (simpl; auto).
  eapply devuelve_bind; [by apply crear_devuelve|]. intros df1 h1 E1.
  apply (devuelve_leer _ _ _ t); [done|].
  rewrite sin_faltantes_reemplazar by (simpl; auto).
  eapply devuelve_bind; [by apply crear_devuelve|]. intros df2 h2 E2.
  apply (devuelve_leer _ _ _ t); [done|].
  rewrite sin_faltantes_reemplazar by (simpl; auto).
  eapply devuelve_bind; [by apply crear_devuelve|]. intros df3 h3 E3.
  exists df3, h3. rewrite (sitio_inicio h3 df3 t E3) at 1.
  rewrite (para_cada_alter _ _ _ _ t) by done. simpl.
  rewrite (columna_dentro_to_numeric t "monthly_spend" _ H1).
  rewrite (columna_dentro_to_numeric t "total_shipments" _ H2).
  rewrite (columna_dentro_to_numeric t "churn_label" _ H3).
  by rewrite list_insert_id.
Qed.

End Identidad.

(** ** Paso de outliers *)

Lemma menor_igual_que_valor s x :
  is_Some (Serie.numeros s) →
  Serie.menor_igual_que s x = Some ((λ c, Numero.leb (valor c) x) <$> s).
Proof.
  intros [v Hv]. unfold Serie.menor_igual_que. rewrite Hv. simpl.
  apply numeros_valor in Hv as ->. by rewrite <- list_fmap_compose.
Qed.

Lemma numerica_presente (t : tabla) c s :
  numerica t c = true → t !! c = Some s → is_Some (Serie.numeros s).
Proof.
  unfold numerica. intros Hn E. rewrite E in Hn. by apply bool_decide_eq_true in Hn.
Qed.

(** La detección solo añade columnas de marcas. *)
Lemma detectar_outliers_ejecuta (h : almacen) df (t : tabla) :
  h !! df = Some t →
  numerica t "monthly_spend" = true → numerica t "total_shipments" = true →
  Limpieza.detectar_outliers df ["monthly_spend"; "total_shipments"] h
  = Some (df, <[df := con_marcas t]> h).
Proof.
  intros Eh Hg He. unfold Limpieza.detectar_outliers, con_marcas.
  rewrite (sitio_inicio h df t Eh) at 1. cbn [para_cada].
  rewrite bind_ejecuta, bind_ejecuta, (sitio_leer _ _ _ Eh).
  change ("monthly_spend" +:+ "_is_outlier") with "monthly_spend_is_outlier".
  change ("total_shipments" +:+ "_is_outlier") with "total_shipments_is_outlier".
  change (String.eqb "monthly_spend" "monthly_spend") with true.
  change (String.eqb "total_shipments" "monthly_spend") with false.
  change (String.eqb "total_shipments" "total_shipments") with true.
  cbv iota.
  destruct (t !! "monthly_spend") as [sg|] eqn:Eg.
  - pose proof (numerica_presente _ _ _ Hg Eg) as Ng.
    rewrite bind_ejecuta, levantar_ejecuta, menor_que_valor by done.
    cbn [fmap option_fmap option_map].
    rewrite bind_ejecuta, levantar_ejecuta, mayor_que_valor by done.
    cbn [fmap option_fmap option_map].
    rewrite bind_ejecuta, (sitio_asignar _ _ _ Eh), ret_ejecuta.
    set (T0 := <["monthly_spend_is_outlier" := _]> t).
    rewrite bind_ejecuta, bind_ejecuta, (sitio_leer _ _ _ Eh).
    assert (E0 : T0 !! "total_shipments" = t !! "total_shipments")
      by (unfold T0; by rewrite lookup_insert_ne).
    rewrite E0. destruct (t !! "total_shipments") as [se|] eqn:Ee; [|done].
    pose proof (numerica_presente _ _ _ He Ee) as Ne.
    rewrite bind_ejecuta, levantar_ejecuta, mayor_que_valor by done.
    cbn [fmap option_fmap option_map].
    by rewrite bind_ejecuta, (sitio_asignar _ _ _ Eh), !ret_ejecuta.
  - rewrite ret_ejecuta, bind_ejecuta, bind_ejecuta, (sitio_leer _ _ _ Eh).
    destruct (t !! "total_shipments") as [se|] eqn:Ee; [|done].
    pose proof (numerica_presente _ _ _ He Ee) as Ne.
    rewrite bind_ejecuta, levantar_ejecuta, mayor_que_valor by done.
    cbn [fmap option_fmap option_map].
    by rewrite bind_ejecuta, (sitio_asignar _ _ _ Eh), !ret_ejecuta.
Qed.

Lemma con_marcas_otra (t : tabla) k :
  k ≠ "monthly_spend_is_outlier" → k ≠ "total_shipments_is_outlier" →
  con_marcas t !! k = t !! k.
Proof.
  intros H1 H2. unfold con_marcas.
  destruct (t !! "monthly_spend"), (t !! "total_shipments");
    by rewrite ?lookup_insert_ne.
Qed.

Lemma en_columnas (t : tabla) k :
  k ∈ BronzeASilver.columnas t ↔ is_Some (t !! k).
Proof.
  unfold BronzeASilver.columnas. rewrite list_elem_of_fmap. split.
  - intros ([k' s] & -> & Hin). apply elem_of_map_to_list in Hin. by eexists.
  - intros [s Hs]. exists (k, s). split; [done|]. by apply elem_of_map_to_list.
Qed.

Lemma sin_marcas_outlier_columna (t : tabla) k :
  sin_marcas_outlier t = true → is_Some (t !! k) →
  BronzeASilver.termina_con "_is_outlier" k = false.
Proof.
  unfold sin_marcas_outlier. intros Hm Hk. apply en_columnas in Hk.
  eapply forallb_forall in Hm; [|by apply list_elem_of_In].
  by apply negb_true_iff in Hm.
Qed.

Lemma columna_dentro_numerica (t : tabla) c fuera :
  columna_dentro t c fuera = true → numerica t c = true.
Proof.
  intros Hc. unfold numerica. destruct (t !! c) as [s|] eqn:E; [|done].
  apply bool_decide_eq_true. apply mapM_is_Some.
  eapply Forall_impl; [by eapply columna_dentro_celdas|].
  intros x [Hx _]. unfold compose. destruct x; try done; simpl; by eexists.
Qed.

(** Quitar las columnas de marcas de una tabla que no las traía devuelve la
    tabla de partida. *)
Lemma quitar_marcas (t : tabla) :
  sin_marcas_outlier t = true →
  foldr delete (con_marcas t)
        (filter (λ col, BronzeASilver.termina_con "_is_outlier" col = true)
                (BronzeASilver.columnas (con_marcas t))) = t.
Proof.
  intros Hm. apply map_eq. intros k.
  set (ks := filter _ _).
  destruct (decide (k ∈ ks)) as [Hk|Hk].
  - rewrite lookup_foldr_delete by done.
    apply list_elem_of_filter in Hk as [Hp _].
    destruct (t !! k) as [s|] eqn:E; [|done].
    rewrite (sin_marcas_outlier_columna t k) in Hp by eauto. done.
  - rewrite lookup_foldr_delete_not_elem_of by done.
    assert (Hn : ∀ k', BronzeASilver.termina_con "_is_outlier" k' = true →
                       k = k' → con_marcas t !! k = t !! k).
    { intros k' Hp ->.
      destruct (con_marcas t !! k') as [s|] eqn:E1.
      - exfalso. apply Hk. apply list_elem_of_filter. split; [done|].
        apply en_columnas. eauto.
      - destruct (t !! k') as [s|] eqn:E2; [|done].
        rewrite (sin_marcas_outlier_columna t k') in Hp by eauto. done. }
    destruct (decide (k = "monthly_spend_is_outlier")) as [E|N1];
      [by apply (Hn "monthly_spend_is_outlier")|].
    destruct (decide (k = "total_shipments_is_outlier")) as [E|N2];
      [by apply (Hn "total_shipments_is_outlier")|].
    by apply con_marcas_otra.
Qed.

Lemma gasto_en_umbral (t : tabla) :
  columna_dentro t "monthly_spend"
    (λ x, Numero.ltb x (Fin UMBRAL_GASTO_MINIMO) || Numero.gtb x (Fin UMBRAL_GASTO_MAXIMO))
  = true →
  alter (fmap gasto_corregido) "monthly_spend" (con_marcas t) = con_marcas t.
Proof.
  intros Hc. apply alter_identidad. intros s E.
  rewrite con_marcas_otra in E by done.
  eapply Forall_impl; [by eapply columna_dentro_celdas|].
  intros x [_ Hx]. apply orb_false_iff in Hx as [H1 H2].
  unfold gasto_corregido. unfold UMBRAL_GASTO_MINIMO in H1. by rewrite H1, H2.
Qed.

Lemma envios_en_umbral (t : tabla) :
  columna_dentro t "total_shipments" (λ x, Numero.gtb x (Fin UMBRAL_ENVIOS_MAXIMO)) = true →
  alter (fmap envios_corregidos) "total_shipments" (con_marcas t) = con_marcas t.
Proof.
  intros Hc. apply alter_identidad. intros s E.
  rewrite con_marcas_otra in E by done.
  eapply Forall_impl; [by eapply columna_dentro_celdas|].
  intros x [_ Hx]. unfold envios_corregidos. by rewrite Hx.
Qed.

(** Sin outliers ni columnas de marcas previas, el paso 5 devuelve la misma
    tabla. *)
Lemma paso_outliers_identidad (h : almacen) df (t : tabla) :
  h !! df = Some t → sin_outliers t = true → sin_marcas_outlier t = true →
  devuelve (BronzeASilver.paso_outliers df) h t.
Proof.
  intros Eh Ho Hm. unfold sin_outliers in Ho.
  apply andb_true_iff in Ho as [Ho _]. apply andb_true_iff in Ho as [Hg He].
  pose proof (columna_dentro_numerica _ _ _ Hg) as Ng.
  pose proof (columna_dentro_numerica _ _ _ He) as Ne.
  unfold BronzeASilver.paso_outliers, devuelve.
  rewrite bind_ejecuta, (detectar_outliers_ejecuta _ _ t) by done.
  assert (E1 : <[df := con_marcas t]> h !! df = Some (con_marcas t))
    by by eapply almacen_insert_eq.
  rewrite bind_ejecuta.
  rewrite (corregir_gasto_y_envios_ejecuta _ _ (con_marcas t)); [|done|..].
  - rewrite gasto_en_umbral, envios_en_umbral by done.
    rewrite list_insert_insert_eq.
    rewrite bind_ejecuta, (leer_ejecuta _ _ (con_marcas t)) by done.
    rewrite quitar_marcas by done.
    destruct (crear_devuelve t (<[df := con_marcas t]> h)) as (df' & h' & E & L & N).
    exists df', h'. split; [done|]. split; [done|].
    rewrite length_insert in N. done.
  - unfold numerica. rewrite con_marcas_otra by done. exact Ng.
  - unfold numerica. rewrite con_marcas_otra by done. exact Ne.
Qed.

(** ** Duplicados *)

Lemma celda_eqb_refl c : celda_eqb c c = true.
Proof.
  destruct c as [|s|q|b|b|d]; simpl; auto using String.eqb_refl, Qeq_bool_refl, Z.eqb_refl.
  - by destruct b.
  - by destruct b.
Qed.

Lemma contar_fmap_cero {A} (p : A → bool) (l : list A) :
  Serie.contar (p <$> l) = 0%nat ↔ Forall (λ x, p x = false) l.
Proof.
  unfold Serie.contar. induction l as [|x l IH]; csimpl.
  - split; [constructor|done].
  - rewrite filter_cons. destruct (p x) eqn:E.
    + rewrite decide_True by done. simpl. split; [lia|].
      intros Hx. apply Forall_cons in Hx as [? _]. congruence.
    + rewrite decide_False by (by intros ?). rewrite IH. split.
      * by constructor.
      * intros Hx. by apply Forall_cons in Hx as [_ ?].
Qed.

Lemma filter_uno {A} (P : A → Prop) `{∀ x, Decision (P x)} (l : list A) i a :
  l !! i = Some a → P a → (1 ≤ length (filter P l))%nat.
Proof.
  revert i. induction l as [|z r IH]; intros i E Ha; [done|].
  rewrite filter_cons. destruct i as [|i]; simpl in E.
  - simplify_eq. rewrite decide_True by done. simpl. lia.
  - specialize (IH i E Ha). destruct (decide (P z)); simpl; lia.
Qed.

Lemma filter_dos {A} (P : A → Prop) `{∀ x, Decision (P x)} (l : list A) i j a b :
  i ≠ j → l !! i = Some a → l !! j = Some b → P a → P b →
  (2 ≤ length (filter P l))%nat.
Proof.
  revert i j. induction l as [|z r IH]; intros i j Hij Ei Ej Ha Hb; [done|].
  rewrite filter_cons. destruct i as [|i], j as [|j]; simpl in Ei, Ej; try done.
  - simplify_eq. rewrite decide_True by done. simpl.
    pose proof (filter_uno P r j b Ej Hb). lia.
  - simplify_eq. rewrite decide_True by done. simpl.
    pose proof (filter_uno P r i a Ei Ha). lia.
  - assert (Hij' : i ≠ j) by congruence.
    specialize (IH i j Hij' Ei Ej Ha Hb). destruct (decide (P z)); simpl; lia.
Qed.

(** Sin marcas de [duplicated(keep=False)] no hay dos posiciones con la
    misma clave. *)
Lemma duplicated_todos_cero (l : serie) i j x y :
  Serie.contar (Tabla.duplicated_todos celda_eqb l) = 0%nat →
  i ≠ j → l !! i = Some x → l !! j = Some y → celda_eqb x y = false.
Proof.
  unfold Tabla.duplicated_todos. rewrite contar_fmap_cero. intros Hl Hij Ei Ej.
  eapply list.Forall_lookup in Hl; [|exact Ei]. simpl in Hl.
  apply Nat.ltb_ge in Hl.
  destruct (celda_eqb x y) eqn:E; [|done].
  pose proof (filter_dos (λ z, celda_eqb x z = true) l i j x y Hij Ei Ej
                (celda_eqb_refl x) E). lia.
Qed.

Lemma duplicated_desde_cero {A} (eqb : A → A → bool) (vistos l : list A) :
  (∀ i x, l !! i = Some x →
     (∀ v, v ∈ vistos → eqb x v = false)
     ∧ (∀ j y, (j < i)%nat → l !! j = Some y → eqb x y = false)) →
  Serie.contar (Tabla.duplicated_desde eqb vistos l) = 0%nat.
Proof.
  unfold Serie.contar. revert vistos. induction l as [|x r IH]; intros vistos Hl; [done|].
  simpl. rewrite filter_cons.
  assert (Hx : existsb (eqb x) vistos = false).
  { destruct (existsb (eqb x) vistos) eqn:E; [|done].
    apply existsb_exists in E as (v & Hv & Ev).
    destruct (Hl 0%nat x eq_refl) as [H0 _].
    rewrite H0 in Ev; [done|by apply list_elem_of_In]. }
  rewrite Hx, decide_False by done. apply IH. intros i y Ei. split.
  - intros v Hv. destruct (Hl (S i) y Ei) as [H1 H2].
    apply elem_of_cons in Hv as [->|Hv]; [|by apply H1].
    apply (H2 0%nat); [lia|done].
  - intros j z Hj Ej. destruct (Hl (S i) y Ei) as [_ H2].
    apply (H2 (S j)); [lia|done].
Qed.

Lemma fila_eqb_columna (l : list (string * serie)) i j p :
  Tabla.fila_eqb ((λ p, default Nulo (p.2 !! i)) <$> l)
                 ((λ p, default Nulo (p.2 !! j)) <$> l) = true →
  p ∈ l → celda_eqb (default Nulo (p.2 !! i)) (default Nulo (p.2 !! j)) = true.
Proof.
  induction l as [|q l IH]; csimpl; intros E Hp; [by apply elem_of_nil in Hp|].
  apply andb_true_iff in E as [E1 E2].
  apply elem_of_cons in Hp as [->|Hp]; [done|by apply IH].
Qed.

Lemma rectangular_longitud (t : tabla) c s :
  rectangular t = true → t !! c = Some s → length s = Tabla.n_filas t.
Proof.
  unfold rectangular. intros Hr E.
  eapply forallb_forall in Hr; [|by eapply columna_en_lista].
  by apply Nat.eqb_eq in Hr.
Qed.

(** Con claves únicas no hay filas completamente duplicadas. *)
Lemma sin_filas_duplicadas (t : tabla) columna_id :
  rectangular t = true → claves_unicas t columna_id = true →
  Serie.contar (Tabla.duplicated Tabla.fila_eqb (Tabla.filas t)) = 0%nat.
Proof.
  intros Hr Hc. unfold claves_unicas in Hc.
  destruct (t !! columna_id) as [ids|] eqn:Eid; [|done].
  apply Nat.eqb_eq in Hc.
  pose proof (rectangular_longitud _ _ _ Hr Eid) as Hn.
  apply duplicated_desde_cero. intros i x Ei. split; [by intros v ?%elem_of_nil|].
  intros j y Hj Ej. unfold Tabla.filas in Ei, Ej.
  rewrite list_lookup_fmap in Ei, Ej.
  destruct (seq 0 (Tabla.n_filas t) !! i) as [i'|] eqn:Si; [|done].
  destruct (seq 0 (Tabla.n_filas t) !! j) as [j'|] eqn:Sj; [|done].
  apply lookup_seq in Si as [-> Hi]. apply lookup_seq in Sj as [-> Hj'].
  simpl in *. simplify_eq.
  destruct (Tabla.fila_eqb (Tabla.fila t i) (Tabla.fila t j)) eqn:E; [|done].
  pose proof (fila_eqb_columna (map_to_list t) i j (columna_id, ids) E) as Hk.
  rewrite <- Hn in Hi, Hj'.
  destruct (lookup_lt_is_Some_2 ids i Hi) as [a Ha].
  destruct (lookup_lt_is_Some_2 ids j Hj') as [b Hb].
  simpl in Hk. rewrite Ha, Hb in Hk. simpl in Hk.
  rewrite (duplicated_todos_cero ids i j a b) in Hk; [|done|lia|done|done].
  assert (false = true) by (apply Hk; by apply elem_of_map_to_list). done.
Qed.

Section Duplicados.
Context `{Pandas}.

(** Con claves únicas la etapa devuelve el mismo objeto sin tocarlo. *)
Lemma detectar_duplicados_claves_unicas (h : almacen) df (t : tabla) columna_id :
  h !! df = Some t → rectangular t = true → claves_unicas t columna_id = true →
  Limpieza.detectar_duplicados df columna_id h = Some (df, h).
Proof.
  intros Eh Hr Hc. unfold Limpieza.detectar_duplicados.
  rewrite bind_ejecuta, (leer_ejecuta _ _ t) by done.
  rewrite (sin_filas_duplicadas t columna_id) by done.
  change (Nat.ltb 0 0) with false. cbv iota.
  rewrite bind_ejecuta, ret_ejecuta.
  unfold claves_unicas in Hc.
  destruct (t !! columna_id) as [ids|] eqn:Eid; [|done].
  apply Nat.eqb_eq in Hc.
  rewrite bind_ejecuta, (columna_ejecuta _ _ t _ ids) by done.
  by rewrite Hc.
Qed.

End Duplicados.

(** C5. La limpieza es idempotente sobre sus puntos fijos: para toda tabla
    con claves customer_id únicas, fechas ya convertidas, ningún valor fuera
    de los umbrales de outliers y ningún valor ausente, aplicar de nuevo la
    secuencia de limpieza (duplicados, fechas, tipos, outliers, nulos)
    devuelve la misma tabla. *)
Theorem limpieza_idempotente `{Pandas} (t : tabla) :
  ya_limpia t = true → resultado BronzeASilver.limpiar t = Some t.
Proof.
  unfold ya_limpia. intros Hl.
  repeat (apply andb_true_iff in Hl as [Hl ?]).
  apply devuelve_resultado. unfold BronzeASilver.limpiar.
  eapply devuelve_bind.
  { exists 0%nat, [t]. split; [|done].
    by apply (detectar_duplicados_claves_unicas _ _ t). }
  intros df1 h1 E1. eapply devuelve_bind; [by apply normalizar_fechas_canonicas|].
  intros df2 h2 E2. eapply devuelve_bind; [by apply convertir_tipos_identidad|].
  intros df3 h3 E3. eapply devuelve_bind; [by apply paso_outliers_identidad|].
  intros df4 h4 E4. by apply manejar_sin_nulos.
Qed.

Lemma limpieza_idempotente_witness :
  ya_limpia Ejemplo.tabla_limpia = true
  ∧ resultado (BronzeASilver.limpiar (H := Ejemplo.pandas_ejemplo)) Ejemplo.tabla_limpia
    = Some Ejemplo.tabla_limpia.
Proof.
  assert (Hl : ya_limpia Ejemplo.tabla_limpia = true) by (vm_compute; reflexivity).
  split; [exact Hl|].
  exact (limpieza_idempotente (H := Ejemplo.pandas_ejemplo) Ejemplo.tabla_limpia Hl).
Defined.

(** ** Ordenación por inserción *)

Section Ordenar.
Context {A : Type} (le : A → A → bool) (D : A → Prop).
Hypothesis le_total : ∀ x y, D x → D y → le x y = true ∨ le y x = true.
Hypothesis le_trans : ∀ x y z, D x → D y → D z →
  le x y = true → le y z = true → le x z = true.

Lemma insertar_permutacion (x : A) (l : list A) : Serie.insertar le x l ≡ₚ x :: l.
Proof.
  induction l as [|y l IH]; simpl; [done|].
  destruct (le x y); [done|]. rewrite IH. apply Permutation_swap.
Qed.

Lemma ordenar_permutacion (l : list A) : Serie.ordenar le l ≡ₚ l.
Proof.
  unfold Serie.ordenar. induction l as [|x l IH]; simpl; [done|].
  by rewrite insertar_permutacion, IH.
Qed.

Lemma insertar_ordenada (x : A) (l : list A) :
  D x → Forall D l →
  StronglySorted (λ a b, le a b = true) l →
  StronglySorted (λ a b, le a b = true) (Serie.insertar le x l).
Proof.
  intros Dx. induction l as [|y l IH]; intros Dl Hs; simpl.
  - repeat constructor.
  - apply Forall_cons in Dl as [Dy Dl].
    apply StronglySorted_inv in Hs as [Hs Hy].
    destruct (le x y) eqn:E.
    + constructor; [by constructor|]. constructor; [done|].
      apply list.Forall_forall. intros z Hz.
      apply (le_trans x y z); try done.
      * by eapply list.Forall_forall in Dl.
      * by eapply list.Forall_forall in Hy.
    + constructor; [by apply IH|].
      rewrite insertar_permutacion. constructor; [|done].
      destruct (le_total x y Dx Dy); [congruence|done].
Qed.

Lemma ordenar_ordenada (l : list A) :
  Forall D l → StronglySorted (λ a b, le a b = true) (Serie.ordenar le l).
Proof.
  unfold Serie.ordenar. induction 1 as [|x l Dx Dl IH]; simpl; [constructor|].
  apply insertar_ordenada; [done| |done].
  fold (Serie.ordenar le l). by rewrite ordenar_permutacion.
Qed.

End Ordenar.

(** ** Orden de las celdas *)

Lemma Qle_bool_false (a b : Q) : Qle_bool a b = false → (b < a)%Q.
Proof.
  intros E. apply Qnot_le_lt. intros ?%Qle_bool_iff. congruence.
Qed.

Lemma string_leb_refl s : String.leb s s = true.
Proof. apply Is_true_true. change (String.le s s). reflexivity. Qed.

Lemma string_leb_trans s1 s2 s3 :
  String.leb s1 s2 = true → String.leb s2 s3 = true → String.leb s1 s3 = true.
Proof.
  intros H1 H2. apply Is_true_true. change (String.le s1 s3).
  transitivity s2; by apply Is_true_true.
Qed.

Lemma numero_leb_total x y :
  Numero.es_nan x = false → Numero.es_nan y = false →
  Numero.leb x y = true ∨ Numero.leb y x = true.
Proof.
  destruct x as [a|[]|], y as [b|[]|]; simpl; try (intros; by auto).
  intros _ _. destruct (Qle_bool a b) eqn:E; [by left|right].
  apply Qle_bool_false in E. apply Qle_bool_iff. lra.
Qed.

Lemma numero_leb_trans x y z :
  Numero.leb x y = true → Numero.leb y z = true → Numero.leb x z = true.
Proof.
  destruct x as [a|[]|], y as [b|[]|], z as [c|[]|]; simpl; try done.
  rewrite !Qle_bool_iff. lra.
Qed.

Lemma numero_leb_antisym x y :
  Numero.leb x y = true → Numero.leb y x = true → Numero.eqb x y = true.
Proof.
  destruct x as [a|[]|], y as [b|[]|]; simpl; try done.
  rewrite !Qle_bool_iff, Qeq_bool_iff. lra.
Qed.

Lemma numero_eqb_leb x y : Numero.eqb x y = true → Numero.leb x y = true.
Proof.
  destruct x as [a|[]|], y as [b|[]|]; simpl; try done.
  rewrite Qle_bool_iff, Qeq_bool_iff. lra.
Qed.

Lemma numero_eqb_sym x y : Numero.eqb x y = Numero.eqb y x.
Proof.
  destruct x as [a|[]|], y as [b|[]|]; simpl; try done. apply Qeq_bool_comm.
Qed.

Lemma numero_eqb_trans x y z :
  Numero.eqb x y = true → Numero.eqb y z = true → Numero.eqb x z = true.
Proof.
  destruct x as [a|[]|], y as [b|[]|], z as [c|[]|]; simpl; try done.
  apply Qeq_bool_trans.
Qed.

(** En la clase numérica la igualdad y el orden de las celdas son los de
    sus valores. *)
Lemma celda_eqb_valor a b :
  Tabla.clase a = 2%nat → Tabla.clase b = 2%nat →
  celda_eqb a b = Numero.eqb (valor a) (valor b).
Proof.
  destruct a as [|?|p|s|s|?], b as [|?|q|t|t|?]; simpl; try done;
    intros _ _; try (by destruct s, t); try (by destruct s); try (by destruct t);
    destruct s; by rewrite Qeq_bool_comm.
Qed.

Lemma celda_leb_valor a b :
  Tabla.clase a = 2%nat → Tabla.clase b = 2%nat →
  Tabla.celda_leb a b = Numero.leb (valor a) (valor b).
Proof. destruct a as [|?|p|s|s|?], b as [|?|q|t|t|?]; simpl; done. Qed.

Lemma valor_no_nan a : Tabla.clase a = 2%nat → Numero.es_nan (valor a) = false.
Proof. by destruct a. Qed.

Lemma clase_nulo c : Tabla.clase c = 0%nat ↔ es_nulo c = true.
Proof. by destruct c. Qed.

Lemma celda_eqb_clase a b : celda_eqb a b = true → Tabla.clase a = Tabla.clase b.
Proof. by destruct a, b. Qed.

Lemma celda_eqb_sym a b : celda_eqb a b = celda_eqb b a.
Proof.
  destruct a as [|s|p|s|s|d], b as [|t|q|t|t|e]; simpl; try done.
  - apply String.eqb_sym.
  - apply Qeq_bool_comm.
  - by destruct s, t.
  - by destruct s, t.
  - apply Z.eqb_sym.
Qed.

Lemma celda_eqb_trans a b c :
  celda_eqb a b = true → celda_eqb b c = true → celda_eqb a c = true.
Proof.
  intros Hab Hbc.
  pose proof (celda_eqb_clase _ _ Hab) as Cab.
  pose proof (celda_eqb_clase _ _ Hbc) as Cbc.
  destruct (Tabla.clase b) as [|[|[|[|n]]]] eqn:Cb.
  - by destruct a, b, c.
  - destruct a, b, c; try done. simpl in *.
    apply String.eqb_eq in Hab, Hbc. subst. apply String.eqb_refl.
  - rewrite celda_eqb_valor in * by congruence.
    by eapply numero_eqb_trans.
  - destruct a, b, c; try done. simpl in *.
    apply Z.eqb_eq in Hab, Hbc. subst. apply Z.eqb_refl.
  - by destruct b.
Qed.

Lemma celda_eqb_leb a b : celda_eqb a b = true → Tabla.celda_leb a b = true.
Proof.
  intros Hab. pose proof (celda_eqb_clase _ _ Hab) as Cab.
  destruct (Tabla.clase b) as [|[|[|[|n]]]] eqn:Cb.
  - by destruct a, b.
  - destruct a, b; try done. simpl in *.
    apply String.eqb_eq in Hab. subst. apply string_leb_refl.
  - rewrite celda_eqb_valor in Hab by congruence.
    rewrite celda_leb_valor by congruence. by apply numero_eqb_leb.
  - destruct a, b; try done. simpl in *.
    apply Z.eqb_eq in Hab. subst. apply Z.leb_refl.
  - by destruct b.
Qed.

Lemma compatible_no_nulo n a :
  compatible n a → es_nulo a = false → Tabla.clase a = 1%nat ∨ Tabla.clase a = n.
Proof. intros [?|?] ?; [congruence|done]. Qed.

Lemma celda_leb_total n a b :
  compatible n a → compatible n b →
  Tabla.celda_leb a b = true ∨ Tabla.celda_leb b a = true.
Proof.
  intros Ha Hb.
  destruct (es_nulo b) eqn:Nb; [left; by destruct a, b|].
  destruct (es_nulo a) eqn:Na; [right; by destruct a, b|].
  apply compatible_no_nulo in Ha; [|done]. apply compatible_no_nulo in Hb; [|done].
  destruct (es_texto a) eqn:Ta, (es_texto b) eqn:Tb.
  - destruct a, b; try done. simpl. apply String.leb_total.
  - right. by destruct a, b.
  - left. by destruct a, b.
  - destruct Ha as [Ha|Ha]; [by destruct a|]. destruct Hb as [Hb|Hb]; [by destruct b|].
    destruct n as [|[|[|[|n]]]]; try (by destruct a).
    + rewrite !celda_leb_valor by done.
      apply numero_leb_total; by apply valor_no_nan.
    + destruct a as [| | | | |d], b as [| | | | |e]; try done. simpl.
      destruct (Z.leb_spec d e); [by left|right]. apply Z.leb_le. lia.
Qed.

Lemma celda_leb_trans n a b c :
  compatible n a → compatible n b → compatible n c →
  Tabla.celda_leb a b = true → Tabla.celda_leb b c = true → Tabla.celda_leb a c = true.
Proof.
  intros Ha Hb Hc Hab Hbc.
  destruct (es_nulo c) eqn:Nc; [by destruct a, c|].
  destruct (es_nulo b) eqn:Nb; [by destruct b, c|].
  destruct (es_nulo a) eqn:Na; [by destruct a, b|].
  apply compatible_no_nulo in Ha; [|done]. apply compatible_no_nulo in Hb; [|done].
  apply compatible_no_nulo in Hc; [|done].
  destruct (es_texto a) eqn:Ta.
  { destruct a, b; try done. destruct c; try done. simpl in *.
    by eapply string_leb_trans. }
  destruct (es_texto c) eqn:Tc; [by destruct a, c|].
  destruct (es_texto b) eqn:Tb; [by destruct b, c|].
  destruct Ha as [Ha|Ha]; [by destruct a|]. destruct Hb as [Hb|Hb]; [by destruct b|].
  destruct Hc as [Hc|Hc]; [by destruct c|].
  destruct n as [|[|[|[|n]]]]; try (by destruct a).
  - rewrite !celda_leb_valor in * by done. by eapply numero_leb_trans.
  - destruct a, b, c; try done. simpl in *.
    apply Z.leb_le. apply Z.leb_le in Hab, Hbc. lia.
Qed.

Lemma celda_leb_antisym a b :
  Tabla.celda_leb a b = true → Tabla.celda_leb b a = true → celda_eqb a b = true.
Proof.
  destruct (Tabla.clase a) as [|[|[|[|n]]]] eqn:Ca;
    destruct (Tabla.clase b) as [|[|[|[|m]]]] eqn:Cb;
    try (by destruct a, b).
  - destruct a, b; try done. simpl. intros H1 H2.
    rewrite (String.leb_antisym _ _ H1 H2). apply String.eqb_refl.
  - rewrite !celda_leb_valor, celda_eqb_valor by done. apply numero_leb_antisym.
  - destruct a, b; try done. simpl. intros H1 H2.
    apply Z.leb_le in H1, H2. apply Z.eqb_eq. lia.
Qed.

(** El orden descendente de las fechas ya convertidas es total y
    transitivo. *)
Lemma leer_fecha_fecha `{Pandas} s c : compatible 3 (leer_fecha s c).
Proof.
  unfold leer_fecha. destruct c; try (by left); try (by right; right);
    destruct (fecha_de _ _); first [by right; right|by left].
Qed.

Lemma to_datetime_fecha `{Pandas} (s : serie) i : compatible 3 (celda_en (to_datetime s) i).
Proof.
  unfold celda_en, to_datetime. rewrite list_lookup_fmap.
  destruct (s !! i); simpl; [apply leer_fecha_fecha|by left].
Qed.

Lemma celda_geb_total a b :
  compatible 3 a → compatible 3 b →
  Tabla.celda_geb a b = true ∨ Tabla.celda_geb b a = true.
Proof.
  intros Ha Hb. destruct (es_nulo b) eqn:Nb; [left; by destruct a, b|].
  destruct (es_nulo a) eqn:Na; [right; by destruct a, b|].
  destruct (celda_leb_total 3 a b Ha Hb); [right|left]; by destruct a, b.
Qed.

Lemma celda_geb_trans a b c :
  compatible 3 a → compatible 3 b → compatible 3 c →
  Tabla.celda_geb a b = true → Tabla.celda_geb b c = true → Tabla.celda_geb a c = true.
Proof.
  intros Ha Hb Hc Hab Hbc.
  destruct (es_nulo c) eqn:Nc; [by destruct a, c|].
  destruct (es_nulo b) eqn:Nb; [by destruct b, c|].
  destruct (es_nulo a) eqn:Na; [by destruct a, b|].
  assert (E : ∀ x y, es_nulo x = false → es_nulo y = false →
                     Tabla.celda_geb x y = Tabla.celda_leb y x)
    by (intros x y; by destruct x, y).
  rewrite E in * by done. by eapply (celda_leb_trans 3 c b a).
Qed.

Lemma celda_geb_refl a : compatible 3 a → Tabla.celda_geb a a = true.
Proof. intros Ha. by destruct (celda_geb_total a a Ha Ha). Qed.

(** ** Primeras apariciones *)

Section Primeros.
Context {A : Type} (eqb : A → A → bool).
Hypothesis eqb_refl : ∀ x, eqb x x = true.
Hypothesis eqb_sym : ∀ x y, eqb x y = eqb y x.
Hypothesis eqb_trans : ∀ x y z, eqb x y = true → eqb y z = true → eqb x z = true.

Lemma primeros_desde_cons (vistos : list A) x l :
  primeros_desde eqb vistos (x :: l)
  = if existsb (eqb x) vistos then primeros_desde eqb (x :: vistos) l
    else x :: primeros_desde eqb (x :: vistos) l.
Proof. unfold primeros_desde. simpl. by destruct (existsb (eqb x) vistos). Qed.

Lemma primeros_desde_elem (vistos l : list A) y :
  y ∈ primeros_desde eqb vistos l →
  y ∈ l ∧ ∀ v, v ∈ vistos → eqb y v = false.
Proof.
  revert vistos. induction l as [|x l IH]; intros vistos Hy.
  - by apply elem_of_nil in Hy.
  - rewrite primeros_desde_cons in Hy.
    assert (Hcola : y ∈ primeros_desde eqb (x :: vistos) l →
                    y ∈ x :: l ∧ ∀ v, v ∈ vistos → eqb y v = false).
    { intros Hy'. destruct (IH _ Hy') as [H1 H2]. split; [by right|].
      intros v Hv. apply H2. by right. }
    destruct (existsb (eqb x) vistos) eqn:E; [by apply Hcola|].
    apply elem_of_cons in Hy as [->|Hy]; [|by apply Hcola].
    split; [by left|]. intros v Hv.
    destruct (eqb x v) eqn:Ev; [|done].
    assert (existsb (eqb x) vistos = true); [|congruence].
    apply existsb_exists. exists v. split; [by apply list_elem_of_In|done].
Qed.

Lemma primeros_desde_distintos (vistos l : list A) :
  distintos eqb (primeros_desde eqb vistos l).
Proof.
  revert vistos. induction l as [|x l IH]; intros vistos.
  - by intros i j a b _ ?.
  - rewrite primeros_desde_cons.
    destruct (existsb (eqb x) vistos); [apply IH|].
    assert (Hx : ∀ k z, primeros_desde eqb (x :: vistos) l !! k = Some z →
                        eqb z x = false).
    { intros k z Hz. apply list_elem_of_lookup_2 in Hz.
      apply primeros_desde_elem in Hz as [_ Hz]. apply Hz. by left. }
    intros [|i] [|j] a b Hij Ha Hb; simpl in Ha, Hb; simplify_eq.
    + rewrite eqb_sym. by eapply Hx.
    + by eapply Hx.
    + eapply (IH (x :: vistos) i j); [congruence|done..].
Qed.

(** Todo elemento tiene un representante conservado que no va después. *)
Lemma primeros_desde_cubre (vistos l1 l2 : list A) x :
  (∃ v, v ∈ vistos ∧ eqb x v = true)
  ∨ (∃ y, y ∈ primeros_desde eqb vistos (l1 ++ x :: l2)
          ∧ eqb x y = true ∧ y ∈ l1 ++ [x]).
Proof.
  revert vistos. induction l1 as [|z l1 IH]; intros vistos.
  - simpl. rewrite primeros_desde_cons.
    destruct (existsb (eqb x) vistos) eqn:E.
    + left. apply existsb_exists in E as (v & Hv & Ev).
      exists v. split; [by apply list_elem_of_In|done].
    + right. exists x. split; [by left|]. split; [done|by left].
  - change ((z :: l1) ++ x :: l2) with (z :: (l1 ++ x :: l2)).
    rewrite primeros_desde_cons.
    destruct (IH (z :: vistos)) as [(v & Hv & Ev)|(y & Hy & Ey & Hy')].
    + apply elem_of_cons in Hv as [->|Hv]; [|left; eauto].
      destruct (existsb (eqb z) vistos) eqn:E.
      * left. apply existsb_exists in E as (v & Hv & Ezv).
        exists v. split; [by apply list_elem_of_In|by eapply eqb_trans].
      * right. exists z. split; [by left|]. split; [done|by left].
    + right. exists y. split; [|split; [done|by right]].
      destruct (existsb (eqb z) vistos); [done|by right].
Qed.

Lemma primeros_cubre (l1 l2 : list A) x :
  ∃ y, y ∈ primeros eqb (l1 ++ x :: l2) ∧ eqb x y = true ∧ y ∈ l1 ++ [x].
Proof.
  destruct (primeros_desde_cubre [] l1 l2 x) as [(v & Hv & _)|?]; [|done].
  by apply elem_of_nil in Hv.
Qed.

(** En una lista de elementos distintos, dos elementos iguales son el
    mismo. *)
Lemma distintos_unico (l : list A) x y :
  distintos eqb l → x ∈ l → y ∈ l → eqb x y = true → x = y.
Proof.
  intros Hd Hx Hy E.
  apply list_elem_of_lookup in Hx as [i Hi]. apply list_elem_of_lookup in Hy as [j Hj].
  destruct (decide (i = j)) as [->|Hij]; [congruence|].
  rewrite (Hd i j x y Hij Hi Hj) in E. done.
Qed.

End Primeros.

Lemma duplicated_desde_fmap {A B} (f : A → B) (eqb : B → B → bool) (vistos l : list A) :
  Tabla.duplicated_desde eqb (f <$> vistos) (f <$> l)
  = Tabla.duplicated_desde (λ x y, eqb (f x) (f y)) vistos l.
Proof.
  revert vistos. induction l as [|x l IH]; intros vistos; csimpl; [done|].
  rewrite <- IH. csimpl. f_equal.
  induction vistos as [|v vistos IHv]; csimpl; [done|]. by rewrite IHv.
Qed.

Lemma ordenada_anterior {A} (R : A → A → Prop) (l1 l2 : list A) x y :
  StronglySorted R (l1 ++ x :: l2) → y ∈ l1 → R y x.
Proof.
  induction l1 as [|z l1 IH]; intros Hs Hy; [by apply elem_of_nil in Hy|].
  simpl in Hs. apply StronglySorted_inv in Hs as [Hs Hz].
  apply elem_of_cons in Hy as [->|Hy]; [|by apply IH].
  eapply list.Forall_forall in Hz; [exact Hz|].
  apply elem_of_app. right. by left.
Qed.

(** ** Ejecución de detectar_duplicados *)

Lemma devuelve_ret (h : almacen) df (T : tabla) :
  h !! df = Some T → devuelve (mret df) h T.
Proof. intros E. exists df, h. by rewrite ret_ejecuta. Qed.

Lemma devuelve_columna (f : serie → M ref) (h : almacen) df (t T : tabla) c s :
  h !! df = Some t → t !! c = Some s →
  devuelve (f s) h T → devuelve (columna df c ≫= f) h T.
Proof.
  intros Eh Ec (df' & h' & E & L & N). exists df', h'.
  by rewrite bind_ejecuta, (columna_ejecuta _ _ t _ s).
Qed.

Lemma devuelve_asignar (f : unit → M ref) (h : almacen) df (t T : tabla) c s :
  h !! df = Some t →
  devuelve (f ()) (<[df := <[c := s]> t]> h) T →
  devuelve (asignar df c s ≫= f) h T.
Proof.
  intros Eh (df' & h' & E & L & N). exists df', h'.
  rewrite bind_ejecuta, (asignar_ejecuta _ _ t) by done.
  rewrite length_insert in N. done.
Qed.

Lemma devuelve_ret_bind {A} (x : A) (f : A → M ref) (h : almacen) (T : tabla) :
  devuelve (f x) h T → devuelve (mret x ≫= f) h T.
Proof. intros (df' & h' & E & L & N). by exists df', h'. Qed.

Section EjecucionDuplicados.
Context `{Pandas}.

Lemma detectar_duplicados_devuelve (h : almacen) df (t T : tabla) columna_id :
  h !! df = Some t → sin_duplicados t columna_id = Some T →
  devuelve (Limpieza.detectar_duplicados df columna_id) h T.
Proof.
  intros Eh. unfold sin_duplicados, Limpieza.detectar_duplicados.
  set (dup := Tabla.duplicated Tabla.fila_eqb (Tabla.filas t)).
  set (t1 := if Nat.ltb 0 (Serie.contar dup) then _ else t).
  intros Hs. apply (devuelve_leer _ _ _ t); [done|]. fold dup.
  apply (devuelve_bind _ _ _ t1).
  { unfold t1. destruct (Nat.ltb 0 (Serie.contar dup)).
    - apply crear_devuelve.
    - by apply devuelve_ret. }
  clear h df Eh. intros df h Eh.
  destruct (t1 !! columna_id) as [ids|] eqn:Eid; [|done]. simpl in Hs.
  apply (devuelve_columna _ _ _ t1 _ _ ids); [done..|].
  destruct (Nat.ltb 0 (Serie.contar (Tabla.duplicated_todos celda_eqb ids)));
    [|simplify_eq; by apply devuelve_ret].
  apply (devuelve_leer _ _ _ t1); [done|].
  destruct (t1 !! "last_purchase_date") as [fechas|] eqn:Ef.
  - set (t1' := <["last_purchase_date_temp" := to_datetime fechas]> t1) in *.
    apply (devuelve_asignar _ _ _ t1); [done|]. fold t1'.
    assert (Eh' : <[df := t1']> h !! df = Some t1') by by eapply almacen_insert_eq.
    apply (devuelve_leer _ _ _ t1'); [done|].
    destruct (t1' !! columna_id) as [ids'|] eqn:Eid'; [|done]. simpl in Hs.
    apply (devuelve_columna _ _ _ t1' _ _ ids'); [done..|].
    destruct (t1' !! "last_purchase_date_temp") as [temp|] eqn:Et; [|done].
    simpl in Hs.
    apply (devuelve_columna _ _ _ t1' _ _ temp); [done..|].
    destruct (Tabla.ordenable ids'); [|done].
    apply devuelve_ret_bind.
    eapply devuelve_bind; [apply crear_devuelve|]. intros df2 h2 E2.
    set (t2 := Tabla.tomar (Tabla.orden_filas ids' temp) t1') in *.
    apply (devuelve_leer _ _ _ t2); [done|].
    destruct (t2 !! columna_id) as [ids2|] eqn:Eid2; [|done]. simpl in Hs.
    apply (devuelve_columna _ _ _ t2 _ _ ids2); [done..|].
    eapply devuelve_bind; [apply crear_devuelve|]. intros df3 h3 E3.
    apply (devuelve_leer _ _ _ _ _ E3). simplify_eq. apply crear_devuelve.
  - simplify_eq. apply crear_devuelve.
Qed.

End EjecucionDuplicados.

(** ** Orden de las filas por clave y fecha *)

Section OrdenFilas.
Context {A : Type} (K D : A → celda).

Lemma le_fila_total n (x y : A) :
  compatible n (K x) ∧ compatible 3 (D x) →
  compatible n (K y) ∧ compatible 3 (D y) →
  le_fila K D x y = true ∨ le_fila K D y x = true.
Proof.
  intros [Hx Dx] [Hy Dy]. unfold le_fila. rewrite (celda_eqb_sym (K y) (K x)).
  destruct (celda_eqb (K x) (K y)).
  - by apply celda_geb_total.
  - by apply (celda_leb_total n).
Qed.

Lemma le_fila_trans n (x y z : A) :
  compatible n (K x) ∧ compatible 3 (D x) →
  compatible n (K y) ∧ compatible 3 (D y) →
  compatible n (K z) ∧ compatible 3 (D z) →
  le_fila K D x y = true → le_fila K D y z = true → le_fila K D x z = true.
Proof.
  intros [Hx Dx] [Hy Dy] [Hz Dz]. unfold le_fila.
  destruct (celda_eqb (K x) (K y)) eqn:Exy; destruct (celda_eqb (K y) (K z)) eqn:Eyz.
  - rewrite (celda_eqb_trans _ _ _ Exy Eyz). by apply celda_geb_trans.
  - intros _ Hyz.
    destruct (celda_eqb (K x) (K z)) eqn:Exz.
    { rewrite celda_eqb_sym in Exy.
      by rewrite (celda_eqb_trans _ _ _ Exy Exz) in Eyz. }
    apply (celda_leb_trans n _ (K y)); try done. by apply celda_eqb_leb.
  - intros Hxy _.
    destruct (celda_eqb (K x) (K z)) eqn:Exz.
    { rewrite celda_eqb_sym in Eyz.
      by rewrite (celda_eqb_trans _ _ _ Exz Eyz) in Exy. }
    apply (celda_leb_trans n _ (K y)); try done. by apply celda_eqb_leb.
  - intros Hxy Hyz.
    pose proof (celda_leb_trans n _ _ _ Hx Hy Hz Hxy Hyz) as Hxz.
    destruct (celda_eqb (K x) (K z)) eqn:Exz; [|done].
    exfalso. rewrite celda_eqb_sym in Exz. apply celda_eqb_leb in Exz.
    pose proof (celda_leb_trans n _ _ _ Hy Hz Hx Hyz Exz) as Hyx.
    by rewrite (celda_leb_antisym _ _ Hxy Hyx) in Exy.
Qed.

Lemma eqb_clave_refl (x : A) : eqb_clave K x x = true.
Proof. apply celda_eqb_refl. Qed.

Lemma eqb_clave_sym (x y : A) : eqb_clave K x y = eqb_clave K y x.
Proof. apply celda_eqb_sym. Qed.

Lemma eqb_clave_trans (x y z : A) :
  eqb_clave K x y = true → eqb_clave K y z = true → eqb_clave K x z = true.
Proof. apply celda_eqb_trans. Qed.

(** Tras ordenar y quedarse con la primera fila de cada clave, las claves
    son distintas y cada fila de partida tiene una fila conservada con su
    clave y una fecha al menos tan reciente. *)
Lemma resolver_por_fecha n (P : list A) :
  Forall (λ x, compatible n (K x) ∧ compatible 3 (D x)) P →
  let R := primeros (eqb_clave K) (Serie.ordenar (le_fila K D) P) in
  distintos (eqb_clave K) R
  ∧ (∀ r, r ∈ R → r ∈ P)
  ∧ (∀ p, p ∈ P → ∃ r, r ∈ R ∧ eqb_clave K p r = true
        ∧ Tabla.celda_geb (D r) (D p) = true).
Proof.
  intros HP R. split; [apply primeros_desde_distintos, eqb_clave_sym|].
  pose proof (ordenar_permutacion (le_fila K D) P) as Hperm.
  pose proof (ordenar_ordenada (le_fila K D)
                (λ x, compatible n (K x) ∧ compatible 3 (D x))
                (le_fila_total n) (le_fila_trans n) P HP) as Hs.
  split.
  - intros r Hr. apply primeros_desde_elem in Hr as [Hr _]. by rewrite <- Hperm.
  - intros p Hp. rewrite <- Hperm in Hp.
    apply list_elem_of_split in Hp as (l1 & l2 & EL).
    destruct (primeros_cubre (eqb_clave K) eqb_clave_refl eqb_clave_trans l1 l2 p)
      as (y & Hy & Ey & Hy').
    exists y. unfold R. rewrite EL. split; [done|]. split; [done|].
    assert (Hle : le_fila K D y p = true).
    { apply elem_of_app in Hy' as [Hy'|Hy'].
      - rewrite EL in Hs.
        exact (ordenada_anterior (λ a b, le_fila K D a b = true) l1 l2 p y Hs Hy').
      - apply list_elem_of_singleton in Hy' as ->.
        assert (Dp : compatible n (K p) ∧ compatible 3 (D p)).
        { eapply list.Forall_forall in HP; [exact HP|].
          rewrite <- Hperm, EL. apply elem_of_app. right. by left. }
        by destruct (le_fila_total n p p Dp Dp). }
    unfold le_fila in Hle. unfold eqb_clave in Ey.
    by rewrite celda_eqb_sym, Ey in Hle.
Qed.

End OrdenFilas.

(** ** Selección de filas por máscara y por posición *)

Lemma seleccionar_fmap {A B} (f : A → B) m (l : list A) :
  Serie.seleccionar m (f <$> l) = f <$> Serie.seleccionar m l.
Proof.
  revert l. induction m as [|b m IH]; intros [|x l]; csimpl; try done.
  destruct b; csimpl; by rewrite IH.
Qed.

Lemma seleccionar_elem {A} m (l : list A) x : x ∈ Serie.seleccionar m l → x ∈ l.
Proof.
  revert l. induction m as [|b m IH]; intros [|y l]; simpl;
    try (by intros ?%elem_of_nil).
  destruct b.
  - intros [->|Hx]%elem_of_cons; [by left|right; by apply IH].
  - intros Hx. right. by apply IH.
Qed.

Lemma seleccionar_longitud {A B} m (a : list A) (b : list B) :
  length a = length b →
  length (Serie.seleccionar m a) = length (Serie.seleccionar m b).
Proof.
  revert a b. induction m as [|c m IH]; intros [|x a] [|y b]; simpl; try done.
  intros E. destruct c; simpl; rewrite (IH a b); congruence.
Qed.

Lemma seleccionar_sin_marcas {A} (m : list bool) (l : list A) :
  Forall (λ b, b = false) m → (length l ≤ length m)%nat →
  Serie.seleccionar (negb <$> m) l = l.
Proof.
  intros Hm. revert l. induction Hm as [|b m -> Hm IH]; intros [|x l]; csimpl; try done.
  - lia.
  - intros Hl. rewrite IH; [done|lia].
Qed.

Lemma seleccionar_sublista {A} m (l : list A) : Serie.seleccionar m l `sublist_of` l.
Proof.
  revert l. induction m as [|b m IH]; intros [|x l]; simpl;
    try apply sublist_nil_l.
  destruct b; [by apply sublist_skip|by apply sublist_cons].
Qed.

Lemma seleccionar_marcada {A} (m : list bool) (l : list A) j x :
  m !! j = Some true → l !! j = Some x → x ∈ Serie.seleccionar m l.
Proof.
  revert l j. induction m as [|b m IH]; intros [|y l] [|j]; simpl; try done.
  - intros [= ->] [= ->]. by left.
  - intros Hm Hl. destruct b; [right|]; by eapply IH.
Qed.

Lemma duplicated_desde_longitud {A} (eqb : A → A → bool) (vistos l : list A) :
  length (Tabla.duplicated_desde eqb vistos l) = length l.
Proof.
  revert vistos. induction l as [|x l IH]; intros vistos; simpl; [done|].
  by rewrite IH.
Qed.

Lemma contar_cero (m : list bool) :
  Serie.contar m = 0%nat → Forall (λ b, b = false) m.
Proof.
  intros E. rewrite <- (list_fmap_id m) in E.
  by apply (contar_fmap_cero id) in E.
Qed.

(** Una columna es la lista de sus celdas leídas por posición. *)
Lemma lista_por_posicion (s : serie) : celda_en s <$> seq 0 (length s) = s.
Proof.
  apply list_eq. intros i. rewrite list_lookup_fmap. unfold celda_en.
  destruct (decide (i < length s)%nat) as [Hi|Hi].
  - rewrite lookup_seq_lt by done. simpl.
    destruct (lookup_lt_is_Some_2 s i Hi) as [x Ex]. by rewrite Ex.
  - rewrite lookup_seq_ge by lia. symmetry. apply lookup_ge_None. lia.
Qed.

Lemma seleccionar_posiciones (m : list bool) (s : serie) :
  length s = length m →
  Serie.seleccionar m s = celda_en s <$> Serie.seleccionar m (seq 0 (length m)).
Proof.
  intros E. rewrite <- seleccionar_fmap, <- E. by rewrite lista_por_posicion.
Qed.

Lemma celda_en_posiciones (s : serie) (idx : list nat) a i :
  idx !! a = Some i → celda_en (celda_en s <$> idx) a = celda_en s i.
Proof. intros E. unfold celda_en at 1. by rewrite list_lookup_fmap, E. Qed.

Lemma duplicated_posiciones (s : serie) :
  Tabla.duplicated celda_eqb s
  = Tabla.duplicated (eqb_clave (celda_en s)) (seq 0 (length s)).
Proof.
  unfold Tabla.duplicated. rewrite <- (lista_por_posicion s) at 1.
  exact (duplicated_desde_fmap (celda_en s) celda_eqb [] (seq 0 (length s))).
Qed.

Lemma distintos_fmap {A B} (f : A → B) (eqb : B → B → bool) (l : list A) :
  distintos (λ x y, eqb (f x) (f y)) l → distintos eqb (f <$> l).
Proof.
  intros Hd i j x y Hij Ei Ej. rewrite list_lookup_fmap in Ei, Ej.
  destruct (l !! i) as [u|] eqn:Eu; [|done].
  destruct (l !! j) as [v|] eqn:Ev; [|done].
  simpl in *. simplify_eq. by apply (Hd i j u v).
Qed.

(** Posiciones de posiciones: siguen sin repetirse y dentro de la tabla. *)
Lemma posiciones_compuestas (a b : list nat) n :
  NoDup a → (∀ i, i ∈ a → (i < n)%nat) →
  NoDup b → (∀ i, i ∈ b → (i < length a)%nat) →
  NoDup ((λ i, default 0%nat (a !! i)) <$> b)
  ∧ ∀ i, i ∈ (λ i, default 0%nat (a !! i)) <$> b → (i < n)%nat.
Proof.
  intros Ha Hna Hb Hnb. split.
  - apply NoDup_fmap_2_strong; [|done]. intros x y Hx Hy E.
    destruct (lookup_lt_is_Some_2 a x (Hnb x Hx)) as [u Eu].
    destruct (lookup_lt_is_Some_2 a y (Hnb y Hy)) as [v Ev].
    rewrite Eu, Ev in E. simpl in E. subst v. exact (NoDup_lookup a x y u Ha Eu Ev).
  - intros i (x & -> & Hx)%list_elem_of_fmap.
    destruct (lookup_lt_is_Some_2 a x (Hnb x Hx)) as [u Eu]. rewrite Eu. simpl.
    apply Hna. by eapply list_elem_of_lookup_2.
Qed.

Lemma fila_eqb_refl a : Tabla.fila_eqb a a = true.
Proof. induction a as [|x a IH]; simpl; [done|]. by rewrite celda_eqb_refl. Qed.

Lemma fila_eqb_sym a b : Tabla.fila_eqb a b = Tabla.fila_eqb b a.
Proof.
  revert b. induction a as [|x a IH]; intros [|y b]; simpl; try done.
  by rewrite celda_eqb_sym, IH.
Qed.

Lemma fila_eqb_trans a b c :
  Tabla.fila_eqb a b = true → Tabla.fila_eqb b c = true → Tabla.fila_eqb a c = true.
Proof.
  revert b c. induction a as [|x a IH]; intros [|y b] [|z c]; simpl; try done.
  intros [E1 E2]%andb_true_iff [E3 E4]%andb_true_iff.
  by rewrite (celda_eqb_trans _ _ _ E1 E3), (IH _ _ E2 E4).
Qed.

(** Una columna se puede ordenar cuando, aparte de nulos y textos, todas
    sus celdas son de una misma clase. *)
Lemma ordenable_compatible (s : serie) :
  Tabla.ordenable s = true → ∃ n, Forall (compatible n) s.
Proof.
  unfold Tabla.ordenable. intros Ho.
  destruct (filter (λ c, es_nulo c || es_texto c = false) s) as [|c r] eqn:Ef.
  - exists 0%nat. apply list.Forall_forall. intros x Hx.
    destruct (es_nulo x || es_texto x) eqn:Ex.
    { apply orb_true_iff in Ex as [Ex|Ex]; [by left|right; left; by destruct x]. }
    assert (Hf : x ∈ filter (λ c, es_nulo c || es_texto c = false) s)
      by by apply list_elem_of_filter.
    rewrite Ef in Hf. by apply elem_of_nil in Hf.
  - exists (Tabla.clase c). apply list.Forall_forall. intros x Hx.
    destruct (es_nulo x || es_texto x) eqn:Ex.
    { apply orb_true_iff in Ex as [Ex|Ex]; [by left|right; left; by destruct x]. }
    right. right.
    assert (Hf : x ∈ filter (λ c, es_nulo c || es_texto c = false) s)
      by by apply list_elem_of_filter.
    rewrite Ef in Hf. apply elem_of_cons in Hf as [->|Hf]; [done|].
    apply list_elem_of_In in Hf.
    eapply forallb_forall in Ho; [|exact Hf]. symmetry. by apply Nat.eqb_eq.
Qed.

Lemma compatible_ordenable n (s : serie) :
  Forall (compatible n) s → Tabla.ordenable s = true.
Proof.
  intros Hs. unfold Tabla.ordenable.
  destruct (filter (λ c, es_nulo c || es_texto c = false) s) as [|c r] eqn:Ef; [done|].
  assert (Hc : ∀ x, x ∈ c :: r → Tabla.clase x = n).
  { intros x Hx. rewrite <- Ef in Hx. apply list_elem_of_filter in Hx as [Nx Hx].
    eapply list.Forall_forall in Hs; [|exact Hx].
    apply orb_false_iff in Nx as [N1 N2].
    destruct Hs as [Hs|[Hs|Hs]]; [congruence|by destruct x|done]. }
  apply forallb_forall. intros d Hd. apply list_elem_of_In in Hd.
  apply Nat.eqb_eq. rewrite (Hc c) by by left. symmetry. apply Hc. by right.
Qed.

Lemma compatible_seleccionar n m (s : serie) :
  Forall (compatible n) s → Forall (compatible n) (Serie.seleccionar m s).
Proof.
  intros Hs. apply list.Forall_forall. intros x Hx%seleccionar_elem.
  by eapply list.Forall_forall in Hs.
Qed.

Lemma compatible_celda_en n (s : serie) i :
  Forall (compatible n) s → compatible n (celda_en s i).
Proof.
  intros Hs. unfold celda_en. destruct (s !! i) as [x|] eqn:E; simpl; [|by left].
  eapply list.Forall_forall in Hs; [exact Hs|]. by eapply list_elem_of_lookup_2.
Qed.

(** ** Las filas que conserva detectar_duplicados *)

Lemma filtrar_columna m (t : tabla) c :
  Tabla.filtrar m t !! c = Serie.seleccionar m <$> t !! c.
Proof. apply lookup_fmap. Qed.

Lemma tomar_columna idx (t : tabla) c :
  Tabla.tomar idx t !! c = (λ s : serie, celda_en s <$> idx) <$> t !! c.
Proof. apply lookup_fmap. Qed.

Lemma filas_longitud (t : tabla) : length (Tabla.filas t) = Tabla.n_filas t.
Proof. unfold Tabla.filas. by rewrite length_fmap, length_seq. Qed.

Lemma filas_unicas_longitud (t : tabla) : length (filas_unicas t) = Tabla.n_filas t.
Proof.
  unfold filas_unicas, Tabla.duplicated.
  by rewrite length_fmap, duplicated_desde_longitud, filas_longitud.
Qed.

(** Filtrar con una máscara es tomar las posiciones marcadas. *)
Lemma filtrar_tomar (t : tabla) m :
  (∀ c s, t !! c = Some s → length s = length m) →
  Tabla.filtrar m t = Tabla.tomar (Serie.seleccionar m (seq 0 (length m))) t.
Proof.
  intros Hl. apply map_eq. intros c. rewrite filtrar_columna, tomar_columna.
  destruct (t !! c) as [s|] eqn:E; [|done]. simpl. f_equal.
  apply seleccionar_posiciones. by apply (Hl c).
Qed.

Lemma tomar_tomar (t : tabla) (a b : list nat) :
  (∀ i, i ∈ b → (i < length a)%nat) →
  Tabla.tomar b (Tabla.tomar a t) = Tabla.tomar ((λ i, default 0%nat (a !! i)) <$> b) t.
Proof.
  intros Hb. apply map_eq. intros c. rewrite !tomar_columna.
  destruct (t !! c) as [s|]; [|done]. simpl. f_equal.
  rewrite <- list_fmap_compose. apply Forall_fmap_ext. apply list.Forall_forall.
  intros i Hi. simpl.
  destruct (lookup_lt_is_Some_2 a i (Hb i Hi)) as [x Ex].
  rewrite (celda_en_posiciones s a i x Ex). by rewrite Ex.
Qed.

(** Quitar las filas repetidas de una tabla que no las tiene la deja igual. *)
Lemma filtrar_sin_repetidas (t : tabla) :
  rectangular t = true →
  (if Nat.ltb 0 (Serie.contar (Tabla.duplicated Tabla.fila_eqb (Tabla.filas t)))
   then Tabla.filtrar (negb <$> Tabla.duplicated Tabla.fila_eqb (Tabla.filas t)) t
   else t)
  = Tabla.filtrar (filas_unicas t) t.
Proof.
  intros Hr. unfold filas_unicas.
  destruct (Nat.ltb 0 _) eqn:E; [done|].
  apply Nat.ltb_ge in E.
  assert (E0 : Forall (λ b, b = false)
                 (Tabla.duplicated Tabla.fila_eqb (Tabla.filas t))).
  { apply contar_cero. lia. }
  apply map_eq. intros c. rewrite filtrar_columna.
  destruct (t !! c) as [s|] eqn:Ec; [|done]. simpl. f_equal. symmetry.
  apply seleccionar_sin_marcas; [done|].
  unfold Tabla.duplicated. rewrite duplicated_desde_longitud, filas_longitud.
  by rewrite (rectangular_longitud t c s).
Qed.

(** Las filas que deja el paso 1 son las primeras apariciones de cada fila. *)
Lemma filas_unicas_primeras (t : tabla) :
  Serie.seleccionar (filas_unicas t) (seq 0 (Tabla.n_filas t))
  = primeros (λ i j, Tabla.fila_eqb (Tabla.fila t i) (Tabla.fila t j))
             (seq 0 (Tabla.n_filas t)).
Proof.
  unfold primeros, primeros_desde, filas_unicas, Tabla.duplicated, Tabla.filas.
  f_equal. f_equal.
  exact (duplicated_desde_fmap (Tabla.fila t) Tabla.fila_eqb [] (seq 0 (Tabla.n_filas t))).
Qed.

(** Cada fila de partida es igual, columna a columna, a una de las filas
    que deja el paso 1. *)
Lemma filas_unicas_cubren (t : tabla) j :
  (j < Tabla.n_filas t)%nat →
  ∃ i, i ∈ Serie.seleccionar (filas_unicas t) (seq 0 (Tabla.n_filas t))
       ∧ ∀ c s, t !! c = Some s → celda_eqb (celda_en s j) (celda_en s i) = true.
Proof.
  intros Hj. rewrite filas_unicas_primeras.
  assert (Hin : j ∈ seq 0 (Tabla.n_filas t)) by (apply elem_of_seq; lia).
  apply list_elem_of_split in Hin as (l1 & l2 & E). rewrite E.
  destruct (primeros_cubre
              (λ i j, Tabla.fila_eqb (Tabla.fila t i) (Tabla.fila t j))
              (λ x, fila_eqb_refl _) (λ x y z, fila_eqb_trans _ _ _) l1 l2 j)
    as (y & Hy & Ey & _).
  exists y. split; [done|]. intros c s Es.
  apply (fila_eqb_columna (map_to_list t) j y (c, s)); [exact Ey|].
  by apply elem_of_map_to_list.
Qed.

Section Resolucion.
Context `{Pandas}.

(** Lo que devuelve la etapa: filas enteras de la tabla de partida, una por
    clave, con toda clave de partida presente y, si hay columna de fecha,
    con la fecha más reciente de cada clave tal como la etapa la lee. *)
Lemma sin_duplicados_resuelve (t : tabla) (ids : serie) :
  rectangular t = true →
  t !! "customer_id" = Some ids →
  Tabla.ordenable ids = true →
  ∃ t' idx ids',
    sin_duplicados t "customer_id" = Some t'
    ∧ NoDup idx ∧ (∀ i, i ∈ idx → (i < length ids)%nat)
    ∧ (∀ c, c ≠ "last_purchase_date_temp" → t' !! c = Tabla.tomar idx t !! c)
    ∧ t' !! "customer_id" = Some ids'
    ∧ distintos celda_eqb ids'
    ∧ (∀ k, k ∈ ids → ∃ k', k' ∈ ids' ∧ celda_eqb k k' = true)
    ∧ (∀ fechas, t !! "last_purchase_date" = Some fechas →
         ∀ j kj fj, filas_unicas t !! j = Some true →
           ids !! j = Some kj → fechas !! j = Some fj →
           ∃ i ki fi, i ∈ idx ∧ ids !! i = Some ki ∧ fechas !! i = Some fi
             ∧ celda_eqb kj ki = true
             ∧ Tabla.celda_geb (leer_fecha (fechas_vistas t fechas) fi)
                               (leer_fecha (fechas_vistas t fechas) fj) = true).
Proof.
  intros Hr Eid Ho.
  pose proof (rectangular_longitud _ _ _ Hr Eid) as Ln.
  pose proof (filas_unicas_longitud t) as Lm.
  pose proof (filas_unicas_cubren t) as Hcub0.
  set (n := Tabla.n_filas t) in *.
  set (m1 := filas_unicas t) in *.
  set (idx1 := Serie.seleccionar m1 (seq 0 n)) in *.
  assert (Hcol : ∀ c s, t !! c = Some s → length s = length m1).
  { intros c s E. rewrite Lm. by apply (rectangular_longitud t c). }
  assert (Et1 : Tabla.filtrar m1 t = Tabla.tomar idx1 t).
  { unfold idx1. rewrite <- Lm. by apply filtrar_tomar. }
  assert (Hnd1 : NoDup idx1).
  { eapply sublist_NoDup; [apply (NoDup_seq 0 n)|apply seleccionar_sublista]. }
  assert (Hr1 : ∀ i, i ∈ idx1 → (i < n)%nat).
  { intros i Hi%seleccionar_elem. apply elem_of_seq in Hi. lia. }
  set (ids1 := celda_en ids <$> idx1).
  assert (E1 : Tabla.tomar idx1 t !! "customer_id" = Some ids1)
    by by rewrite tomar_columna, Eid.
  destruct (ordenable_compatible ids Ho) as [cl Hcl].
  assert (Hcl1 : Forall (compatible cl) ids1).
  { apply list.Forall_forall. intros x (i & -> & _)%list_elem_of_fmap.
    by apply compatible_celda_en. }
  assert (Hcub1 : ∀ k, k ∈ ids →
            ∃ a i, idx1 !! a = Some i ∧ celda_eqb k (celda_en ids i) = true).
  { intros k [j Ej]%list_elem_of_lookup.
    destruct (Hcub0 j) as (i & [a Ha]%list_elem_of_lookup & Ei).
    { rewrite <- Ln. by eapply lookup_lt_Some. }
    exists a, i. split; [done|].
    specialize (Ei "customer_id" ids Eid). unfold celda_en at 1 in Ei.
    by rewrite Ej in Ei. }
  assert (Hmarca : ∀ j, m1 !! j = Some true → (j < n)%nat → j ∈ idx1).
  { intros j Hj Hn. apply (seleccionar_marcada m1 (seq 0 n) j j Hj).
    by apply lookup_seq_lt. }
  unfold sin_duplicados. rewrite filtrar_sin_repetidas by done. fold m1.
  rewrite Et1, E1. csimpl.
  destruct (Nat.ltb 0 (Serie.contar (Tabla.duplicated_todos celda_eqb ids1))) eqn:Ed.
  2: { exists (Tabla.tomar idx1 t), idx1, ids1.
       split; [done|]. split; [exact Hnd1|].
       split; [intros i Hi; rewrite Ln; by apply Hr1|].
       split; [done|]. split; [exact E1|].
       split.
       { intros p q x y. apply duplicated_todos_cero.
         apply Nat.ltb_ge in Ed. lia. }
       split.
       { intros k Hk. destruct (Hcub1 k Hk) as (a & i & Ha & Ek).
         exists (celda_en ids i). split; [|done].
         apply list_elem_of_lookup. exists a. unfold ids1.
         by rewrite list_lookup_fmap, Ha. }
       intros fechas Ef j kj fj Hm Ekj Efj.
       exists j, kj, fj. split.
       { apply Hmarca; [done|]. rewrite <- Ln. by eapply lookup_lt_Some. }
       split; [done|]. split; [done|]. split; [apply celda_eqb_refl|].
       apply celda_geb_refl, leer_fecha_fecha. }
  set (n1 := length idx1).
  assert (Ln1 : length ids1 = n1) by (unfold ids1; by rewrite length_fmap).
  assert (Hcol1 : ∀ c s, Tabla.tomar idx1 t !! c = Some s → length s = n1).
  { intros c s. rewrite tomar_columna. destruct (t !! c); simpl; [|done].
    intros [= <-]. by rewrite length_fmap. }
  (* De las posiciones conservadas [idx3] de la tabla sin filas repetidas a
     las posiciones de la tabla de partida. *)
  assert (Hfin : ∀ (idx3 : list nat) (t' : tabla),
            NoDup idx3 → (∀ a, a ∈ idx3 → (a < n1)%nat) →
            distintos (eqb_clave (celda_en ids1)) idx3 →
            (∀ a, (a < n1)%nat →
               ∃ r, r ∈ idx3 ∧ celda_eqb (celda_en ids1 a) (celda_en ids1 r) = true) →
            (∀ c, c ≠ "last_purchase_date_temp" →
               t' !! c = Tabla.tomar idx3 (Tabla.tomar idx1 t) !! c) →
            NoDup ((λ a, default 0%nat (idx1 !! a)) <$> idx3)
            ∧ (∀ i, i ∈ (λ a, default 0%nat (idx1 !! a)) <$> idx3 → (i < length ids)%nat)
            ∧ (∀ c, c ≠ "last_purchase_date_temp" →
                 t' !! c = Tabla.tomar ((λ a, default 0%nat (idx1 !! a)) <$> idx3) t !! c)
            ∧ t' !! "customer_id" = Some (celda_en ids1 <$> idx3)
            ∧ distintos celda_eqb (celda_en ids1 <$> idx3)
            ∧ (∀ k, k ∈ ids →
                 ∃ k', k' ∈ celda_en ids1 <$> idx3 ∧ celda_eqb k k' = true)).
  { intros idx3 t' Hnd3 Hr3 Hd3 Hc3 Ht'.
    destruct (posiciones_compuestas idx1 idx3 n Hnd1 Hr1 Hnd3 Hr3) as [N1 N2].
    split; [done|]. split; [by rewrite Ln|]. split.
    { intros c Hc. rewrite (Ht' c Hc). by rewrite tomar_tomar. }
    split; [by rewrite Ht', tomar_columna, E1|].
    split; [by apply (distintos_fmap (celda_en ids1) celda_eqb)|].
    intros k Hk. destruct (Hcub1 k Hk) as (a & i & Ha & Ek).
    destruct (Hc3 a) as (r & Hr3' & Er); [by eapply lookup_lt_Some|].
    exists (celda_en ids1 r). split.
    - apply list_elem_of_fmap. by exists r.
    - apply (celda_eqb_trans _ (celda_en ids1 a)); [|done].
      unfold ids1 at 1. by rewrite (celda_en_posiciones ids idx1 a i Ha). }
  destruct (t !! "last_purchase_date") as [fechas|] eqn:Ef.
  2: { assert (E2 : Tabla.tomar idx1 t !! "last_purchase_date" = None)
         by by rewrite tomar_columna, Ef.
       rewrite E2.
       set (m3 := negb <$> Tabla.duplicated celda_eqb ids1).
       set (idx3 := Serie.seleccionar m3 (seq 0 n1)).
       assert (Lm3 : length m3 = n1).
       { unfold m3, Tabla.duplicated.
         by rewrite length_fmap, duplicated_desde_longitud. }
       assert (E3 : Tabla.filtrar m3 (Tabla.tomar idx1 t)
                    = Tabla.tomar idx3 (Tabla.tomar idx1 t)).
       { unfold idx3. rewrite <- Lm3. apply filtrar_tomar.
         intros c s Es. rewrite Lm3. by apply (Hcol1 c). }
       assert (E4 : idx3 = primeros (eqb_clave (celda_en ids1)) (seq 0 n1)).
       { unfold idx3, m3. by rewrite duplicated_posiciones, Ln1. }
       destruct (Hfin idx3 (Tabla.filtrar m3 (Tabla.tomar idx1 t)))
         as (F1 & F2 & F3 & F4 & F5 & F6).
       { eapply sublist_NoDup; [apply (NoDup_seq 0 n1)|apply seleccionar_sublista]. }
       { intros a Ha%seleccionar_elem. apply elem_of_seq in Ha. lia. }
       { rewrite E4. apply primeros_desde_distintos, eqb_clave_sym. }
       { intros a Ha. rewrite E4.
         assert (Hin : a ∈ seq 0 n1) by (apply elem_of_seq; lia).
         apply list_elem_of_split in Hin as (l1 & l2 & EL). rewrite EL.
         destruct (primeros_cubre (eqb_clave (celda_en ids1))
                     (eqb_clave_refl _) (eqb_clave_trans _) l1 l2 a)
           as (y & Hy & Ey & _).
         by exists y. }
       { intros c _. by rewrite E3. }
       eexists _, _, _. split; [done|]. split; [exact F1|]. split; [exact F2|].
       split; [exact F3|]. split; [exact F4|]. split; [exact F5|].
       split; [exact F6|]. intros ? [=]. }
  set (fechas1 := celda_en fechas <$> idx1).
  assert (E2 : Tabla.tomar idx1 t !! "last_purchase_date" = Some fechas1)
    by by rewrite tomar_columna, Ef.
  assert (Ev : fechas_vistas t fechas = fechas1).
  { unfold fechas_vistas. fold m1. unfold fechas1, idx1. rewrite <- Lm.
    apply seleccionar_posiciones. by apply (Hcol "last_purchase_date"). }
  rewrite E2.
  set (Dcol := to_datetime fechas1).
  set (t1' := <["last_purchase_date_temp" := Dcol]> (Tabla.tomar idx1 t)).
  assert (E3 : t1' !! "customer_id" = Some ids1)
    by (unfold t1'; by rewrite lookup_insert_ne).
  assert (E4 : t1' !! "last_purchase_date_temp" = Some Dcol)
    by (unfold t1'; by simplify_map_eq).
  rewrite E3. csimpl. rewrite E4. csimpl.
  rewrite (compatible_ordenable cl ids1 Hcl1).
  set (idx2 := Tabla.orden_filas ids1 Dcol).
  assert (E5 : idx2 = Serie.ordenar (le_fila (celda_en ids1) (celda_en Dcol)) (seq 0 n1)).
  { unfold idx2, Tabla.orden_filas. by rewrite Ln1. }
  assert (E6 : Tabla.tomar idx2 t1' !! "customer_id" = Some (celda_en ids1 <$> idx2))
    by by rewrite tomar_columna, E3.
  rewrite E6. csimpl.
  set (m3 := negb <$> Tabla.duplicated celda_eqb (celda_en ids1 <$> idx2)).
  set (idx3 := Serie.seleccionar m3 idx2).
  assert (E7 : idx3 = primeros (eqb_clave (celda_en ids1)) idx2).
  { unfold idx3, m3, primeros, primeros_desde, Tabla.duplicated. f_equal. f_equal.
    exact (duplicated_desde_fmap (celda_en ids1) celda_eqb [] idx2). }
  assert (HP : Forall (λ a, compatible cl (celda_en ids1 a)
                            ∧ compatible 3 (celda_en Dcol a)) (seq 0 n1)).
  { apply list.Forall_forall. intros a _. split.
    - by apply compatible_celda_en.
    - apply to_datetime_fecha. }
  destruct (resolver_por_fecha (celda_en ids1) (celda_en Dcol) cl (seq 0 n1) HP)
    as (HR1 & HR2 & HR3).
  rewrite <- E5, <- E7 in HR1, HR2, HR3.
  assert (Hperm : idx2 ≡ₚ seq 0 n1) by (rewrite E5; apply ordenar_permutacion).
  assert (Hr3 : ∀ a, a ∈ idx3 → (a < n1)%nat).
  { intros a Ha%HR2. apply elem_of_seq in Ha. lia. }
  destruct (Hfin idx3 (delete "last_purchase_date_temp"
                         (Tabla.filtrar m3 (Tabla.tomar idx2 t1'))))
    as (F1 & F2 & F3 & F4 & F5 & F6).
  { eapply sublist_NoDup; [|apply seleccionar_sublista].
    rewrite Hperm. apply NoDup_seq. }
  { exact Hr3. }
  { exact HR1. }
  { intros a Ha. destruct (HR3 a) as (r & Hr' & Er & _); [apply elem_of_seq; lia|].
    by exists r. }
  { intros c Hc. rewrite lookup_delete_ne by done.
    rewrite filtrar_columna, (tomar_columna idx2), (tomar_columna idx3). unfold t1'.
    rewrite lookup_insert_ne by done.
    destruct (Tabla.tomar idx1 t !! c) as [s1|]; [|done]. simpl. f_equal.
    unfold idx3. by rewrite seleccionar_fmap. }
  eexists _, _, _. split; [done|]. split; [exact F1|]. split; [exact F2|].
  split; [exact F3|]. split; [exact F4|]. split; [exact F5|].
  split; [exact F6|].
  intros ? [= <-] j kj fj Hm Ekj Efj.
  assert (Hj : (j < n)%nat) by (rewrite <- Ln; by eapply lookup_lt_Some).
  pose proof (Hmarca j Hm Hj) as [a Ha]%list_elem_of_lookup.
  destruct (HR3 a) as (r & Hr' & Er & Eg).
  { apply elem_of_seq. apply lookup_lt_Some in Ha. fold n1 in Ha. lia. }
  destruct (lookup_lt_is_Some_2 idx1 r (Hr3 r Hr')) as [i Hi].
  assert (Hin : (i < n)%nat) by (apply Hr1; by eapply list_elem_of_lookup_2).
  destruct (lookup_lt_is_Some_2 ids i) as [ki Eki]; [lia|].
  destruct (lookup_lt_is_Some_2 fechas i) as [fi Efi].
  { rewrite (Hcol "last_purchase_date" fechas Ef), Lm. lia. }
  exists i, ki, fi. split.
  { apply list_elem_of_fmap. exists r. by rewrite Hi. }
  split; [done|]. split; [done|].
  assert (Ka : celda_en ids1 a = kj).
  { unfold ids1. rewrite (celda_en_posiciones ids idx1 a j Ha).
    unfold celda_en. by rewrite Ekj. }
  assert (Kr : celda_en ids1 r = ki).
  { unfold ids1. rewrite (celda_en_posiciones ids idx1 r i Hi).
    unfold celda_en. by rewrite Eki. }
  assert (Da : celda_en Dcol a = leer_fecha fechas1 fj).
  { unfold celda_en, Dcol, to_datetime, fechas1.
    rewrite !list_lookup_fmap, Ha. simpl. unfold celda_en. by rewrite Efj. }
  assert (Dr : celda_en Dcol r = leer_fecha fechas1 fi).
  { unfold celda_en, Dcol, to_datetime, fechas1.
    rewrite !list_lookup_fmap, Hi. simpl. unfold celda_en. by rewrite Efi. }
  unfold eqb_clave in Er. rewrite Ka, Kr in Er. rewrite Da, Dr in Eg.
  split; [done|]. by rewrite Ev.
Qed.

End Resolucion.

(** C6. Tras detectar_duplicados sobre una tabla con columna customer_id,
    cada valor de customer_id aparece en exactamente una fila del resultado:
    las claves del resultado son distintas y toda clave de partida sigue
    presente. Las filas del resultado son filas enteras de la tabla de
    partida: cada columna del resultado es la columna de partida leída en
    las mismas posiciones, sin repetir ninguna. Cuando existe la columna
    last_purchase_date, toda fila de partida (que no repita por completo una
    fila anterior, pues esas se quitan antes) tiene en el resultado una fila
    con su clave cuya fecha, leída como la lee la etapa, es al menos tan
    reciente; las fechas que no se pueden leer cuentan como las más
    antiguas. La etapa solo lanza una excepción cuando las claves mezclan
    fechas con números, que Python no sabe comparar. *)
Theorem una_fila_por_cliente `{Pandas} (t : tabla) (ids : serie) :
  rectangular t = true →
  t !! "customer_id" = Some ids →
  Tabla.ordenable ids = true →
  ∃ t' idx ids',
    resultado (λ df, Limpieza.detectar_duplicados df "customer_id") t = Some t'
    ∧ NoDup idx ∧ (∀ i, i ∈ idx → (i < length ids)%nat)
    ∧ (∀ c, c ≠ "last_purchase_date_temp" → t' !! c = Tabla.tomar idx t !! c)
    ∧ t' !! "customer_id" = Some ids'
    ∧ distintos celda_eqb ids'
    ∧ (∀ k, k ∈ ids → ∃ k', k' ∈ ids' ∧ celda_eqb k k' = true)
    ∧ (∀ fechas, t !! "last_purchase_date" = Some fechas →
         ∀ j kj fj, filas_unicas t !! j = Some true →
           ids !! j = Some kj → fechas !! j = Some fj →
           ∃ i ki fi, i ∈ idx ∧ ids !! i = Some ki ∧ fechas !! i = Some fi
             ∧ celda_eqb kj ki = true
             ∧ Tabla.celda_geb (leer_fecha (fechas_vistas t fechas) fi)
                               (leer_fecha (fechas_vistas t fechas) fj) = true).
Proof.
  intros Hr Eid Ho.
  destruct (sin_duplicados_resuelve t ids Hr Eid Ho)
    as (t' & idx & ids' & E & Hresto).
  exists t', idx, ids'. split; [|exact Hresto].
  apply devuelve_resultado.
  by apply (detectar_duplicados_devuelve [t] 0%nat t t').
Qed.

Lemma una_fila_por_cliente_witness :
  (columna_de_resultado
     (λ df, Limpieza.detectar_duplicados (H := Ejemplo.pandas_ejemplo) df "customer_id")
     Ejemplo.tabla_duplicados "customer_id"
   = Some [Texto "C1"; Texto "C2"]
   ∧ columna_de_resultado
     (λ df, Limpieza.detectar_duplicados (H := Ejemplo.pandas_ejemplo) df "customer_id")
     Ejemplo.tabla_duplicados "last_purchase_date"
     = Some [Texto "2024-06-01"; Texto "2024-03-15"]
   ∧ columna_de_resultado
     (λ df, Limpieza.detectar_duplicados (H := Ejemplo.pandas_ejemplo) df "customer_id")
     Ejemplo.tabla_duplicados "monthly_spend"
     = Some [Num 300; Num 200])
  ∧ (columna_de_resultado
       (λ df, Limpieza.detectar_duplicados (H := Ejemplo.pandas_ejemplo) df "customer_id")
       Ejemplo.tabla_claves_mixtas "customer_id"
     = Some [Num 7; Texto "C1"]
     ∧ columna_de_resultado
       (λ df, Limpieza.detectar_duplicados (H := Ejemplo.pandas_ejemplo) df "customer_id")
       Ejemplo.tabla_claves_mixtas "monthly_spend"
       = Some [Num 400; Num 300])
  ∧ ∃ t' idx ids',
      resultado
        (λ df, Limpieza.detectar_duplicados (H := Ejemplo.pandas_ejemplo) df "customer_id")
        Ejemplo.tabla_duplicados = Some t'
      ∧ NoDup idx
      ∧ (∀ i, i ∈ idx → (i < 4)%nat)
      ∧ (∀ c, c ≠ "last_purchase_date_temp" →
           t' !! c = Tabla.tomar idx Ejemplo.tabla_duplicados !! c)
      ∧ t' !! "customer_id" = Some ids'
      ∧ distintos celda_eqb ids'
      ∧ (∀ k, k ∈ [Texto "C1"; Texto "C2"; Texto "C1"; Texto "C2"] →
           ∃ k', k' ∈ ids' ∧ celda_eqb k k' = true)
      ∧ (∀ fechas, Ejemplo.tabla_duplicados !! "last_purchase_date" = Some fechas →
           ∀ j kj fj, filas_unicas Ejemplo.tabla_duplicados !! j = Some true →
             [Texto "C1"; Texto "C2"; Texto "C1"; Texto "C2"] !! j = Some kj →
             fechas !! j = Some fj →
             ∃ i ki fi, i ∈ idx
               ∧ [Texto "C1"; Texto "C2"; Texto "C1"; Texto "C2"] !! i = Some ki
               ∧ fechas !! i = Some fi
               ∧ celda_eqb kj ki = true
               ∧ Tabla.celda_geb
                   (leer_fecha (H := Ejemplo.pandas_ejemplo)
                      (fechas_vistas Ejemplo.tabla_duplicados fechas) fi)
                   (leer_fecha (H := Ejemplo.pandas_ejemplo)
                      (fechas_vistas Ejemplo.tabla_duplicados fechas) fj) = true).
Proof.
  split.
  { repeat split; vm_compute; reflexivity. }
  split.
  { repeat split; vm_compute; reflexivity. }
  apply (una_fila_por_cliente (H := Ejemplo.pandas_ejemplo)
           Ejemplo.tabla_duplicados
           [Texto "C1"; Texto "C2"; Texto "C1"; Texto "C2"]).
  - vm_compute; reflexivity.
  - vm_compute; reflexivity.
  - vm_compute; reflexivity.
Defined.

(** ** Etapas que escriben en el objeto del llamador *)

Lemma conserva_ret {A} (x : A) : conserva (mret x : M A).
Proof. intros h a h' E. by injection E as _ <-. Qed.

Lemma conserva_bind {A B} (m : M A) (f : A → M B) :
  conserva m → (∀ a, conserva (f a)) → conserva (m ≫= f).
Proof.
  intros Hm Hf h b h' E. rewrite bind_ejecuta in E.
  destruct (m h) as [[a h1]|] eqn:E1; [|done].
  rewrite (Hf a _ _ _ E). by eapply Hm.
Qed.

Lemma conserva_leer r : conserva (leer r).
Proof.
  intros h a h' E. unfold leer in E. destruct (h !! r); [|done].
  by injection E as _ <-.
Qed.

Lemma conserva_columna r c : conserva (columna r c).
Proof.
  intros h a h' E. unfold columna in E. destruct (h !! r) as [t|]; [|done].
  destruct (t !! c); [|done]. by injection E as _ <-.
Qed.

Lemma conserva_asignar r c s : conserva (asignar r c s).
Proof.
  intros h a h' E. unfold asignar in E. destruct (h !! r) as [t|]; [|done].
  injection E as _ <-. apply length_insert.
Qed.

Lemma conserva_levantar {A} (o : option A) : conserva (levantar o).
Proof. intros h a h' E. destruct o; [|done]. by injection E as _ <-. Qed.

Lemma conserva_lanzar {A} : conserva (@lanzar A).
Proof. by intros h a h' E. Qed.

Lemma conserva_cuando b (m : M unit) : conserva m → conserva (cuando b m).
Proof. intros Hm. destruct b; [done|apply conserva_ret]. Qed.

Lemma conserva_cut_serie s bins labels : conserva (Features.cut_serie s bins labels).
Proof.
  apply conserva_bind; [apply conserva_levantar|]. intros v. apply conserva_ret.
Qed.

Lemma conserva_columna_numerica r c : conserva (Features.columna_numerica r c).
Proof.
  apply conserva_bind; [apply conserva_columna|]. intros s. apply conserva_levantar.
Qed.

Lemma mismo_ret df : mismo_objeto df (mret df).
Proof. intros h r h' E. by injection E as <- <-. Qed.

Lemma mismo_bind {A} df (m : M A) (f : A → M ref) :
  conserva m → (∀ a, mismo_objeto df (f a)) → mismo_objeto df (m ≫= f).
Proof.
  intros Hm Hf h r h' E. rewrite bind_ejecuta in E.
  destruct (m h) as [[a h1]|] eqn:E1; [|done].
  destruct (Hf a _ _ _ E) as [-> El]. split; [done|].
  rewrite El. by eapply Hm.
Qed.

Lemma mismo_para_cada {A} df (cuerpo : ref → A → M ref) (l : list A) :
  (∀ x, mismo_objeto df (cuerpo df x)) → mismo_objeto df (para_cada cuerpo l df).
Proof.
  intros Hc. induction l as [|x l IH]; simpl; [apply mismo_ret|].
  intros h r h' E. rewrite bind_ejecuta in E.
  destruct (cuerpo df x h) as [[r1 h1]|] eqn:E1; [|done].
  destruct (Hc x _ _ _ E1) as [-> El1].
  destruct (IH _ _ _ E) as [-> El]. split; [done|congruence].
Qed.

Lemma en_sitio_mismo (f : ref → M ref) : mismo_objeto 0%nat (f 0%nat) → en_sitio f.
Proof.
  intros Hf t T orig alias E. unfold ejecutar in E.
  destruct (f 0%nat [t]) as [[r h]|] eqn:Ef; [|done].
  destruct (Hf _ _ _ Ef) as [-> _].
  destruct (h !! 0%nat) as [x|]; [|done]. by injection E as <- <- <-.
Qed.

Ltac conserva_paso :=
  first
    [ apply conserva_ret | apply conserva_leer | apply conserva_columna
    | apply conserva_asignar | apply conserva_levantar | apply conserva_lanzar
    | apply conserva_cut_serie | apply conserva_columna_numerica
    | apply conserva_cuando
    | apply conserva_bind; [|intros ?]
    | match goal with
      | |- conserva (match ?x with _ => _ end) => destruct x
      end ].

Ltac mismo_paso :=
  first
    [ apply mismo_ret
    | apply mismo_bind; [repeat conserva_paso|intros ?]
    | match goal with
      | |- mismo_objeto _ (match ?x with _ => _ end) => destruct x
      end ].

Ltac en_sitio_directo := apply en_sitio_mismo; cbv beta; repeat mismo_paso.

Section EnSitio.
Context `{Pandas}.

Lemma normalizar_fechas_en_sitio cols :
  en_sitio (λ df, Limpieza.normalizar_fechas df cols).
Proof.
  apply en_sitio_mismo. apply mismo_para_cada. intros c. repeat mismo_paso.
Qed.

Lemma detectar_outliers_en_sitio cols :
  en_sitio (λ df, Limpieza.detectar_outliers df cols).
Proof.
  apply en_sitio_mismo. apply mismo_para_cada. intros c. repeat mismo_paso.
Qed.

Lemma corregir_outliers_en_sitio c m :
  en_sitio (λ df, Limpieza.corregir_outliers df c m).
Proof. unfold Limpieza.corregir_outliers. en_sitio_directo. Qed.

Lemma calcular_recencia_en_sitio c r :
  en_sitio (λ df, Features.calcular_recencia df c r).
Proof. unfold Features.calcular_recencia. en_sitio_directo. Qed.

Lemma calcular_antiguedad_en_sitio c r :
  en_sitio (λ df, Features.calcular_antiguedad df c r).
Proof. unfold Features.calcular_antiguedad. en_sitio_directo. Qed.

Lemma categorizar_monetary_en_sitio c :
  en_sitio (λ df, Features.categorizar_monetary df c).
Proof. unfold Features.categorizar_monetary. en_sitio_directo. Qed.

Lemma categorizar_frequency_en_sitio c :
  en_sitio (λ df, Features.categorizar_frequency df c).
Proof. unfold Features.categorizar_frequency. en_sitio_directo. Qed.

Lemma crear_features_comportamiento_en_sitio :
  en_sitio Features.crear_features_comportamiento.
Proof. unfold Features.crear_features_comportamiento. en_sitio_directo. Qed.

Lemma crear_features_riesgo_churn_en_sitio :
  en_sitio Features.crear_features_riesgo_churn.
Proof. unfold Features.crear_features_riesgo_churn. en_sitio_directo. Qed.

End EnSitio.

(** ** El hashing trabaja sobre una copia *)

Section Copia.
Context `{Python}.

Lemma hashear_bucle (sufijo : string) (cols : list string) (h : almacen) r (tc : tabla) :
  h !! r = Some tc →
  Forall (λ c, is_Some (tc !! c)) cols →
  para_cada (λ df_copia columna,
      s ← Almacen.columna df_copia columna;
      asignar df_copia (columna +:+ sufijo) (Hashing.hashear_columna s SALT_HASHING);;
      mret df_copia) cols r h
  = Some (r, <[r := foldl (λ (T : tabla) c,
                       match T !! c with
                       | Some s => <[c +:+ sufijo := Hashing.hashear_columna s SALT_HASHING]> T
                       | None => T
                       end) tc cols]> h).
Proof.
  revert h tc. induction cols as [|c cols IH]; intros h tc Eh Hc.
  - simpl. by rewrite almacen_insert_id.
  - apply Forall_cons in Hc as [[s Es] Hc]. simpl.
    rewrite bind_ejecuta, bind_ejecuta, (columna_ejecuta _ _ tc _ s) by done.
    rewrite bind_ejecuta, (asignar_ejecuta _ _ tc) by done.
    rewrite ret_ejecuta, Es.
    rewrite (IH _ (<[c +:+ sufijo := Hashing.hashear_columna s SALT_HASHING]> tc)).
    + by rewrite almacen_insert_insert.
    + by eapply almacen_insert_eq.
    + eapply Forall_impl; [exact Hc|]. intros d [x Ex]. simpl.
      destruct (decide (c +:+ sufijo = d)) as [->|Hd].
      * rewrite lookup_insert_eq. by eexists.
      * rewrite lookup_insert_ne by done. by eexists.
Qed.

(** La etapa deja [t] en el objeto del llamador y devuelve un objeto nuevo. *)
Lemma hashear_datos_sensibles_ejecuta (cols : list string) (sufijo : string) (t : tabla) :
  ∃ tc T,
    Hashing.hashear_datos_sensibles 0%nat cols sufijo [t] = Some (2%nat, [t; tc; T])
    ∧ tc = foldl (λ (T : tabla) c,
                    match T !! c with
                    | Some s => <[c +:+ sufijo := Hashing.hashear_columna s SALT_HASHING]> T
                    | None => T
                    end) t (filter (λ col, is_Some (t !! col)) cols)
    ∧ T = foldr delete tc (filter (λ col, is_Some (t !! col)) cols).
Proof.
  eexists _, _. split; [|split; reflexivity].
  unfold Hashing.hashear_datos_sensibles.
  rewrite bind_ejecuta, (leer_ejecuta _ _ t) by done.
  rewrite bind_ejecuta, crear_ejecuta.
  rewrite bind_ejecuta.
  rewrite (hashear_bucle sufijo _ _ _ t); [|done|].
  2: { apply list.Forall_forall. by intros c [Hc _]%list_elem_of_filter. }
  rewrite bind_ejecuta. erewrite leer_ejecuta; [|reflexivity].
  by rewrite crear_ejecuta.
Qed.

Lemma hashear_datos_sensibles_copia (cols : list string) (sufijo : string) (t : tabla) :
  ∃ T, ejecutar (λ df, Hashing.hashear_datos_sensibles df cols sufijo) t
       = Some (T, t, false).
Proof.
  destruct (hashear_datos_sensibles_ejecuta cols sufijo t) as (tc & T & E & _).
  exists T. unfold ejecutar. by rewrite E.
Qed.

End Copia.

(** C4. De las etapas, solo hashear_datos_sensibles es pura para el
    llamador: para toda tabla deja intacta la tabla recibida y devuelve un
    objeto nuevo. normalizar_fechas termina siempre y devuelve el propio
    objeto del llamador, cuyo contenido final es el resultado. corregir_outliers
    y las funciones de features calcular_recencia, calcular_antiguedad,
    categorizar_monetary, categorizar_frequency, crear_features_comportamiento
    y crear_features_riesgo_churn, cuando terminan, devuelven también el
    objeto del llamador con las columnas escritas en él. *)
Theorem solo_el_hashing_copia `{Pandas} `{Python} :
  (∀ cols sufijo t,
     ∃ T, ejecutar (λ df, Hashing.hashear_datos_sensibles df cols sufijo) t
          = Some (T, t, false))
  ∧ (∀ cols t,
       ∃ T, ejecutar (λ df, Limpieza.normalizar_fechas df cols) t = Some (T, T, true))
  ∧ (∀ c m, en_sitio (λ df, Limpieza.corregir_outliers df c m))
  ∧ (∀ c r, en_sitio (λ df, Features.calcular_recencia df c r))
  ∧ (∀ c r, en_sitio (λ df, Features.calcular_antiguedad df c r))
  ∧ (∀ c, en_sitio (λ df, Features.categorizar_monetary df c))
  ∧ (∀ c, en_sitio (λ df, Features.categorizar_frequency df c))
  ∧ en_sitio Features.crear_features_comportamiento
  ∧ en_sitio Features.crear_features_riesgo_churn.
Proof.
  split; [apply hashear_datos_sensibles_copia|].
  split.
  { intros cols t. eexists. unfold ejecutar.
    by rewrite (normalizar_fechas_ejecuta cols [t] 0%nat t). }
  split; [apply corregir_outliers_en_sitio|].
  split; [apply calcular_recencia_en_sitio|].
  split; [apply calcular_antiguedad_en_sitio|].
  split; [apply categorizar_monetary_en_sitio|].
  split; [apply categorizar_frequency_en_sitio|].
  split; [apply crear_features_comportamiento_en_sitio|].
  apply crear_features_riesgo_churn_en_sitio.
Qed.

Lemma solo_el_hashing_copia_witness :
  (∃ T, ejecutar (λ df, Hashing.hashear_datos_sensibles (H := Ejemplo.python_ejemplo)
                          df COLUMNAS_SENSIBLES "_hash") Ejemplo.tabla_limpia
        = Some (T, Ejemplo.tabla_limpia, false))
  ∧ (∃ T, ejecutar (λ df, Features.calcular_recencia df "last_purchase_date" None)
            Ejemplo.tabla_limpia = Some (T, T, true)
          ∧ T !! "recencia_dias" = Some [Num 31; Num 168; Num 0]).
Proof.
  destruct (@solo_el_hashing_copia Ejemplo.pandas_ejemplo Ejemplo.python_ejemplo)
    as (Hh & _ & _ & Hr & _).
  split; [apply Hh|].
  assert (Ed : bool_decide (is_Some (ejecutar
                 (λ df, Features.calcular_recencia df "last_purchase_date" None)
                 Ejemplo.tabla_limpia)) = true) by (vm_compute; reflexivity).
  apply bool_decide_eq_true in Ed. destruct Ed as [[[T orig] alias] E].
  destruct (Hr _ _ _ _ _ _ E) as [-> ->].
  exists T. split; [exact E|].
  assert (Ec : (λ x : tabla * tabla * bool, x.1.1 !! "recencia_dias")
                 <$> ejecutar (λ df, Features.calcular_recencia df "last_purchase_date" None)
                       Ejemplo.tabla_limpia
               = Some (Some [Num 31; Num 168; Num 0])) by (vm_compute; reflexivity).
  rewrite E in Ec. by injection Ec.
Defined.

(** Una etapa tras la cual una columna de la tabla del llamador ya no es la
    que era no es pura. *)
Lemma no_pura_por_columna (f : ref → M ref) (t : tabla) c (s : option serie) :
  (λ x : tabla * tabla * bool, x.1.2 !! c) <$> ejecutar f t = Some s →
  t !! c ≠ s → ¬ pura f.
Proof.
  intros E Hs Hp.
  destruct (ejecutar f t) as [[[T orig] alias]|] eqn:E0; [|done].
  destruct (Hp _ _ _ _ E0) as [-> _]. simpl in E. by injection E.
Qed.

(** C4 (contraejemplo). normalizar_fechas convierte las fechas en la tabla
    del llamador y devuelve ese mismo objeto; calcular_recencia le añade sus
    columnas; y detectar_duplicados, aunque devuelve un objeto nuevo, deja
    en la tabla del llamador la columna temporal last_purchase_date_temp. *)
Lemma etapas_que_modifican_contraejemplo :
  Ejemplo.tabla_duplicados !! "last_purchase_date"
  = Some [Texto "2024-01-01"; Texto "2024-03-15"; Texto "2024-06-01"; Texto "2024-03-15"]
  ∧ (λ x : tabla * tabla * bool, (x.1.2 !! "last_purchase_date", x.2))
      <$> ejecutar (λ df, Limpieza.normalizar_fechas (H := Ejemplo.pandas_ejemplo) df
                            ["signup_date"; "last_purchase_date"])
            Ejemplo.tabla_duplicados
    = Some (Some [Fecha 19723; Fecha 19797; Fecha 19875; Fecha 19797], true)
  ∧ ¬ pura (λ df, Limpieza.normalizar_fechas (H := Ejemplo.pandas_ejemplo) df
                    ["signup_date"; "last_purchase_date"])
  ∧ Ejemplo.tabla_limpia !! "recencia_dias" = None
  ∧ (λ x : tabla * tabla * bool, (x.1.2 !! "recencia_dias", x.2))
      <$> ejecutar (λ df, Features.calcular_recencia df "last_purchase_date" None)
            Ejemplo.tabla_limpia
    = Some (Some [Num 31; Num 168; Num 0], true)
  ∧ ¬ pura (λ df, Features.calcular_recencia df "last_purchase_date" None)
  ∧ Ejemplo.tabla_clave_repetida !! "last_purchase_date_temp" = None
  ∧ (λ x : tabla * tabla * bool, (x.1.2 !! "last_purchase_date_temp", x.2))
      <$> ejecutar (λ df, Limpieza.detectar_duplicados (H := Ejemplo.pandas_ejemplo) df
                            "customer_id")
            Ejemplo.tabla_clave_repetida
    = Some (Some [Fecha 19723; Fecha 19875], false)
  ∧ ¬ pura (λ df, Limpieza.detectar_duplicados (H := Ejemplo.pandas_ejemplo) df
                    "customer_id").
Proof.
  split; [vm_compute; reflexivity|].
  split; [vm_compute; reflexivity|].
  split.
  { apply (no_pura_por_columna _ Ejemplo.tabla_duplicados "last_purchase_date"
             (Some [Fecha 19723; Fecha 19797; Fecha 19875; Fecha 19797]));
      [vm_compute; reflexivity|].
    intros E. vm_compute in E. discriminate E. }
  split; [vm_compute; reflexivity|].
  split; [vm_compute; reflexivity|].
  split.
  { apply (no_pura_por_columna _ Ejemplo.tabla_limpia "recencia_dias"
             (Some [Num 31; Num 168; Num 0]));
      [vm_compute; reflexivity|].
    intros E. vm_compute in E. discriminate E. }
  split; [vm_compute; reflexivity|].
  split; [vm_compute; reflexivity|].
  apply (no_pura_por_columna _ Ejemplo.tabla_clave_repetida "last_purchase_date_temp"
           (Some [Fecha 19723; Fecha 19875]));
    [vm_compute; reflexivity|].
  intros E. vm_compute in E. discriminate E.
Qed.

(** * Otras propiedades del código *)

(** ** normalizar_fechas *)

Lemma foldl_alter_busca (g : serie → serie) (cols : list string) (t : tabla) k :
  (∀ s, g (g s) = g s) →
  foldl (λ T c, alter g c T) t cols !! k
  = if bool_decide (k ∈ cols) then g <$> t !! k else t !! k.
Proof.
  intros Hg. revert t. induction cols as [|c cols IH]; intros t; cbn [foldl].
  - case_bool_decide as Hin; [by apply elem_of_nil in Hin|done].
  - rewrite IH. destruct (decide (k = c)) as [->|Hk].
    + rewrite lookup_alter_eq.
      rewrite (bool_decide_eq_true_2 (c ∈ c :: cols)) by by left.
      destruct (bool_decide (c ∈ cols)); [|done].
      destruct (t !! c) as [s|]; [|done]. simpl. by rewrite Hg.
    + rewrite lookup_alter_ne by done.
      destruct (decide (k ∈ cols)) as [Hin|Hin].
      * rewrite !bool_decide_eq_true_2; [done|by right|done].
      * rewrite !bool_decide_eq_false_2; [done| |done].
        by intros [?|?]%elem_of_cons.
Qed.

Lemma to_datetime_fechas `{Pandas} (s : serie) :
  Forall (λ x, es_nulo x || es_fecha x = true) (to_datetime s).
Proof.
  apply list.Forall_forall. intros x (c & -> & _)%list_elem_of_fmap.
  unfold leer_fecha. destruct c; try done; by destruct (fecha_de _ _).
Qed.

Lemma to_datetime_idempotente `{Pandas} (s : serie) :
  to_datetime (to_datetime s) = to_datetime s.
Proof. apply to_datetime_convertida, to_datetime_fechas. Qed.

(** X1. normalizar_fechas termina siempre y escribe en la tabla que
    recibe. Cada columna de la lista que existe queda convertida como
    columna entera, con el formato que pandas infiere para ella: conserva su
    número de filas, solo contiene fechas o nulos, y las celdas que ya eran
    fechas o nulos quedan como estaban. Las columnas de la lista que no
    existen se saltan y las demás columnas quedan como estaban. *)
Theorem normalizar_fechas_columnas `{Pandas} (cols : list string) (t : tabla) :
  ∃ T, ejecutar (λ df, Limpieza.normalizar_fechas df cols) t = Some (T, T, true)
    ∧ (∀ c s, c ∈ cols → t !! c = Some s →
         T !! c = Some (to_datetime s)
         ∧ length (to_datetime s) = length s
         ∧ Forall (λ x, es_nulo x || es_fecha x = true) (to_datetime s)
         ∧ (∀ i x, s !! i = Some x → es_nulo x || es_fecha x = true →
              to_datetime s !! i = Some x))
    ∧ (∀ c, t !! c = None → T !! c = None)
    ∧ (∀ c, c ∉ cols → T !! c = t !! c).
Proof.
  exists (foldl (λ T c, alter to_datetime c T) t cols).
  split; [|split; [|split]].
  - unfold ejecutar. by rewrite (normalizar_fechas_ejecuta cols [t] 0%nat t).
  - intros c s Hc Es. rewrite foldl_alter_busca by apply to_datetime_idempotente.
    rewrite bool_decide_eq_true_2, Es by done.
    split; [done|]. split; [unfold to_datetime; by rewrite length_fmap|].
    split; [apply to_datetime_fechas|].
    intros i x Ex Hx. unfold to_datetime. rewrite list_lookup_fmap, Ex. simpl.
    by destruct x.
  - intros c Ec. rewrite foldl_alter_busca by apply to_datetime_idempotente.
    rewrite Ec. by destruct (bool_decide _).
  - intros c Hc. rewrite foldl_alter_busca by apply to_datetime_idempotente.
    by rewrite bool_decide_eq_false_2.
Qed.

(** Con formatos mezclados, la misma celda se lee o no según la columna en
    la que está: el formato es el de la primera celda. *)
Lemma normalizar_fechas_columnas_witness :
  (∃ T, ejecutar (λ df, Limpieza.normalizar_fechas (H := Ejemplo.pandas_ejemplo) df
                          ["signup_date"; "last_purchase_date"; "birth_date"])
          Ejemplo.tabla_formatos = Some (T, T, true)
        ∧ T !! "birth_date" = None)
  ∧ Ejemplo.tabla_formatos !! "signup_date"
    = Some [Texto "2024-01-15"; Texto "20/02/2024"]
  ∧ to_datetime (H := Ejemplo.pandas_ejemplo) [Texto "2024-01-15"; Texto "20/02/2024"]
    = [Fecha 19737; Nulo]
  ∧ Ejemplo.tabla_formatos !! "last_purchase_date"
    = Some [Texto "20/02/2024"; Texto "2024-01-15"]
  ∧ to_datetime (H := Ejemplo.pandas_ejemplo) [Texto "20/02/2024"; Texto "2024-01-15"]
    = [Fecha 19773; Nulo].
Proof.
  split.
  { destruct (normalizar_fechas_columnas (H := Ejemplo.pandas_ejemplo)
                ["signup_date"; "last_purchase_date"; "birth_date"]
                Ejemplo.tabla_formatos) as (T & E & _ & Hn & _).
    exists T. split; [exact E|]. apply Hn. vm_compute; reflexivity. }
  repeat split; vm_compute; reflexivity.
Defined.

(** X2. normalizar_fechas es idempotente: aplicada a su propio resultado
    lo devuelve sin cambios, porque una fecha ya convertida se conserva y
    un valor no convertible ya es nulo. *)
Theorem normalizar_fechas_idempotente `{Pandas} (cols : list string) (t : tabla) :
  ∃ T, resultado (λ df, Limpieza.normalizar_fechas df cols) t = Some T
    ∧ resultado (λ df, Limpieza.normalizar_fechas df cols) T = Some T.
Proof.
  exists (foldl (λ T c, alter to_datetime c T) t cols).
  split; apply resultado_en_sitio.
  - by apply normalizar_fechas_ejecuta.
  - rewrite (normalizar_fechas_ejecuta cols [_] 0%nat _ eq_refl).
    do 3 f_equal. apply map_eq. intros k.
    rewrite !foldl_alter_busca by apply to_datetime_idempotente.
    destruct (bool_decide (k ∈ cols)); [|done].
    destruct (t !! k) as [s|]; [|done]. simpl. by rewrite to_datetime_idempotente.
Qed.

(** ** detectar_duplicados sobre claves únicas *)

(** X3. Sobre una tabla cuyas claves no se repiten, detectar_duplicados no
    quita ninguna fila ni reordena: devuelve el mismo objeto del llamador
    con el mismo contenido. *)
Theorem detectar_duplicados_sin_repetidos `{Pandas} (t : tabla) (columna_id : string) :
  rectangular t = true → claves_unicas t columna_id = true →
  ejecutar (λ df, Limpieza.detectar_duplicados df columna_id) t = Some (t, t, true).
Proof.
  intros Hr Hc. unfold ejecutar.
  by rewrite (detectar_duplicados_claves_unicas [t] 0%nat t columna_id).
Qed.

Lemma detectar_duplicados_sin_repetidos_witness :
  ejecutar (λ df, Limpieza.detectar_duplicados (H := Ejemplo.pandas_ejemplo)
                    df "customer_id") Ejemplo.tabla_limpia
  = Some (Ejemplo.tabla_limpia, Ejemplo.tabla_limpia, true).
Proof.
  apply (detectar_duplicados_sin_repetidos (H := Ejemplo.pandas_ejemplo));
    vm_compute; reflexivity.
Defined.

(** ** manejar_valores_nulos sin nulos que tratar *)

Lemma para_cada_sin_nulos `{Pandas} (l : list (string * string)) (h : almacen) df (t : tabla) :
  h !! df = Some t →
  forallb (λ ce, sin_nulos_en t ce.1) l = true →
  para_cada Limpieza.aplicar_estrategia l df h = Some (df, h).
Proof.
  intros Eh. induction l as [|[c e] l IH]; intros Hl; [done|].
  simpl in Hl. apply andb_true_iff in Hl as [Hc Hl].
  cbn [para_cada]. rewrite bind_ejecuta.
  assert (E : Limpieza.aplicar_estrategia df (c, e) h = Some (df, h)).
  { unfold Limpieza.aplicar_estrategia.
    rewrite bind_ejecuta, (leer_ejecuta _ _ t) by done.
    unfold sin_nulos_en in Hc. destruct (t !! c) as [s|]; [|done].
    by rewrite Hc. }
  rewrite E. by apply IH.
Qed.

(** X4. Si ninguna de las columnas con estrategia tiene nulos,
    manejar_valores_nulos no toca la tabla, sea cual sea la lista de
    estrategias: devuelve el mismo objeto con el mismo contenido. *)
Theorem manejar_valores_nulos_sin_nulos `{Pandas}
    (estrategias : list (string * string)) (t : tabla) :
  forallb (λ ce, sin_nulos_en t ce.1) estrategias = true →
  ejecutar (λ df, Limpieza.manejar_valores_nulos df estrategias) t = Some (t, t, true).
Proof.
  intros Hl. unfold ejecutar, Limpieza.manejar_valores_nulos.
  by rewrite (para_cada_sin_nulos estrategias [t] 0%nat t).
Qed.

Lemma manejar_valores_nulos_sin_nulos_witness :
  ejecutar (λ df, Limpieza.manejar_valores_nulos (H := Ejemplo.pandas_ejemplo)
                    df Limpieza.ESTRATEGIA_NULOS) Ejemplo.tabla_limpia
  = Some (Ejemplo.tabla_limpia, Ejemplo.tabla_limpia, true).
Proof.
  apply (manejar_valores_nulos_sin_nulos (H := Ejemplo.pandas_ejemplo)).
  vm_compute; reflexivity.
Defined.

(** ** corregir_outliers fuera del caso 'cap' *)

(** X5. corregir_outliers solo actúa con el método 'cap' sobre
    monthly_spend o total_shipments: con una columna ausente, con cualquier
    otro método (también 'eliminar' y 'nulo', que la documentación nombra) o
    con cualquier otra columna devuelve la tabla sin cambios. *)
Theorem corregir_outliers_sin_efecto (t : tabla) (columna metodo : string) :
  t !! columna = None ∨ metodo ≠ "cap"
  ∨ (columna ≠ "monthly_spend" ∧ columna ≠ "total_shipments") →
  ejecutar (λ df, Limpieza.corregir_outliers df columna metodo) t = Some (t, t, true).
Proof.
  intros Hc. unfold ejecutar, Limpieza.corregir_outliers.
  rewrite bind_ejecuta, (leer_ejecuta _ _ t) by done.
  destruct (t !! columna) as [s|] eqn:Es; [|done].
  destruct (String.eqb metodo "cap") eqn:Em; [|done].
  apply String.eqb_eq in Em.
  destruct Hc as [Hc|[Hc|[Hg He]]]; [done|done|].
  apply String.eqb_neq in Hg, He. by rewrite Hg, He.
Qed.

Lemma corregir_outliers_sin_efecto_witness :
  ejecutar (λ df, Limpieza.corregir_outliers df "monthly_spend" "nulo")
    Ejemplo.tabla_outliers
  = Some (Ejemplo.tabla_outliers, Ejemplo.tabla_outliers, true).
Proof.
  apply corregir_outliers_sin_efecto. right. left. discriminate.
Defined.

(** ** Marcas de detectar_outliers *)

Lemma zip_with_misma_lista {A B C D} (f : B → C → D) (g : A → B) (k : A → C) (l : list A) :
  zip_with f (g <$> l) (k <$> l) = (λ x, f (g x) (k x)) <$> l.
Proof. induction l as [|x l IH]; csimpl; [done|]. by rewrite IH. Qed.

(** X6. detectar_outliers con los umbrales de negocio, sobre columnas
    numéricas, escribe en la tabla recibida una marca por fila: en
    monthly_spend_is_outlier, si el gasto es menor que 0 o mayor que 15000; en
    total_shipments_is_outlier, si los envíos superan 500. Un valor nulo no
    se marca nunca y ninguna otra columna cambia. *)
Theorem detectar_outliers_marcas (t : tabla) :
  numerica t "monthly_spend" = true → numerica t "total_shipments" = true →
  ∃ T, ejecutar (λ df, Limpieza.detectar_outliers df ["monthly_spend"; "total_shipments"]) t
       = Some (T, T, true)
    ∧ (∀ k, k ≠ "monthly_spend_is_outlier" → k ≠ "total_shipments_is_outlier" →
         T !! k = t !! k)
    ∧ (∀ s, t !! "monthly_spend" = Some s →
         T !! "monthly_spend_is_outlier"
         = Some ((λ c, Logico (Numero.ltb (valor c) (Fin UMBRAL_GASTO_MINIMO)
                               || Numero.gtb (valor c) (Fin UMBRAL_GASTO_MAXIMO))) <$> s))
    ∧ (∀ s, t !! "total_shipments" = Some s →
         T !! "total_shipments_is_outlier"
         = Some ((λ c, Logico (Numero.gtb (valor c) (Fin UMBRAL_ENVIOS_MAXIMO))) <$> s))
    ∧ Logico (Numero.ltb (valor Nulo) (Fin UMBRAL_GASTO_MINIMO)
              || Numero.gtb (valor Nulo) (Fin UMBRAL_GASTO_MAXIMO)) = Logico false
    ∧ Logico (Numero.gtb (valor Nulo) (Fin UMBRAL_ENVIOS_MAXIMO)) = Logico false.
Proof.
  intros Hg He. exists (con_marcas t). split.
  { unfold ejecutar. by rewrite (detectar_outliers_ejecuta [t] 0%nat t). }
  split; [intros k ??; by apply con_marcas_otra|].
  split; [|split; [|done]].
  - intros s Es. unfold con_marcas. rewrite Es.
    rewrite zip_with_misma_lista, <- list_fmap_compose.
    destruct (t !! "total_shipments"); by simplify_map_eq.
  - intros s Es. unfold con_marcas. rewrite Es.
    rewrite <- list_fmap_compose. by simplify_map_eq.
Qed.

Lemma detectar_outliers_marcas_witness :
  ∃ T, ejecutar (λ df, Limpieza.detectar_outliers df ["monthly_spend"; "total_shipments"])
         Ejemplo.tabla_outliers = Some (T, T, true)
    ∧ T !! "monthly_spend_is_outlier"
      = Some [Logico true; Logico true; Logico false; Logico false]
    ∧ T !! "total_shipments_is_outlier"
      = Some [Logico false; Logico true; Logico false; Logico false].
Proof.
  destruct (detectar_outliers_marcas Ejemplo.tabla_outliers)
    as (T & E & _ & Hg & He & _); [vm_compute; reflexivity..|].
  exists T. split; [exact E|]. split.
  - rewrite (Hg [Num (-50); Num 99999; Num 1200; Nulo]) by (vm_compute; reflexivity).
    vm_compute; reflexivity.
  - rewrite (He [Num 15; Num 1000; Num 45; Num 12]) by (vm_compute; reflexivity).
    vm_compute; reflexivity.
Defined.

(** ** El paso de outliers completo *)

Lemma paso_outliers_devuelve (h : almacen) df (t : tabla) :
  h !! df = Some t →
  numerica t "monthly_spend" = true → numerica t "total_shipments" = true →
  devuelve (BronzeASilver.paso_outliers df) h
    (foldr delete
       (alter (fmap envios_corregidos) "total_shipments"
          (alter (fmap gasto_corregido) "monthly_spend" (con_marcas t)))
       (filter (λ col, BronzeASilver.termina_con "_is_outlier" col = true)
          (BronzeASilver.columnas
             (alter (fmap envios_corregidos) "total_shipments"
                (alter (fmap gasto_corregido) "monthly_spend" (con_marcas t)))))).
Proof.
  intros Eh Ng Ne. unfold BronzeASilver.paso_outliers, devuelve.
  rewrite bind_ejecuta, (detectar_outliers_ejecuta _ _ t) by done.
  assert (E1 : <[df := con_marcas t]> h !! df = Some (con_marcas t))
    by by eapply almacen_insert_eq.
  rewrite bind_ejecuta.
  rewrite (corregir_gasto_y_envios_ejecuta _ _ (con_marcas t)); [|done|..].
  - rewrite list_insert_insert_eq.
    set (U := alter _ "total_shipments" _).
    assert (E2 : <[df := U]> h !! df = Some U) by by eapply almacen_insert_eq.
    rewrite bind_ejecuta, (leer_ejecuta _ _ U) by done.
    destruct (crear_devuelve
                (foldr delete U
                   (filter (λ col, BronzeASilver.termina_con "_is_outlier" col = true)
                      (BronzeASilver.columnas U)))
                (<[df := U]> h)) as (df' & h' & E & L & N).
    exists df', h'. split; [done|]. split; [done|].
    rewrite length_insert in N. done.
  - unfold numerica. rewrite con_marcas_otra by done. exact Ng.
  - unfold numerica. rewrite con_marcas_otra by done. exact Ne.
Qed.

(** Columnas de la tabla que devuelve el paso de outliers. *)
Lemma paso_outliers_busca (t : tabla) :
  let T := foldr delete
       (alter (fmap envios_corregidos) "total_shipments"
          (alter (fmap gasto_corregido) "monthly_spend" (con_marcas t)))
       (filter (λ col, BronzeASilver.termina_con "_is_outlier" col = true)
          (BronzeASilver.columnas
             (alter (fmap envios_corregidos) "total_shipments"
                (alter (fmap gasto_corregido) "monthly_spend" (con_marcas t))))) in
  (∀ k, BronzeASilver.termina_con "_is_outlier" k = true → T !! k = None)
  ∧ T !! "monthly_spend" = fmap (M := list) gasto_corregido <$> t !! "monthly_spend"
  ∧ T !! "total_shipments"
    = fmap (M := list) envios_corregidos <$> t !! "total_shipments"
  ∧ (∀ k, BronzeASilver.termina_con "_is_outlier" k = false →
       k ≠ "monthly_spend" → k ≠ "total_shipments" → T !! k = t !! k).
Proof.
  cbv zeta.
  set (U := alter _ "total_shipments" _).
  set (ks := filter _ _).
  assert (Hsi : ∀ k, BronzeASilver.termina_con "_is_outlier" k = true →
                     foldr delete U ks !! k = None).
  { intros k Hk. destruct (decide (k ∈ ks)) as [Hin|Hin].
    - by rewrite lookup_foldr_delete.
    - rewrite lookup_foldr_delete_not_elem_of by done.
      destruct (U !! k) as [s|] eqn:E; [|done].
      exfalso. apply Hin. apply list_elem_of_filter. split; [done|].
      apply en_columnas. eauto. }
  assert (Hno : ∀ k, BronzeASilver.termina_con "_is_outlier" k = false →
                     foldr delete U ks !! k = U !! k).
  { intros k Hk. apply lookup_foldr_delete_not_elem_of.
    intros [Hp _]%list_elem_of_filter. congruence. }
  split; [exact Hsi|]. split; [|split].
  - rewrite Hno by reflexivity. unfold U.
    rewrite lookup_alter_ne by done. rewrite lookup_alter_eq.
    by rewrite con_marcas_otra.
  - rewrite Hno by reflexivity. unfold U.
    rewrite lookup_alter_eq. rewrite lookup_alter_ne by done.
    by rewrite con_marcas_otra.
  - intros k Hk N1 N2. rewrite Hno by done. unfold U.
    rewrite !lookup_alter_ne by done.
    apply con_marcas_otra; intros ->; discriminate Hk.
Qed.

(** X7. El paso 5 de la limpieza (detectar, corregir y quitar las marcas),
    sobre columnas numéricas, devuelve una tabla sin ninguna columna cuyo
    nombre termine en _is_outlier, con monthly_spend y total_shipments
    corregidas celda a celda y con las demás columnas intactas. *)
Theorem paso_outliers_columnas (t : tabla) :
  numerica t "monthly_spend" = true → numerica t "total_shipments" = true →
  ∃ T, resultado BronzeASilver.paso_outliers t = Some T
    ∧ (∀ k, BronzeASilver.termina_con "_is_outlier" k = true → T !! k = None)
    ∧ T !! "monthly_spend" = fmap (M := list) gasto_corregido <$> t !! "monthly_spend"
    ∧ T !! "total_shipments"
      = fmap (M := list) envios_corregidos <$> t !! "total_shipments"
    ∧ (∀ k, BronzeASilver.termina_con "_is_outlier" k = false →
         k ≠ "monthly_spend" → k ≠ "total_shipments" → T !! k = t !! k).
Proof.
  intros Ng Ne. eexists. split.
  { apply devuelve_resultado. by apply paso_outliers_devuelve. }
  apply paso_outliers_busca.
Qed.

Lemma paso_outliers_columnas_witness :
  ∃ T, resultado BronzeASilver.paso_outliers Ejemplo.tabla_outliers = Some T
    ∧ T !! "monthly_spend_is_outlier" = None
    ∧ T !! "monthly_spend" = Some [Num 0; Num 15000; Num 1200; Nulo]
    ∧ T !! "total_shipments" = Some [Num 15; Num 500; Num 45; Num 12].
Proof.
  destruct (paso_outliers_columnas Ejemplo.tabla_outliers)
    as (T & E & Hm & Hg & He & _); [vm_compute; reflexivity..|].
  exists T. split; [exact E|]. split; [by apply Hm|].
  split.
  - rewrite Hg. vm_compute; reflexivity.
  - rewrite He. vm_compute; reflexivity.
Defined.

(** ** Conversión de tipos *)

Section ConversionTipos.
Context `{Pandas}.

Lemma to_numeric_numero c : is_Some (a_numero (to_numeric c)).
Proof.
  destruct c; simpl; try by eexists.
  - rewrite a_numero_de_numero. by eexists.
  - rewrite a_numero_de_numero. by eexists.
Qed.

Lemma to_numeric_idempotente (s : serie) :
  to_numeric <$> (to_numeric <$> s) = to_numeric <$> s.
Proof.
  rewrite <- list_fmap_compose. apply list_fmap_ext. intros _ c _. simpl.
  destruct c; try done; simpl; by destruct (numero_de _).
Qed.

Lemma to_numeric_centinela c : es_centinela c = false → es_centinela (to_numeric c) = false.
Proof. destruct c; try done; intros _; simpl; by destruct (numero_de _). Qed.

Lemma reemplazar_centinelas c :
  es_centinela
    ((λ c, if celda_eqb c (Texto "N/A") then Nulo else c)
       ((λ c, if celda_eqb c (Texto "") then Nulo else c)
          ((λ c, if celda_eqb c (Texto "NULL") then Nulo else c) c))) = false.
Proof.
  destruct c as [|s| | | |]; try done. cbn beta. unfold es_centinela.
  cbn [celda_eqb].
  destruct (String.eqb s "NULL") eqn:E1; [done|]. cbn [celda_eqb].
  destruct (String.eqb s "") eqn:E2; [done|]. cbn [celda_eqb].
  destruct (String.eqb s "N/A") eqn:E3; [done|]. cbn [celda_eqb].
  by rewrite E1, E2, E3.
Qed.

Lemma numeros_definida (s : serie) :
  Forall (λ x, is_Some (a_numero x)) s → is_Some (Serie.numeros s).
Proof.
  intros Hs. unfold Serie.numeros. apply mapM_is_Some.
  eapply Forall_impl; [exact Hs|]. by intros x Hx.
Qed.

Lemma convertir_tipos_ejecuta (t : tabla) :
  BronzeASilver.convertir_tipos 0%nat [t]
  = Some (3%nat,
          [t; BronzeASilver.reemplazar "NULL" t;
           BronzeASilver.reemplazar "" (BronzeASilver.reemplazar "NULL" t);
           foldl (λ T c, alter (fmap to_numeric) c T)
             (BronzeASilver.reemplazar "N/A"
                (BronzeASilver.reemplazar "" (BronzeASilver.reemplazar "NULL" t)))
             ["monthly_spend"; "total_shipments"; "churn_label"]]).
Proof.
  unfold BronzeASilver.convertir_tipos.
  rewrite bind_ejecuta, (leer_ejecuta _ _ t) by done.
  rewrite bind_ejecuta, crear_ejecuta.
  rewrite bind_ejecuta. erewrite leer_ejecuta by reflexivity.
  rewrite bind_ejecuta, crear_ejecuta.
  rewrite bind_ejecuta. erewrite leer_ejecuta by reflexivity.
  rewrite bind_ejecuta, crear_ejecuta.
  set (R := BronzeASilver.reemplazar "N/A" _).
  set (h3 := (_ ++ [R])%list).
  assert (E3 : h3 !! 3%nat = Some R) by reflexivity.
  rewrite (sitio_inicio h3 3%nat R E3) at 1.
  by rewrite (para_cada_alter _ _ _ _ R).
Qed.

(** X8. La conversión de tipos (paso 4) termina para cualquier tabla y
    trabaja sobre objetos nuevos: la tabla del llamador queda intacta. En
    el resultado cada columna conserva su número de filas, ninguna celda es
    un texto centinela de valor ausente ('NULL', '' o 'N/A', que pasan a
    nulo) y las columnas monthly_spend, total_shipments y churn_label solo
    contienen números o nulos. *)
Theorem convertir_tipos_columnas (t : tabla) :
  ∃ T, ejecutar BronzeASilver.convertir_tipos t = Some (T, t, false)
    ∧ (∀ c, length <$> T !! c = length <$> t !! c)
    ∧ (∀ c s, T !! c = Some s → Forall (λ x, es_centinela x = false) s)
    ∧ numerica T "monthly_spend" = true
    ∧ numerica T "total_shipments" = true
    ∧ numerica T "churn_label" = true.
Proof.
  eexists. split.
  { unfold ejecutar. by rewrite convertir_tipos_ejecuta. }
  set (R := BronzeASilver.reemplazar "N/A" _).
  assert (HR : ∀ c, R !! c
            = fmap (M := list)
                (λ x, (λ c, if celda_eqb c (Texto "N/A") then Nulo else c)
                   ((λ c, if celda_eqb c (Texto "") then Nulo else c)
                      ((λ c, if celda_eqb c (Texto "NULL") then Nulo else c) x)))
              <$> t !! c).
  { intros c. unfold R, BronzeASilver.reemplazar. rewrite !lookup_fmap.
    destruct (t !! c) as [s|]; [|done]. simpl. f_equal.
    by rewrite <- !list_fmap_compose. }
  assert (HT : ∀ c, foldl (λ T c, alter (fmap to_numeric) c T) R
                      ["monthly_spend"; "total_shipments"; "churn_label"] !! c
                    = if bool_decide (c ∈ ["monthly_spend"; "total_shipments"; "churn_label"])
                      then fmap (M := list) to_numeric <$> R !! c else R !! c).
  { intros c. apply foldl_alter_busca, to_numeric_idempotente. }
  assert (Hnum : ∀ c, c ∈ ["monthly_spend"; "total_shipments"; "churn_label"] →
            numerica (foldl (λ T c, alter (fmap to_numeric) c T) R
                        ["monthly_spend"; "total_shipments"; "churn_label"]) c = true).
  { intros c Hc. unfold numerica. rewrite HT, bool_decide_eq_true_2 by done.
    destruct (R !! c) as [s|]; [|done]. simpl. apply bool_decide_eq_true.
    apply numeros_definida. apply list.Forall_forall.
    intros x (y & -> & _)%list_elem_of_fmap. apply to_numeric_numero. }
  split; [|split; [|split; [|split]]].
  - intros c. rewrite HT, HR.
    destruct (bool_decide _), (t !! c); simpl; by rewrite ?length_fmap.
  - intros c s. rewrite HT, HR. intros Es.
    apply list.Forall_forall. intros x Hx.
    destruct (bool_decide _), (t !! c) as [s0|]; simplify_eq/=.
    + apply list_elem_of_fmap in Hx as (y & -> & Hy).
      apply list_elem_of_fmap in Hy as (z & -> & Hz).
      apply to_numeric_centinela, reemplazar_centinelas.
    + apply list_elem_of_fmap in Hx as (z & -> & Hz).
      apply reemplazar_centinelas.
  - apply Hnum. set_solver.
  - apply Hnum. set_solver.
  - apply Hnum. set_solver.
Qed.

End ConversionTipos.

(** ** Columnas que deja el hashing *)

Lemma longitud_append (a b : string) :
  String.length (a +:+ b) = (String.length a + String.length b)%nat.
Proof. induction a as [|x a IH]; simpl; [done|]. by rewrite IH. Qed.

Lemma append_cancela (c d s : string) : c +:+ s = d +:+ s → c = d.
Proof.
  revert d. induction c as [|x c IH]; intros [|y d] E; simpl in E.
  - done.
  - apply (f_equal String.length) in E.
    rewrite ?longitud_append in E. simpl in E. rewrite ?longitud_append in E. lia.
  - apply (f_equal String.length) in E.
    rewrite ?longitud_append in E. simpl in E. rewrite ?longitud_append in E. lia.
  - injection E as -> E. by rewrite (IH d E).
Qed.

Lemma sin_choque_de_nombres_prop (cols : list string) (sufijo : string) :
  sin_choque_de_nombres cols sufijo = true →
  ∀ c d, c ∈ cols → d ∈ cols → c ≠ d +:+ sufijo.
Proof.
  intros Hn c d Hc Hd. unfold sin_choque_de_nombres in Hn.
  apply list_elem_of_In in Hc, Hd.
  pose proof (proj1 (forallb_forall _ _) Hn c Hc) as Hn1. simpl in Hn1.
  pose proof (proj1 (forallb_forall _ _) Hn1 d Hd) as Hn2. simpl in Hn2.
  apply negb_true_iff in Hn2. by apply String.eqb_neq.
Qed.

Section ColumnasHash.
Context `{Python}.

Lemma con_hashes_busca (sufijo : string) (cols : list string) (t : tabla) :
  (∀ c d, c ∈ cols → d ∈ cols → c ≠ d +:+ sufijo) →
  (∀ k, (∀ c, c ∈ cols → k ≠ c +:+ sufijo) → con_hashes sufijo cols t !! k = t !! k)
  ∧ (∀ c s, c ∈ cols → t !! c = Some s →
       con_hashes sufijo cols t !! (c +:+ sufijo)
       = Some (Hashing.hashear_columna s SALT_HASHING)).
Proof.
  revert t. induction cols as [|d cols IH]; intros t Hn.
  { split; [done|]. by intros c s ?%elem_of_nil. }
  unfold con_hashes. cbn [foldl].
  set (t1 := match t !! d with
             | Some s => <[(d ++ sufijo)%string := Hashing.hashear_columna s SALT_HASHING]> t
             | None => t
             end).
  fold (con_hashes sufijo cols t1).
  destruct (IH t1) as [IH1 IH2].
  { intros c e Hc He. apply Hn; by right. }
  assert (Ht1 : ∀ k, k ≠ d +:+ sufijo → t1 !! k = t !! k).
  { intros k Hk. unfold t1. destruct (t !! d); [|done].
    by rewrite lookup_insert_ne. }
  split.
  - intros k Hk. rewrite IH1 by (intros c Hc; apply Hk; by right).
    apply Ht1, Hk. by left.
  - intros c s Hc Es. destruct (decide (c ∈ cols)) as [Hin|Hin].
    + apply IH2; [done|]. rewrite Ht1; [done|]. apply Hn; [done|by left].
    + apply elem_of_cons in Hc as [->|Hc]; [|done].
      rewrite IH1.
      * unfold t1. rewrite Es. apply lookup_insert_eq.
      * intros c Hc E. apply append_cancela in E. by subst.
Qed.

(** La tabla devuelta no conserva ninguna de las columnas de [cols]. *)
Lemma hashing_quita_originales (sufijo : string) (cols : list string) (t : tabla) c :
  (∀ c d, c ∈ cols → d ∈ cols → c ≠ d +:+ sufijo) →
  c ∈ cols →
  foldr delete (con_hashes sufijo (filter (λ col, is_Some (t !! col)) cols) t)
        (filter (λ col, is_Some (t !! col)) cols) !! c = None.
Proof.
  intros Hn Hc. set (cols' := filter _ cols).
  assert (Hn' : ∀ c d, c ∈ cols' → d ∈ cols' → c ≠ d +:+ sufijo).
  { intros a b [_ Ha]%list_elem_of_filter [_ Hb]%list_elem_of_filter. by apply Hn. }
  destruct (decide (c ∈ cols')) as [Hin|Hin].
  - by rewrite lookup_foldr_delete.
  - rewrite lookup_foldr_delete_not_elem_of by done.
    destruct (con_hashes_busca sufijo cols' t Hn') as [H1 _].
    rewrite H1.
    + destruct (t !! c) as [s|] eqn:Es; [|done].
      exfalso. apply Hin. apply list_elem_of_filter. split; [by eexists|done].
    + intros d [_ Hd]%list_elem_of_filter. by apply Hn.
Qed.

Lemma hashear_datos_sensibles_general (cols : list string) (sufijo : string)
    (h : almacen) df (t : tabla) :
  h !! df = Some t →
  Hashing.hashear_datos_sensibles df cols sufijo h
  = Some (S (length h),
          (h ++ [con_hashes sufijo (filter (λ col, is_Some (t !! col)) cols) t;
                 foldr delete
                   (con_hashes sufijo (filter (λ col, is_Some (t !! col)) cols) t)
                   (filter (λ col, is_Some (t !! col)) cols)])%list).
Proof.
  intros Eh. unfold Hashing.hashear_datos_sensibles.
  rewrite bind_ejecuta, (leer_ejecuta _ _ t) by done.
  rewrite bind_ejecuta, crear_ejecuta.
  rewrite bind_ejecuta.
  rewrite (hashear_bucle sufijo _ _ _ t);
    [|by apply list_lookup_middle|].
  2: { apply list.Forall_forall. by intros c [Hc _]%list_elem_of_filter. }
  fold (con_hashes sufijo (filter (λ col, is_Some (t !! col)) cols) t).
  set (tc := con_hashes _ _ _).
  assert (Eh' : <[length h := tc]> (h ++ [t])%list = (h ++ [tc])%list).
  { rewrite insert_app_r_alt by lia. by rewrite Nat.sub_diag. }
  rewrite Eh'.
  rewrite bind_ejecuta, (leer_ejecuta _ _ tc) by by apply list_lookup_middle.
  rewrite crear_ejecuta, length_app. simpl.
  rewrite Nat.add_1_r. by rewrite <- app_assoc.
Qed.

(** X9. hashear_datos_sensibles, cuando ninguna columna de la lista se
    llama como la columna de hashes de otra, devuelve una tabla nueva en la
    que ninguna columna de la lista existe ya, cada columna presente ha
    dejado su columna con sufijo hecha de los hashes de sus valores, las
    columnas ausentes se han saltado sin error y las demás columnas son las
    de partida; la tabla del llamador no cambia. *)
Theorem hashear_datos_sensibles_columnas (cols : list string) (sufijo : string) (t : tabla) :
  sin_choque_de_nombres cols sufijo = true →
  ∃ T, ejecutar (λ df, Hashing.hashear_datos_sensibles df cols sufijo) t
       = Some (T, t, false)
    ∧ (∀ c, c ∈ cols → T !! c = None)
    ∧ (∀ c s, c ∈ cols → t !! c = Some s →
         T !! (c +:+ sufijo) = Some (Hashing.hashear_columna s SALT_HASHING))
    ∧ (∀ k, k ∉ cols → (∀ c, c ∈ cols → is_Some (t !! c) → k ≠ c +:+ sufijo) →
         T !! k = t !! k).
Proof.
  intros Hn0. pose proof (sin_choque_de_nombres_prop _ _ Hn0) as Hn.
  eexists. split.
  { unfold ejecutar.
    by rewrite (hashear_datos_sensibles_general cols sufijo [t] 0%nat t). }
  split; [intros c Hc; by apply hashing_quita_originales|].
  set (cols' := filter _ cols).
  assert (Hn' : ∀ c d, c ∈ cols' → d ∈ cols' → c ≠ d +:+ sufijo).
  { intros a b [_ Ha]%list_elem_of_filter [_ Hb]%list_elem_of_filter. by apply Hn. }
  destruct (con_hashes_busca sufijo cols' t Hn') as [H1 H2].
  split.
  - intros c s Hc Es.
    rewrite lookup_foldr_delete_not_elem_of.
    + apply H2; [|done]. apply list_elem_of_filter. split; [by eexists|done].
    + intros [_ Hin]%list_elem_of_filter. by apply (Hn (c +:+ sufijo) c).
  - intros k Hk Hh.
    rewrite lookup_foldr_delete_not_elem_of.
    + apply H1. intros c [Hp Hc]%list_elem_of_filter. by apply Hh.
    + by intros [_ Hin]%list_elem_of_filter.
Qed.

End ColumnasHash.

Lemma hashear_datos_sensibles_columnas_witness :
  ∃ T, ejecutar (λ df, Hashing.hashear_datos_sensibles (H := Ejemplo.python_ejemplo)
                         df COLUMNAS_SENSIBLES "_hash") Ejemplo.tabla_limpia
       = Some (T, Ejemplo.tabla_limpia, false)
    ∧ T !! "full_name" = None
    ∧ T !! "phone" = None
    ∧ T !! "phone_hash"
      = Some (Hashing.hashear_columna (H := Ejemplo.python_ejemplo)
                [Texto "555-0101"; Texto "MISSING"; Texto "555-0103"] SALT_HASHING)
    ∧ T !! "customer_id" = Some [Texto "C001"; Texto "C002"; Texto "C003"].
Proof.
  destruct (hashear_datos_sensibles_columnas (H := Ejemplo.python_ejemplo)
              COLUMNAS_SENSIBLES "_hash" Ejemplo.tabla_limpia)
    as (T & E & Ho & Hh & Hk); [vm_compute; reflexivity|].
  exists T. split; [exact E|].
  split; [apply Ho; repeat constructor|].
  split; [apply Ho; repeat constructor|].
  split.
  - apply (Hh "phone"); [repeat constructor|].
    vm_compute; reflexivity.
  - rewrite Hk; [vm_compute; reflexivity| |].
    + intros Hc.
      repeat (apply elem_of_cons in Hc as [?|Hc]; [discriminate|]).
      by apply elem_of_nil in Hc.
    + intros c Hc _.
      repeat (apply elem_of_cons in Hc as [->|Hc]; [discriminate|]).
      by apply elem_of_nil in Hc.
Defined.

(** ** La tabla silver no lleva datos sensibles *)

(** X10. Siempre que la transformación bronze a silver (limpieza seguida
    del hashing) termina, la tabla que devuelve no contiene ninguna de las
    columnas sensibles configuradas: full_name, email, phone y
    home_address. *)
Theorem transformar_sin_datos_sensibles `{Pandas} `{Python} (t T : tabla) :
  resultado BronzeASilver.transformar t = Some T →
  ∀ c, c ∈ COLUMNAS_SENSIBLES → T !! c = None.
Proof.
  intros E c Hc. unfold resultado, ejecutar, BronzeASilver.transformar in E.
  rewrite bind_ejecuta in E.
  destruct (BronzeASilver.limpiar 0%nat [t]) as [[r1 h1]|]; [|done].
  destruct (h1 !! r1) as [t1|] eqn:E1.
  2: { unfold Hashing.hashear_datos_sensibles in E.
       rewrite bind_ejecuta in E. unfold leer in E. by rewrite E1 in E. }
  rewrite (hashear_datos_sensibles_general _ _ h1 r1 t1 E1) in E.
  rewrite (lookup_app_r h1) in E by lia.
  replace (S (length h1) - length h1)%nat with 1%nat in E by lia.
  cbn [lookup list_lookup] in E.
  destruct (_ !! 0%nat) as [orig|]; [|done].
  injection E as <-.
  apply hashing_quita_originales; [|done].
  by apply sin_choque_de_nombres_prop.
Qed.

Lemma transformar_sin_datos_sensibles_witness :
  ∃ T, resultado (BronzeASilver.transformar (H := Ejemplo.pandas_ejemplo)
                    (H0 := Ejemplo.python_ejemplo)) Ejemplo.tabla_bronce = Some T
    ∧ T !! "full_name" = None ∧ T !! "email" = None
    ∧ T !! "phone" = None ∧ T !! "home_address" = None
    ∧ T !! "customer_id" = Some [Texto "C001"; Texto "C002"; Texto "C003"]
    ∧ T !! "monthly_spend" = Some [Num 450; Num 15000; Num (15450 # 2)].
Proof.
  destruct (resultado_definido
              (resultado (BronzeASilver.transformar (H := Ejemplo.pandas_ejemplo)
                            (H0 := Ejemplo.python_ejemplo)) Ejemplo.tabla_bronce))
    as [T E]; [vm_compute; reflexivity|].
  exists T. split; [exact E|].
  pose proof (transformar_sin_datos_sensibles (H := Ejemplo.pandas_ejemplo)
                (H0 := Ejemplo.python_ejemplo) _ _ E) as Hs.
  split; [apply Hs; repeat constructor|].
  split; [apply Hs; repeat constructor|].
  split; [apply Hs; repeat constructor|].
  split; [apply Hs; repeat constructor|].
  split; rewrite (columna_observada _ _ _ E); vm_compute; reflexivity.
Defined.

(** ** Mapeo de valores a hashes *)

(** X11. crear_mapeo_hash lanza el error cuando la columna no existe; si
    existe, deja intacta la tabla recibida y devuelve una tabla nueva cuyos
    valores originales son valores no nulos de la columna, distintos dos a
    dos, que cubren todos los valores no nulos de la columna, cada uno
    junto al hash que le da hashear_valor. *)
Theorem crear_mapeo_hash_valores `{Python} (t : tabla) (columna : string) :
  match t !! columna with
  | None => ejecutar (λ df, Hashing.crear_mapeo_hash df columna) t = None
  | Some s =>
      ∃ T orig,
        ejecutar (λ df, Hashing.crear_mapeo_hash df columna) t = Some (T, t, false)
        ∧ T !! "valor_original" = Some orig
        ∧ T !! "valor_hash"
          = Some ((λ v, Texto (Hashing.hashear_valor v SALT_HASHING)) <$> orig)
        ∧ distintos celda_eqb orig
        ∧ (∀ y, y ∈ orig → y ∈ s ∧ es_nulo y = false)
        ∧ (∀ x, x ∈ s → es_nulo x = false →
             ∃ y, y ∈ orig ∧ celda_eqb x y = true)
  end.
Proof.
  destruct (t !! columna) as [s|] eqn:Es.
  - exists {[ "valor_original" := Hashing.unique (Hashing.dropna s);
              "valor_hash" := (λ v, Texto (Hashing.hashear_valor v SALT_HASHING))
                                <$> Hashing.unique (Hashing.dropna s) ]},
           (Hashing.unique (Hashing.dropna s)).
    split.
    { unfold ejecutar, Hashing.crear_mapeo_hash.
      rewrite bind_ejecuta, (leer_ejecuta _ _ t) by done. by rewrite Es. }
    split; [by simplify_map_eq|]. split; [by simplify_map_eq|].
    split; [apply (primeros_desde_distintos celda_eqb celda_eqb_sym)|].
    split.
    + intros y Hy%seleccionar_elem.
      by apply list_elem_of_filter in Hy as [Hn Hy].
    + intros x Hx Hn.
      assert (Hd : x ∈ Hashing.dropna s) by by apply list_elem_of_filter.
      apply list_elem_of_split in Hd as (l1 & l2 & EL).
      destruct (primeros_cubre celda_eqb celda_eqb_refl celda_eqb_trans l1 l2 x)
        as (y & Hy & Ey & _).
      exists y. rewrite EL. by split.
  - unfold ejecutar, Hashing.crear_mapeo_hash.
    rewrite bind_ejecuta, (leer_ejecuta _ _ t) by done. by rewrite Es.
Qed.

(** verificar_reproducibilidad_hash acepta exactamente el hash que
    produce hashear_valor con la misma sal: el hash generado siempre se
    verifica, y para un valor nulo solo se acepta 'NULL', con cualquier
    sal. *)
Theorem verificar_reproducibilidad_hash_exacta `{Python}
    (valor : celda) (hash_esperado salt : string) :
  (Hashing.verificar_reproducibilidad_hash valor hash_esperado salt = true
   ↔ hash_esperado = Hashing.hashear_valor valor salt)
  ∧ Hashing.verificar_reproducibilidad_hash valor (Hashing.hashear_valor valor salt) salt
    = true
  ∧ Hashing.verificar_reproducibilidad_hash Nulo hash_esperado salt
    = String.eqb "NULL" hash_esperado.
Proof.
  unfold Hashing.verificar_reproducibilidad_hash. split; [|split].
  - rewrite String.eqb_eq. split; by intros ->.
  - apply String.eqb_refl.
  - reflexivity.
Qed.

(** ** Rango del score de riesgo *)

(** Sin filas la etapa lanza [ZeroDivisionError] al registrar la
    distribución. *)
Lemma crear_features_riesgo_sin_filas (t : tabla) sr se sa :
  t !! "recencia_dias" = Some sr → t !! "engagement_score" = Some se →
  t !! "antiguedad_dias" = Some sa →
  Tabla.n_filas t = 0%nat → resultado Features.crear_features_riesgo_churn t = None.
Proof.
  intros Er Ee Ea Hn. unfold resultado, ejecutar.
  assert (Hv : ∀ c s, t !! c = Some s → s = []) by by apply n_filas_cero.
  rewrite (Hv _ _ Er) in Er. rewrite (Hv _ _ Ee) in Ee. rewrite (Hv _ _ Ea) in Ea.
  rewrite (crear_features_riesgo_ejecuta [t] 0%nat t [] [] [] [] [] []) by done.
  assert (E0 : Tabla.n_filas (con_riesgo [] [] [] t) = 0%nat).
  { unfold con_riesgo. cbn [fmap list_fmap scores_riesgo zip_with].
    by do 5 apply n_filas_cero_insert. }
  by rewrite E0.
Qed.

(** X12. Con las columnas de recencia, engagement y antigüedad numéricas y
    al menos una fila, crear_features_riesgo_churn da a cada fila un score de
    riesgo entre 0 y 6 y siempre un nivel de riesgo de los cuatro previstos:
    a diferencia de las demás categorías, ningún score queda sin etiqueta,
    tampoco el 0. Sobre una tabla sin filas la función lanza
    ZeroDivisionError al registrar la distribución de niveles. *)
Theorem riesgo_siempre_etiquetado (t : tabla) sr se sa :
  t !! "recencia_dias" = Some sr → numerica t "recencia_dias" = true →
  t !! "engagement_score" = Some se → numerica t "engagement_score" = true →
  t !! "antiguedad_dias" = Some sa → numerica t "antiguedad_dias" = true →
  (sr ≠ [] →
   ∃ T scores niveles,
     resultado Features.crear_features_riesgo_churn t = Some T
     ∧ T !! "score_riesgo_churn" = Some scores
     ∧ T !! "nivel_riesgo" = Some niveles
     ∧ length niveles = length scores
     ∧ Forall (λ c, ∃ q, c = Num q ∧ (0 <= q)%Q ∧ (q <= 6)%Q) scores
     ∧ Forall (λ c, ∃ l, c = Texto l ∧ l ∈ ETIQUETAS_RIESGO) niveles)
  ∧ (Tabla.n_filas t = 0%nat →
     resultado Features.crear_features_riesgo_churn t = None).
Proof.
  intros Er Nr Ee Ne Ea Na.
  pose proof (numerica_numeros _ _ _ Nr Er) as Vr.
  pose proof (numerica_numeros _ _ _ Ne Ee) as Ve.
  pose proof (numerica_numeros _ _ _ Na Ea) as Va.
  split; [|by apply (crear_features_riesgo_sin_filas t sr se sa)].
  intros Hfilas. eexists _, _, _. split.
  { apply resultado_en_sitio. by eapply crear_features_riesgo_con_filas. }
  unfold con_riesgo. split; [by simplify_map_eq|]. split; [by simplify_map_eq|].
  split; [by rewrite !length_fmap|].
  assert (Hs : ∀ x, x ∈ scores_riesgo (valor <$> sr) (valor <$> se) (valor <$> sa) →
                ∃ a b c, x = score_riesgo (indicador a) (indicador b) (indicador c)).
  { intros x Hx. unfold scores_riesgo in Hx.
    apply elem_of_lookup_zip_with in Hx as (i & y & [z1 z2] & -> & Hy & Hz).
    apply lookup_zip_with_Some in Hz as (u & w & [= -> ->] & Hu & Hw).
    apply list_lookup_fmap_Some in Hy as (? & -> & _).
    apply list_lookup_fmap_Some in Hu as (? & -> & _).
    apply lookup_zip_with_Some in Hw as (? & ? & -> & _ & _).
    by eexists _, _, _. }
  split.
  - apply list.Forall_forall. intros c (x & -> & Hx)%list_elem_of_fmap.
    destruct (Hs x Hx) as (a & b & d & ->).
    destruct a, b, d; (eexists; split; [reflexivity|]); split; by vm_compute.
  - apply list.Forall_forall. intros c (x & -> & Hx)%list_elem_of_fmap.
    destruct (Hs x Hx) as (a & b & d & ->).
    destruct a, b, d; (eexists; split; [reflexivity|]); repeat constructor.
Qed.

Lemma riesgo_siempre_etiquetado_witness :
  ∃ T scores niveles,
    resultado Features.crear_features_riesgo_churn Ejemplo.tabla_riesgo = Some T
    ∧ T !! "score_riesgo_churn" = Some scores
    ∧ T !! "nivel_riesgo" = Some niveles
    ∧ length niveles = length scores
    ∧ Forall (λ c, ∃ q, c = Num q ∧ (0 <= q)%Q ∧ (q <= 6)%Q) scores
    ∧ Forall (λ c, ∃ l, c = Texto l ∧ l ∈ ETIQUETAS_RIESGO) niveles.
Proof.
  destruct (riesgo_siempre_etiquetado Ejemplo.tabla_riesgo
              [Num 200; Num 10] [Num 50; Num 80] [Num 400; Num 500])
    as [Hf _]; [reflexivity..|].
  apply Hf. discriminate.
Defined.

(** ** Recencia respecto a la compra más reciente *)

Lemma fecha_maxima_cota (f : list (option Z)) d :
  Some d ∈ f → ∃ m, Features.fecha_maxima f = Some m ∧ (d <= m)%Z.
Proof.
  induction f as [|x f IH]; [by intros ?%elem_of_nil|].
  intros [E|Hd]%elem_of_cons.
  - subst x. unfold Features.fecha_maxima. cbn [foldr].
    destruct (foldr _ None f) as [e|]; eexists; split; try done; lia.
  - destruct (IH Hd) as (m & Em & Hm). unfold Features.fecha_maxima in *.
    cbn [foldr]. rewrite Em. destruct x as [y|]; eexists; split; try done; lia.
Qed.

Lemma fecha_maxima_elem (f : list (option Z)) m :
  Features.fecha_maxima f = Some m → Some m ∈ f.
Proof.
  revert m. induction f as [|x f IH]; intros m; [done|].
  unfold Features.fecha_maxima in *.
  cbn [foldr]. destruct x as [y|]; [|intros E; right; by apply IH].
  destruct (foldr _ None f) as [e|] eqn:Ef.
  - intros [= <-]. destruct (Z.max_spec y e) as [[_ ->]|[_ ->]].
    + right. by apply IH.
    + by left.
  - intros [= <-]. by left.
Qed.

Lemma calcular_recencia_ejecuta (h : almacen) df (t : tabla) c s f r :
  h !! df = Some t → t !! c = Some s → Features.fechas s = Some f →
  Features.calcular_recencia df c r h
  = Some (df,
          <[df := <["categoria_recencia" :=
                      Features.cut [Fin 0; Fin 30; Fin 90; Fin 180; Infinito false]
                        ["Muy_Reciente"; "Reciente"; "Inactivo"; "Muy_Inactivo"]
                      <$> ((λ x, valor (Features.dias_desde
                                          match r with
                                          | None => Features.fecha_maxima f
                                          | Some r => Some r
                                          end x)) <$> f)]>
                  (<["recencia_dias" :=
                       Features.dias_desde
                         match r with
                         | None => Features.fecha_maxima f
                         | Some r => Some r
                         end <$> f]> t)]> h).
Proof.
  intros Eh Ec Ef. unfold Features.calcular_recencia.
  rewrite (sitio_inicio h df t Eh) at 1.
  rewrite bind_ejecuta, (sitio_columna _ _ _ Eh _ _ s) by done.
  rewrite bind_ejecuta, levantar_ejecuta, Ef.
  cbn [fmap option_fmap option_map].
  rewrite bind_ejecuta, (sitio_asignar _ _ _ Eh).
  rewrite bind_ejecuta.
  erewrite (sitio_columna _ _ _ Eh); [|by simplify_map_eq].
  rewrite bind_ejecuta.
  erewrite cut_serie_ejecuta.
  2: { apply (numeros_fmap _ (λ x, valor (Features.dias_desde
                                            match r with
                                            | None => Features.fecha_maxima f
                                            | Some r => Some r
                                            end x))). intros x.
       destruct r as [r0|]; [|destruct (Features.fecha_maxima f)]; by destruct x. }
  rewrite bind_ejecuta, (sitio_asignar _ _ _ Eh).
  reflexivity.
Qed.

(** X13. calcular_recencia con la fecha de referencia por defecto (la
    compra más reciente del lote) nunca da una recencia negativa: cada fila
    con fecha tiene un número entero de días mayor o igual que 0 y cada
    fila sin fecha queda nula. Toda fila cuya fecha es la más reciente tiene
    recencia 0 y se queda sin categoría de recencia, y basta una fecha no
    nula para que exista una fila así. *)
Theorem recencia_no_negativa (t : tabla) (c : string) (s : serie) (f : list (option Z)) :
  t !! c = Some s → Features.fechas s = Some f →
  ∃ T R C,
    resultado (λ df, Features.calcular_recencia df c None) t = Some T
    ∧ T !! "recencia_dias" = Some R
    ∧ T !! "categoria_recencia" = Some C
    ∧ (∀ i, (f !! i = Some None → R !! i = Some Nulo)
          ∧ (∀ d, f !! i = Some (Some d) →
               ∃ z, R !! i = Some (Num (inject_Z z)) ∧ (0 <= z)%Z))
    ∧ (∀ i d, f !! i = Some (Some d) → Features.fecha_maxima f = Some d →
         R !! i = Some (Num 0) ∧ C !! i = Some Nulo)
    ∧ (∀ d, Some d ∈ f → ∃ i, R !! i = Some (Num 0) ∧ C !! i = Some Nulo).
Proof.
  intros Ec Ef. eexists _, _, _. split.
  { apply resultado_en_sitio. by eapply calcular_recencia_ejecuta. }
  split; [by simplify_map_eq|]. split; [by simplify_map_eq|].
  assert (Hmax : ∀ i d, f !! i = Some (Some d) → Features.fecha_maxima f = Some d →
            (Features.dias_desde (Features.fecha_maxima f) <$> f) !! i = Some (Num 0)
            ∧ (Features.cut [Fin 0; Fin 30; Fin 90; Fin 180; Infinito false]
                 ["Muy_Reciente"; "Reciente"; "Inactivo"; "Muy_Inactivo"]
               <$> ((λ x, valor (Features.dias_desde (Features.fecha_maxima f) x)) <$> f))
              !! i = Some Nulo).
  { intros i d Ei Em. rewrite !list_lookup_fmap, Ei, Em. simpl.
    by rewrite Z.sub_diag. }
  split; [|split; [exact Hmax|]].
  - intros i. split.
    + intros Ei. rewrite list_lookup_fmap, Ei. simpl.
      by destruct (Features.fecha_maxima f).
    + intros d Ei.
      destruct (fecha_maxima_cota f d) as (m & Em & Hm).
      { apply list_elem_of_lookup. by exists i. }
      exists (m - d)%Z. rewrite list_lookup_fmap, Ei, Em. simpl.
      split; [done|lia].
  - intros d Hd. destruct (fecha_maxima_cota f d Hd) as (m & Em & _).
    pose proof (fecha_maxima_elem f m Em) as Hm.
    apply list_elem_of_lookup in Hm as [i Ei].
    exists i. by apply (Hmax i m).
Qed.

Lemma recencia_no_negativa_witness :
  ∃ T R C,
    resultado (λ df, Features.calcular_recencia df "last_purchase_date" None)
      Ejemplo.tabla_limpia = Some T
    ∧ T !! "recencia_dias" = Some R
    ∧ T !! "categoria_recencia" = Some C
    ∧ R !! 2%nat = Some (Num 0) ∧ C !! 2%nat = Some Nulo.
Proof.
  destruct (recencia_no_negativa Ejemplo.tabla_limpia "last_purchase_date"
              [Fecha 20209; Fecha 20072; Fecha 20240]
              [Some 20209%Z; Some 20072%Z; Some 20240%Z])
    as (T & R & C & E & ER & EC & _ & Hm & _); [reflexivity..|].
  exists T, R, C. split; [exact E|]. split; [exact ER|]. split; [exact EC|].
  by apply (Hm 2%nat 20240%Z).
Defined.

(** ** Segmentos de gasto y de frecuencia *)

Lemma cut_umbrales (a b c : Q) (l1 l2 l3 l4 : string) (x : celda) :
  (0 < a)%Q → (a < b)%Q → (b < c)%Q →
  segmento_por_umbrales a b c l1 l2 l3 l4 x
    (Features.cut [Fin 0; Fin a; Fin b; Fin c; Infinito false] [l1; l2; l3; l4]
       (valor x)).
Proof.
  intros Ha Hb Hc. split; [by intros ->|].
  intros q ->. cbn [Features.cut Numero.ltb Numero.leb negb]. unfold Numero.Qltb.
  destruct (Qle_bool q 0) eqn:E0, (Qle_bool q a) eqn:E1,
           (Qle_bool q b) eqn:E2, (Qle_bool q c) eqn:E3;
    cbn [negb andb];
    repeat match goal with
           | H : Qle_bool _ _ = true |- _ => apply Qle_bool_iff in H
           | H : Qle_bool _ _ = false |- _ => apply Qle_bool_false in H
           end;
    repeat split; intros; try done; exfalso; lra.
Qed.

Lemma categorizar_monetary_ejecuta (h : almacen) df (t : tabla) c s :
  h !! df = Some t → t !! c = Some s → numerica t c = true →
  Features.categorizar_monetary df c h
  = if Nat.eqb (Tabla.n_filas
                  (<["segmento_gasto" :=
                       Features.cut BINS_GASTO_MENSUAL ETIQUETAS_GASTO
                       <$> (valor <$> s)]> t)) 0
    then None
    else Some (df, <[df := <["segmento_gasto" :=
                               Features.cut BINS_GASTO_MENSUAL ETIQUETAS_GASTO
                               <$> (valor <$> s)]> t]> h).
Proof.
  intros Eh Ec Nc. unfold Features.categorizar_monetary.
  rewrite (sitio_inicio h df t Eh) at 1.
  rewrite bind_ejecuta, (sitio_columna _ _ _ Eh _ _ s) by done.
  rewrite bind_ejecuta.
  rewrite (cut_serie_ejecuta s (valor <$> s)) by by eapply numerica_numeros.
  rewrite bind_ejecuta, (sitio_asignar _ _ _ Eh).
  rewrite bind_ejecuta.
  erewrite registrar_distribucion_ejecuta;
    [|by eapply almacen_insert_eq|by simplify_map_eq|done].
  by destruct (Nat.eqb _ 0).
Qed.

Lemma categorizar_frequency_ejecuta (h : almacen) df (t : tabla) c s :
  h !! df = Some t → t !! c = Some s → numerica t c = true →
  Features.categorizar_frequency df c h
  = if Nat.eqb (Tabla.n_filas
                  (<["segmento_frecuencia" :=
                       Features.cut BINS_FRECUENCIA_ENVIOS ETIQUETAS_FRECUENCIA
                       <$> (valor <$> s)]> t)) 0
    then None
    else Some (df, <[df := <["segmento_frecuencia" :=
                               Features.cut BINS_FRECUENCIA_ENVIOS ETIQUETAS_FRECUENCIA
                               <$> (valor <$> s)]> t]> h).
Proof.
  intros Eh Ec Nc. unfold Features.categorizar_frequency.
  rewrite (sitio_inicio h df t Eh) at 1.
  rewrite bind_ejecuta, (sitio_columna _ _ _ Eh _ _ s) by done.
  rewrite bind_ejecuta.
  rewrite (cut_serie_ejecuta s (valor <$> s)) by by eapply numerica_numeros.
  rewrite bind_ejecuta, (sitio_asignar _ _ _ Eh).
  rewrite bind_ejecuta.
  erewrite registrar_distribucion_ejecuta;
    [|by eapply almacen_insert_eq|by simplify_map_eq|done].
  by destruct (Nat.eqb _ 0).
Qed.

(** La tabla con una columna más tiene filas si la columna de partida las
    tiene, y no tiene ninguna si la tabla no las tenía. *)
Lemma n_filas_con_columna (t : tabla) c s k (f : celda → celda) :
  t !! c = Some s → s ≠ [] → Tabla.n_filas (<[k := f <$> s]> t) ≠ 0%nat.
Proof.
  intros Ec Hs. destruct (decide (k = c)) as [->|Hk].
  - apply (n_filas_positivo _ c (f <$> s)); [by rewrite lookup_insert_eq|].
    by destruct s.
  - apply (n_filas_positivo _ c s); [by rewrite lookup_insert_ne|done].
Qed.

Lemma n_filas_sin_columna (t : tabla) c s k (f : celda → celda) :
  t !! c = Some s → Tabla.n_filas t = 0%nat →
  Tabla.n_filas (<[k := f <$> s]> t) = 0%nat.
Proof.
  intros Ec Hn. rewrite (proj1 (n_filas_cero t) Hn c s Ec).
  by apply n_filas_cero_insert.
Qed.

Lemma categorizar_monetary_con_filas (h : almacen) df (t : tabla) c s :
  h !! df = Some t → t !! c = Some s → numerica t c = true → s ≠ [] →
  Features.categorizar_monetary df c h
  = Some (df, <[df := <["segmento_gasto" :=
                          Features.cut BINS_GASTO_MENSUAL ETIQUETAS_GASTO
                          <$> (valor <$> s)]> t]> h).
Proof.
  intros Eh Ec Nc Hs. rewrite (categorizar_monetary_ejecuta h df t c s) by done.
  rewrite <- list_fmap_compose.
  pose proof (n_filas_con_columna t c s "segmento_gasto"
                (Features.cut BINS_GASTO_MENSUAL ETIQUETAS_GASTO ∘ valor) Ec Hs) as Hn.
  by apply Nat.eqb_neq in Hn as ->.
Qed.

Lemma categorizar_frequency_con_filas (h : almacen) df (t : tabla) c s :
  h !! df = Some t → t !! c = Some s → numerica t c = true → s ≠ [] →
  Features.categorizar_frequency df c h
  = Some (df, <[df := <["segmento_frecuencia" :=
                          Features.cut BINS_FRECUENCIA_ENVIOS ETIQUETAS_FRECUENCIA
                          <$> (valor <$> s)]> t]> h).
Proof.
  intros Eh Ec Nc Hs. rewrite (categorizar_frequency_ejecuta h df t c s) by done.
  rewrite <- list_fmap_compose.
  pose proof (n_filas_con_columna t c s "segmento_frecuencia"
                (Features.cut BINS_FRECUENCIA_ENVIOS ETIQUETAS_FRECUENCIA ∘ valor) Ec Hs)
    as Hn.
  by apply Nat.eqb_neq in Hn as ->.
Qed.

(** X14. Sobre una columna numérica con al menos una fila,
    categorizar_monetary da a cada fila 'Bajo' si 0 < gasto ≤ 500, 'Medio' si
    500 < gasto ≤ 1500, 'Alto' si 1500 < gasto ≤ 5000 y 'Premium' por encima
    de 5000; categorizar_frequency da 'Ocasional' si 0 < envíos ≤ 10,
    'Regular' hasta 30, 'Frecuente' hasta 100 y 'VIP' por encima. En las
    dos, un valor 0, negativo o nulo queda sin segmento. Sobre una tabla sin
    filas las dos funciones lanzan ZeroDivisionError al registrar la
    distribución de segmentos. *)
Theorem segmentos_de_gasto_y_frecuencia :
  (∀ (t : tabla) c s,
     t !! c = Some s → numerica t c = true → s ≠ [] →
     ∃ T segs,
       resultado (λ df, Features.categorizar_monetary df c) t = Some T
       ∧ T !! "segmento_gasto" = Some segs
       ∧ Forall2 (segmento_por_umbrales 500 1500 5000 "Bajo" "Medio" "Alto" "Premium")
                 s segs)
  ∧ (∀ (t : tabla) c s,
       t !! c = Some s → numerica t c = true → s ≠ [] →
       ∃ T segs,
         resultado (λ df, Features.categorizar_frequency df c) t = Some T
         ∧ T !! "segmento_frecuencia" = Some segs
         ∧ Forall2 (segmento_por_umbrales 10 30 100
                      "Ocasional" "Regular" "Frecuente" "VIP") s segs)
  ∧ (∀ (t : tabla) c s,
       t !! c = Some s → numerica t c = true → Tabla.n_filas t = 0%nat →
       resultado (λ df, Features.categorizar_monetary df c) t = None
       ∧ resultado (λ df, Features.categorizar_frequency df c) t = None).
Proof.
  split; [|split]; intros t c s Ec Nc Hs.
  - eexists _, _. split.
    { apply resultado_en_sitio. by eapply categorizar_monetary_con_filas. }
    split; [by simplify_map_eq|].
    rewrite <- list_fmap_compose. apply Forall2_fmap_r, Forall_Forall2_diag.
    apply list.Forall_forall. intros x _. by apply cut_umbrales.
  - eexists _, _. split.
    { apply resultado_en_sitio. by eapply categorizar_frequency_con_filas. }
    split; [by simplify_map_eq|].
    rewrite <- list_fmap_compose. apply Forall2_fmap_r, Forall_Forall2_diag.
    apply list.Forall_forall. intros x _. by apply cut_umbrales.
  - unfold resultado, ejecutar. split.
    + rewrite (categorizar_monetary_ejecuta [t] 0%nat t c s) by done.
      rewrite <- list_fmap_compose.
      by rewrite (n_filas_sin_columna t c s "segmento_gasto"
                    (Features.cut BINS_GASTO_MENSUAL ETIQUETAS_GASTO ∘ valor)).
    + rewrite (categorizar_frequency_ejecuta [t] 0%nat t c s) by done.
      rewrite <- list_fmap_compose.
      by rewrite (n_filas_sin_columna t c s "segmento_frecuencia"
                    (Features.cut BINS_FRECUENCIA_ENVIOS ETIQUETAS_FRECUENCIA ∘ valor)).
Qed.

Lemma segmentos_de_gasto_y_frecuencia_witness :
  ∃ T segs,
    resultado (λ df, Features.categorizar_monetary df "monthly_spend")
      Ejemplo.tabla_bordes = Some T
    ∧ T !! "segmento_gasto" = Some segs
    ∧ Forall2 (segmento_por_umbrales 500 1500 5000 "Bajo" "Medio" "Alto" "Premium")
              [Num 500; Num 0] segs.
Proof.
  destruct segmentos_de_gasto_y_frecuencia as [Hg _].
  apply (Hg Ejemplo.tabla_bordes "monthly_spend" [Num 500; Num 0]);
    [vm_compute; reflexivity..|discriminate].
Defined.

(** ** Features de comportamiento *)

Lemma crear_features_comportamiento_ejecuta (h : almacen) df (t : tabla)
    sg se sa sr vg ve va vr :
  h !! df = Some t →
  t !! "monthly_spend" = Some sg → Serie.numeros sg = Some vg →
  t !! "total_shipments" = Some se → Serie.numeros se = Some ve →
  t !! "antiguedad_dias" = Some sa → Serie.numeros sa = Some va →
  t !! "recencia_dias" = Some sr → Serie.numeros sr = Some vr →
  Features.crear_features_comportamiento df h
  = Some (df, <[df := con_comportamiento vg ve va vr t]> h).
Proof.
  intros Eh Eg Evg Ee Eve Ea Eva Er Evr.
  unfold Features.crear_features_comportamiento.
  rewrite (sitio_inicio h df t Eh) at 1.
  rewrite bind_ejecuta, (sitio_columna_numerica _ _ _ Eh _ _ sg vg) by done.
  rewrite bind_ejecuta, (sitio_columna_numerica _ _ _ Eh _ _ se ve) by done.
  rewrite bind_ejecuta, (sitio_asignar _ _ _ Eh).
  rewrite bind_ejecuta.
  erewrite (sitio_columna _ _ _ Eh); [|by simplify_map_eq].
  rewrite bind_ejecuta.
  erewrite cut_serie_ejecuta; [|apply numeros_de_numero].
  rewrite bind_ejecuta, (sitio_asignar _ _ _ Eh).
  rewrite bind_ejecuta, (sitio_columna_numerica _ _ _ Eh _ _ sa va)
    by (by simplify_map_eq).
  rewrite bind_ejecuta, (sitio_columna_numerica _ _ _ Eh _ _ se ve)
    by (by simplify_map_eq).
  rewrite bind_ejecuta, (sitio_asignar _ _ _ Eh).
  rewrite bind_ejecuta, (sitio_columna_numerica _ _ _ Eh _ _ sr vr)
    by (by simplify_map_eq).
  rewrite bind_ejecuta, (sitio_asignar _ _ _ Eh).
  rewrite bind_ejecuta, (sitio_columna_numerica _ _ _ Eh _ _ sg vg)
    by (by simplify_map_eq).
  rewrite bind_ejecuta, (sitio_columna_numerica _ _ _ Eh _ _ se ve)
    by (by simplify_map_eq).
  rewrite bind_ejecuta, (sitio_asignar _ _ _ Eh).
  reflexivity.
Qed.

Lemma division_protegida (g e : Q) :
  ∃ q, Numero.div (Fin g) (Features.reemplazar_cero (Fin e)) = Fin q
       ∧ ((e == 0)%Q → (q == g)%Q) ∧ (¬ (e == 0)%Q → (q == g / e)%Q).
Proof.
  unfold Features.reemplazar_cero. cbn [Numero.eqb].
  destruct (Qeq_bool e 0) eqn:E.
  - apply Qeq_bool_iff in E. exists (g / 1)%Q. split; [done|].
    split; [intros _; field|done].
  - exists (g / e)%Q. cbn [Numero.div]. rewrite E.
    split; [done|]. split; [|done].
    intros E0%Qeq_bool_iff. congruence.
Qed.

(** X15. Con las cuatro columnas de partida numéricas,
    crear_features_comportamiento no divide nunca por cero: para una fila
    con gasto y envíos finitos, gasto_por_envio es el número finito
    gasto / envíos, y con 0 envíos es el propio gasto (los envíos 0 se
    sustituyen por 1); lo mismo vale para dias_entre_compras con la
    antigüedad. *)
Theorem comportamiento_sin_division_por_cero (t : tabla) sg se sa sr :
  t !! "monthly_spend" = Some sg → numerica t "monthly_spend" = true →
  t !! "total_shipments" = Some se → numerica t "total_shipments" = true →
  t !! "antiguedad_dias" = Some sa → numerica t "antiguedad_dias" = true →
  t !! "recencia_dias" = Some sr → numerica t "recencia_dias" = true →
  ∃ T tickets dias,
    ejecutar Features.crear_features_comportamiento t = Some (T, T, true)
    ∧ T !! "gasto_por_envio" = Some tickets
    ∧ T !! "dias_entre_compras" = Some dias
    ∧ (∀ i g e, sg !! i = Some (Num g) → se !! i = Some (Num e) →
         ∃ q, tickets !! i = Some (Num q)
              ∧ ((e == 0)%Q → (q == g)%Q) ∧ (¬ (e == 0)%Q → (q == g / e)%Q))
    ∧ (∀ i a e, sa !! i = Some (Num a) → se !! i = Some (Num e) →
         ∃ q, dias !! i = Some (Num q)
              ∧ ((e == 0)%Q → (q == a)%Q) ∧ (¬ (e == 0)%Q → (q == a / e)%Q)).
Proof.
  intros Eg Ng Ee Ne Ea Na Er Nr.
  pose proof (numerica_numeros _ _ _ Ng Eg) as Vg.
  pose proof (numerica_numeros _ _ _ Ne Ee) as Ve.
  pose proof (numerica_numeros _ _ _ Na Ea) as Va.
  pose proof (numerica_numeros _ _ _ Nr Er) as Vr.
  eexists _, _, _. split.
  { unfold ejecutar.
    by rewrite (crear_features_comportamiento_ejecuta [t] 0%nat t sg se sa sr
                  _ _ _ _ eq_refl Eg Vg Ee Ve Ea Va Er Vr). }
  unfold con_comportamiento.
  split; [by simplify_map_eq|]. split; [by simplify_map_eq|].
  split.
  - intros i g e Ei Ej.
    destruct (division_protegida g e) as (q & Eq & Hq).
    exists q. split; [|exact Hq].
    rewrite list_lookup_fmap, lookup_zip_with, !list_lookup_fmap, Ei, Ej.
    cbn [fmap option_fmap option_map mbind option_bind].
    change (valor (Num g)) with (Fin g). change (valor (Num e)) with (Fin e).
    by rewrite Eq.
  - intros i a e Ei Ej.
    destruct (division_protegida a e) as (q & Eq & Hq).
    exists q. split; [|exact Hq].
    rewrite list_lookup_fmap, lookup_zip_with, !list_lookup_fmap, Ei, Ej.
    cbn [fmap option_fmap option_map mbind option_bind].
    change (valor (Num a)) with (Fin a). change (valor (Num e)) with (Fin e).
    by rewrite Eq.
Qed.

Lemma comportamiento_sin_division_por_cero_witness :
  ∃ T tickets,
    ejecutar Features.crear_features_comportamiento Ejemplo.tabla_comportamiento
    = Some (T, T, true)
    ∧ T !! "gasto_por_envio" = Some tickets
    ∧ ∃ q, tickets !! 1%nat = Some (Num q) ∧ (q == 120)%Q.
Proof.
  destruct (comportamiento_sin_division_por_cero Ejemplo.tabla_comportamiento
              [Num 500; Num 120] [Num 10; Num 0] [Num 900; Num 30] [Num 30; Num 0])
    as (T & tickets & dias & E & Et & _ & Hg & _); [reflexivity..|].
  exists T, tickets. split; [exact E|]. split; [exact Et|].
  destruct (Hg 1%nat 120%Q 0%Q eq_refl eq_refl) as (q & Eq & Hq & _).
  exists q. split; [exact Eq|]. by apply Hq.
Defined.

(** ** Lo que garantiza el tratamiento de nulos *)

Lemma contar_nulos_cero_inv (s : serie) :
  Serie.contar_nulos s = 0%nat → Forall (λ x, es_nulo x = false) s.
Proof.
  unfold Serie.contar_nulos. intros E. apply list.Forall_forall. intros x Hx.
  destruct (es_nulo x) eqn:Ex; [|done].
  assert (Hf : x ∈ filter (λ c, es_nulo c = true) s) by by apply list_elem_of_filter.
  destruct (filter _ s); [by apply elem_of_nil in Hf|done].
Qed.

Lemma seleccionar_sin_nulos m (s : serie) :
  Forall (λ x, es_nulo x = false) s →
  Forall (λ x, es_nulo x = false) (Serie.seleccionar m s).
Proof.
  intros Hs. apply list.Forall_forall. intros x Hx%seleccionar_elem.
  by eapply list.Forall_forall in Hs.
Qed.

Lemma seleccionar_no_nulas (s : serie) :
  Forall (λ x, es_nulo x = false) (Serie.seleccionar (filas_no_nulas s) s).
Proof.
  unfold filas_no_nulas. induction s as [|x s IH]; csimpl; [constructor|].
  destruct (es_nulo x) eqn:Ex; simpl; [done|]. by constructor.
Qed.

(** X16. Cuando manejar_valores_nulos con las estrategias configuradas
    termina, las columnas phone y churn_label de la tabla devuelta no
    tienen ningún nulo: los teléfonos ausentes valen 'MISSING' y las filas sin
    etiqueta se han eliminado. *)
Theorem nulos_tratados `{Pandas} (t T : tabla) :
  resultado (λ df, Limpieza.manejar_valores_nulos df Limpieza.ESTRATEGIA_NULOS) t = Some T →
  (∀ s, T !! "phone" = Some s → Forall (λ c, es_nulo c = false) s)
  ∧ (∀ s, T !! "churn_label" = Some s → Forall (λ c, es_nulo c = false) s).
Proof.
  intros Hr. apply manejar_configurado_resultado in Hr as (t1 & E1 & HT).
  assert (Hp : ∀ s, t1 !! "phone" = Some s → Forall (λ c, es_nulo c = false) s).
  { change RELLENOS with (("phone", "MISSING") :: drop 1 RELLENOS) in E1.
    rewrite rellenar_todas_cons in E1.
    destruct (rellenar_tabla ("phone", "MISSING") t) as [t0|] eqn:E0; [|done].
    cbn [mbind option_bind] in E1. intros s Es.
    rewrite (rellenar_todas_otra (drop 1 RELLENOS) t0 t1 "phone" E1) in Es
      by by apply (bool_decide_unpack _).
    unfold rellenar_tabla, rellenar in E0. cbn [fst snd] in E0.
    destruct (t !! "phone") as [s0|] eqn:Ep;
      [|injection E0 as <-; by rewrite Ep in Es].
    destruct (Nat.eqb (Serie.contar_nulos s0) 0) eqn:En;
      cbn in E0; injection E0 as <-;
      rewrite lookup_insert_eq in Es; injection Es as <-.
    - by apply contar_nulos_cero_inv, Nat.eqb_eq.
    - apply list.Forall_forall. intros x (y & -> & _)%list_elem_of_fmap.
      by destruct (es_nulo y) eqn:Ey. }
  destruct (t1 !! "churn_label") as [e|] eqn:Ee.
  2: { subst T. split; [exact Hp|]. intros s Es. by rewrite Ee in Es. }
  destruct (Nat.eqb (Serie.contar_nulos e) 0) eqn:En; subst T.
  - split; [exact Hp|]. intros s Es. rewrite Ee in Es. simplify_eq.
    by apply contar_nulos_cero_inv, Nat.eqb_eq.
  - split.
    + intros s Es. rewrite filtrar_columna in Es.
      destruct (t1 !! "phone") as [s0|] eqn:Ep; simplify_eq/=.
      by apply seleccionar_sin_nulos, Hp.
    + intros s Es. rewrite filtrar_columna, Ee in Es. simplify_eq/=.
      apply seleccionar_no_nulas.
Qed.

Lemma nulos_tratados_witness :
  ∃ T, resultado (λ df, Limpieza.manejar_valores_nulos (H := Ejemplo.pandas_ejemplo)
                          df Limpieza.ESTRATEGIA_NULOS) Ejemplo.tabla_nulos = Some T
    ∧ (∀ s, T !! "phone" = Some s → Forall (λ c, es_nulo c = false) s)
    ∧ (∀ s, T !! "churn_label" = Some s → Forall (λ c, es_nulo c = false) s).
Proof.
  destruct (resultado_definido
              (resultado (λ df, Limpieza.manejar_valores_nulos
                                  (H := Ejemplo.pandas_ejemplo) df
                                  Limpieza.ESTRATEGIA_NULOS) Ejemplo.tabla_nulos))
    as [T E]; [vm_compute; reflexivity|].
  exists T. split; [exact E|].
  exact (nulos_tratados (H := Ejemplo.pandas_ejemplo) _ _ E).
Defined.

(** ** La transformación solo puede fallar en los duplicados *)

Section Terminacion.
Context `{Pandas}.

Lemma normalizar_fechas_devuelve (cols : list string) (h : almacen) df (t : tabla) :
  h !! df = Some t →
  devuelve (Limpieza.normalizar_fechas df cols) h
    (foldl (λ T c, alter to_datetime c T) t cols).
Proof.
  intros Eh. exists df, (<[df := foldl (λ T c, alter to_datetime c T) t cols]> h).
  split; [by apply normalizar_fechas_ejecuta|].
  split; [by eapply almacen_insert_eq|]. by rewrite length_insert.
Qed.

Lemma convertidas_numericas (R : tabla) c :
  c ∈ ["monthly_spend"; "total_shipments"; "churn_label"] →
  numerica (foldl (λ T c, alter (fmap to_numeric) c T) R
              ["monthly_spend"; "total_shipments"; "churn_label"]) c = true.
Proof.
  intros Hc. unfold numerica.
  rewrite foldl_alter_busca by apply to_numeric_idempotente.
  rewrite bool_decide_eq_true_2 by done.
  destruct (R !! c) as [s|]; [|done]. simpl. apply bool_decide_eq_true.
  apply numeros_definida. apply list.Forall_forall.
  intros x (y & -> & _)%list_elem_of_fmap. apply to_numeric_numero.
Qed.

Lemma convertir_tipos_devuelve (h : almacen) df (t : tabla) :
  h !! df = Some t →
  ∃ T, devuelve (BronzeASilver.convertir_tipos df) h T
    ∧ numerica T "monthly_spend" = true ∧ numerica T "total_shipments" = true.
Proof.
  intros Eh. eexists. split.
  - unfold BronzeASilver.convertir_tipos.
    apply (devuelve_leer _ _ _ t); [done|].
    eapply devuelve_bind; [by apply crear_devuelve|]. intros df1 h1 E1.
    eapply (devuelve_leer _ _ _ _); [done|].
    eapply devuelve_bind; [by apply crear_devuelve|]. intros df2 h2 E2.
    eapply (devuelve_leer _ _ _ _); [done|].
    eapply devuelve_bind; [by apply crear_devuelve|]. intros df3 h3 E3.
    eexists df3, _. rewrite (sitio_inicio h3 df3 _ E3) at 1.
    rewrite (para_cada_alter _ _ _ _ _ _ E3).
    split; [done|]. split; [by eapply almacen_insert_eq|].
    by rewrite length_insert.
  - split; apply convertidas_numericas; repeat constructor.
Qed.

Lemma gasto_corregido_numero c : is_Some (a_numero c) → is_Some (a_numero (gasto_corregido c)).
Proof.
  intros Hc. unfold gasto_corregido.
  destruct (Numero.ltb _ _); [by eexists|]. by destruct (Numero.gtb _ _); [eexists|].
Qed.

Lemma envios_corregidos_numero c :
  is_Some (a_numero c) → is_Some (a_numero (envios_corregidos c)).
Proof.
  intros Hc. unfold envios_corregidos. by destruct (Numero.gtb _ _); [eexists|].
Qed.

Lemma paso_outliers_termina (h : almacen) df (t : tabla) :
  h !! df = Some t →
  numerica t "monthly_spend" = true → numerica t "total_shipments" = true →
  ∃ T, devuelve (BronzeASilver.paso_outliers df) h T
    ∧ numerica T "monthly_spend" = true ∧ numerica T "total_shipments" = true.
Proof.
  intros Eh Ng Ne. eexists. split; [by apply paso_outliers_devuelve|].
  destruct (paso_outliers_busca t) as (_ & Eg & Ee & _).
  unfold numerica in *. rewrite Eg, Ee. split.
  - destruct (t !! "monthly_spend") as [s|]; [|done]. simpl.
    apply bool_decide_eq_true in Ng. apply bool_decide_eq_true.
    apply numeros_fmap_conserva; [done|apply gasto_corregido_numero].
  - destruct (t !! "total_shipments") as [s|]; [|done]. simpl.
    apply bool_decide_eq_true in Ne. apply bool_decide_eq_true.
    apply numeros_fmap_conserva; [done|apply envios_corregidos_numero].
Qed.

Lemma rellenar_todas_definida (t : tabla) :
  numerica t "monthly_spend" = true → numerica t "total_shipments" = true →
  is_Some (rellenar_todas RELLENOS t).
Proof.
  intros Ng Ne.
  assert (Hmed : ∀ (u : tabla) c, numerica u c = true →
            ∃ u', rellenar_tabla (c, "mediana") u = Some u'
                  ∧ ∀ k, k ≠ c → u' !! k = u !! k).
  { intros u c Nu. unfold rellenar_tabla, numerica in *. cbn [fst snd].
    destruct (u !! c) as [s|] eqn:Es; [|by eexists].
    apply bool_decide_eq_true in Nu as [v Ev].
    unfold rellenar. rewrite Ev.
    destruct (Nat.eqb _ 0); cbn; eexists; (split; [done|]);
      intros k Hk; by rewrite lookup_insert_ne. }
  assert (Hotra : ∀ (u : tabla) c e,
            e = "MISSING" ∨ e = "ffill" →
            ∃ u', rellenar_tabla (c, e) u = Some u'
                  ∧ ∀ k, k ≠ c → u' !! k = u !! k).
  { intros u c e He. unfold rellenar_tabla. cbn [fst snd].
    destruct (u !! c) as [s|] eqn:Es; [|by eexists].
    unfold rellenar.
    destruct He as [->| ->]; destruct (Nat.eqb _ 0); cbn; eexists; (split; [done|]);
      intros k Hk; by rewrite lookup_insert_ne. }
  change RELLENOS with [("phone", "MISSING"); ("monthly_spend", "mediana");
                        ("total_shipments", "mediana"); ("last_purchase_date", "ffill")].
  destruct (Hotra t "phone" "MISSING") as (t0 & E0 & H0); [by left|].
  destruct (Hmed t0 "monthly_spend") as (t1 & E1 & H1).
  { unfold numerica in *. by rewrite H0. }
  destruct (Hmed t1 "total_shipments") as (t2 & E2 & H2).
  { unfold numerica in *. by rewrite H1, H0. }
  destruct (Hotra t2 "last_purchase_date" "ffill") as (t3 & E3 & H3); [by right|].
  rewrite rellenar_todas_cons, E0. cbn [mbind option_bind].
  rewrite rellenar_todas_cons, E1. cbn [mbind option_bind].
  rewrite rellenar_todas_cons, E2. cbn [mbind option_bind].
  rewrite rellenar_todas_cons, E3. by eexists.
Qed.

Lemma manejar_valores_nulos_termina (h : almacen) df (t : tabla) :
  h !! df = Some t →
  numerica t "monthly_spend" = true → numerica t "total_shipments" = true →
  ∃ T, devuelve (Limpieza.manejar_valores_nulos df Limpieza.ESTRATEGIA_NULOS) h T.
Proof.
  intros Eh Ng Ne. destruct (rellenar_todas_definida t Ng Ne) as [t1 E1].
  unfold devuelve. rewrite (manejar_configurado_ejecuta _ _ t Eh), E1.
  assert (Hs : ∃ T df' h', Some (df, <[df := t1]> h) = Some (df', h')
                 ∧ h' !! df' = Some T ∧ (length h ≤ length h')%nat).
  { eexists t1, df, _. split; [done|]. split; [by eapply almacen_insert_eq|].
    by rewrite length_insert. }
  destruct (t1 !! "churn_label") as [e|]; [|exact Hs].
  destruct (Nat.eqb _ 0); [exact Hs|].
  eexists _, _, _. split; [done|]. split.
  - rewrite lookup_app_r by (rewrite length_insert; lia).
    rewrite length_insert, Nat.sub_diag. done.
  - rewrite length_app, length_insert. lia.
Qed.

Lemma limpiar_termina (h : almacen) (t1 : tabla) df :
  devuelve (Limpieza.detectar_duplicados df "customer_id") h t1 →
  ∃ T, devuelve (BronzeASilver.limpiar df) h T.
Proof.
  intros H1. unfold BronzeASilver.limpiar.
  set (t2 := foldl (λ T c, alter to_datetime c T) t1
               ["signup_date"; "last_purchase_date"]).
  assert (H3 : ∀ df h, h !! df = Some t2 →
            ∃ T, devuelve (df ← BronzeASilver.convertir_tipos df;
                           df ← BronzeASilver.paso_outliers df;
                           Limpieza.manejar_valores_nulos df Limpieza.ESTRATEGIA_NULOS) h T).
  { intros df2 h2 E2.
    destruct (convertir_tipos_devuelve h2 df2 t2 E2) as (t3 & (r3 & h3 & R3 & L3 & N3) & Ng & Ne).
    destruct (paso_outliers_termina h3 r3 t3 L3 Ng Ne)
      as (t4 & (r4 & h4 & R4 & L4 & N4) & Ng4 & Ne4).
    destruct (manejar_valores_nulos_termina h4 r4 t4 L4 Ng4 Ne4)
      as (t5 & r5 & h5 & R5 & L5 & N5).
    exists t5, r5, h5. rewrite bind_ejecuta, R3, bind_ejecuta, R4.
    split; [done|]. split; [done|lia]. }
  destruct H1 as (r1 & h1 & R1 & L1 & N1).
  destruct (normalizar_fechas_devuelve ["signup_date"; "last_purchase_date"] h1 r1 t1 L1)
    as (r2 & h2 & R2 & L2 & N2).
  destruct (H3 r2 h2 L2) as (T & r5 & h5 & R5 & L5 & N5).
  exists T, r5, h5. rewrite bind_ejecuta, R1, bind_ejecuta, R2.
  split; [done|]. split; [done|lia].
Qed.

(** Sin la hipótesis sobre la lectura de fechas: la etapa de duplicados
    termina sobre toda tabla rectangular con claves comparables. *)
Lemma sin_duplicados_definida (t : tabla) (ids : serie) :
  rectangular t = true → t !! "customer_id" = Some ids →
  Tabla.ordenable ids = true →
  is_Some (sin_duplicados t "customer_id").
Proof.
  intros Hr Eid Ho.
  unfold sin_duplicados. rewrite filtrar_sin_repetidas by done.
  set (m1 := filas_unicas t).
  assert (E1 : Tabla.filtrar m1 t !! "customer_id" = Some (Serie.seleccionar m1 ids))
    by by rewrite filtrar_columna, Eid.
  rewrite E1. csimpl.
  destruct (Nat.ltb 0 _); [|by eexists].
  destruct (Tabla.filtrar m1 t !! "last_purchase_date") as [fechas1|]; [|by eexists].
  set (t1' := <["last_purchase_date_temp" := to_datetime fechas1]>
                (Tabla.filtrar m1 t)).
  assert (E3 : t1' !! "customer_id" = Some (Serie.seleccionar m1 ids))
    by (unfold t1'; by rewrite lookup_insert_ne).
  assert (E4 : t1' !! "last_purchase_date_temp" = Some (to_datetime fechas1))
    by (unfold t1'; by simplify_map_eq).
  rewrite E3. csimpl. rewrite E4. csimpl.
  destruct (ordenable_compatible ids Ho) as [n Hn].
  rewrite (compatible_ordenable n) by by apply compatible_seleccionar.
  rewrite tomar_columna, E3. csimpl. by eexists.
Qed.

End Terminacion.

(** X17. La transformación bronze a silver solo puede fallar en la etapa
    de duplicados: sobre toda tabla para la que detectar_duplicados termina,
    las etapas de fechas, tipos, outliers, nulos y hashing terminan también
    y la transformación devuelve una tabla. En particular termina sobre toda
    tabla rectangular con una columna customer_id de celdas comparables
    entre sí. *)
Theorem transformar_termina `{Pandas} `{Python} :
  (∀ t : tabla,
     is_Some (resultado (λ df, Limpieza.detectar_duplicados df "customer_id") t) →
     is_Some (resultado BronzeASilver.transformar t))
  ∧ (∀ (t : tabla) ids,
       rectangular t = true → t !! "customer_id" = Some ids →
       Tabla.ordenable ids = true →
       is_Some (resultado BronzeASilver.transformar t)).
Proof.
  assert (Hd : ∀ (t t1 : tabla),
            devuelve (Limpieza.detectar_duplicados 0%nat "customer_id") [t] t1 →
            is_Some (resultado BronzeASilver.transformar t)).
  { intros t t1 H1.
    destruct (limpiar_termina [t] t1 0%nat H1) as (T & r & h & R & L & N).
    eexists. apply devuelve_resultado. unfold BronzeASilver.transformar.
    eexists _, _. rewrite bind_ejecuta, R.
    rewrite (hashear_datos_sensibles_general _ _ h r T L).
    split; [done|]. split.
    - rewrite lookup_app_r by lia.
      by replace (S (length h) - length h)%nat with 1%nat by lia.
    - rewrite length_app. simpl in *. lia. }
  split.
  - intros t [T E]. unfold resultado, ejecutar in E.
    destruct (Limpieza.detectar_duplicados 0%nat "customer_id" [t])
      as [[r h]|] eqn:R; [|done].
    destruct (h !! r) as [t1|] eqn:L; [|done].
    destruct (h !! 0%nat) as [o|] eqn:L0; [|done].
    apply (Hd t t1). exists r, h. split; [done|]. split; [done|].
    apply lookup_lt_Some in L0. simpl. lia.
  - intros t ids Hr Eid Ho.
    destruct (sin_duplicados_definida t ids Hr Eid Ho) as [t1 E1].
    apply (Hd t t1). by apply (detectar_duplicados_devuelve [t] 0%nat t t1).
Qed.

Lemma transformar_termina_witness :
  is_Some (resultado (BronzeASilver.transformar (H := Ejemplo.pandas_ejemplo)
                        (H0 := Ejemplo.python_ejemplo)) Ejemplo.tabla_bronce).
Proof.
  destruct (@transformar_termina Ejemplo.pandas_ejemplo Ejemplo.python_ejemplo)
    as [_ Ht].
  apply (Ht Ejemplo.tabla_bronce
            [Texto "C001"; Texto "C002"; Texto "C002"; Texto "C003"]);
    vm_compute; reflexivity.
Defined.

(** ** El pipeline de features completo *)

Lemma calcular_antiguedad_ejecuta (h : almacen) df (t : tabla) c su fu s f :
  h !! df = Some t →
  t !! "last_purchase_date" = Some su → Features.fechas su = Some fu →
  t !! c = Some s → Features.fechas s = Some f →
  Features.calcular_antiguedad df c None h
  = Some (df,
          <[df := <["categoria_antiguedad" :=
                      Features.cut [Fin 0; Fin 180; Fin 365; Fin 730; Infinito false]
                        ["Nuevo"; "Establecido"; "Veterano"; "Antiguo"]
                      <$> ((λ x, valor (Features.dias_desde (Features.fecha_maxima fu) x))
                             <$> f)]>
                  (<["antiguedad_dias" :=
                       Features.dias_desde (Features.fecha_maxima fu) <$> f]> t)]> h).
Proof.
  intros Eh Eu Efu Ec Ef. unfold Features.calcular_antiguedad.
  rewrite (sitio_inicio h df t Eh) at 1.
  rewrite !bind_ejecuta, (sitio_columna _ _ _ Eh _ _ su) by done.
  rewrite bind_ejecuta, levantar_ejecuta, Efu.
  cbn [fmap option_fmap option_map]. rewrite ret_ejecuta.
  rewrite bind_ejecuta, (sitio_columna _ _ _ Eh _ _ s) by done.
  rewrite bind_ejecuta, levantar_ejecuta, Ef.
  cbn [fmap option_fmap option_map].
  rewrite bind_ejecuta, (sitio_asignar _ _ _ Eh).
  rewrite bind_ejecuta.
  erewrite (sitio_columna _ _ _ Eh); [|by simplify_map_eq].
  rewrite bind_ejecuta.
  erewrite cut_serie_ejecuta.
  2: { apply (numeros_fmap _ (λ x, valor (Features.dias_desde
                                            (Features.fecha_maxima fu) x))).
       intros x. destruct (Features.fecha_maxima fu); by destruct x. }
  rewrite bind_ejecuta, (sitio_asignar _ _ _ Eh).
  reflexivity.
Qed.

Lemma numeros_dias_desde r (f : list (option Z)) :
  Serie.numeros (Features.dias_desde r <$> f)
  = Some (valor <$> (Features.dias_desde r <$> f)).
Proof.
  rewrite <- list_fmap_compose. apply numeros_fmap.
  intros x. simpl. by destruct r, x.
Qed.

Lemma generar_todas_features_ejecuta (t : tabla) sl fl ss fs sg se :
  t !! "last_purchase_date" = Some sl → Features.fechas sl = Some fl →
  t !! "signup_date" = Some ss → Features.fechas ss = Some fs →
  t !! "monthly_spend" = Some sg → numerica t "monthly_spend" = true →
  t !! "total_shipments" = Some se → numerica t "total_shipments" = true →
  sl ≠ [] →
  Features.generar_todas_features 0%nat [t]
  = Some (1%nat, [a_medio_procesar fl fs sg se t; con_todas_las_features fl fs sg se t]).
Proof.
  intros El Efl Es Efs Eg Ng Ee Ne Hfilas.
  pose proof (numerica_numeros _ _ _ Ng Eg) as Vg.
  pose proof (numerica_numeros _ _ _ Ne Ee) as Ve.
  assert (HR : (λ x, valor (Features.dias_desde (Features.fecha_maxima fl) x)) <$> fl
               = valor <$> recencias fl)
    by (unfold recencias; by rewrite <- list_fmap_compose).
  assert (HA : (λ x, valor (Features.dias_desde (Features.fecha_maxima fl) x)) <$> fs
               = valor <$> antiguedades fl fs)
    by (unfold antiguedades; by rewrite <- list_fmap_compose).
  unfold Features.generar_todas_features.
  rewrite bind_ejecuta,
    (calcular_recencia_ejecuta [t] 0%nat t "last_purchase_date" sl fl None eq_refl El Efl).
  rewrite HR. fold (recencias fl).
  set (T1 := <["categoria_recencia" := _]> _).
  change (<[0%nat := T1]> [t]) with [T1].
  rewrite bind_ejecuta.
  rewrite (calcular_antiguedad_ejecuta [T1] 0%nat T1 "signup_date" sl fl ss fs eq_refl);
    [|by (unfold T1; simplify_map_eq)|done|by (unfold T1; simplify_map_eq)|done].
  rewrite HA. fold (antiguedades fl fs).
  set (T2 := <["categoria_antiguedad" := _]> _).
  change (<[0%nat := T2]> [T1]) with [T2].
  rewrite bind_ejecuta.
  rewrite (categorizar_monetary_ejecuta [T2] 0%nat T2 "monthly_spend" sg eq_refl);
    [|by (unfold T2, T1; simplify_map_eq)
     |by (unfold numerica, T2, T1 in *; simplify_map_eq)].
  rewrite (con_filas_si _ "last_purchase_date" sl)
    by (try done; unfold T2, T1; by simplify_map_eq).
  set (T3 := <["segmento_gasto" := _]> _).
  change (<[0%nat := T3]> [T2]) with [T3].
  rewrite bind_ejecuta.
  rewrite (categorizar_frequency_ejecuta [T3] 0%nat T3 "total_shipments" se eq_refl);
    [|by (unfold T3, T2, T1; simplify_map_eq)
     |by (unfold numerica, T3, T2, T1 in *; simplify_map_eq)].
  rewrite (con_filas_si _ "last_purchase_date" sl)
    by (try done; unfold T3, T2, T1; by simplify_map_eq).
  set (T4 := <["segmento_frecuencia" := _]> T3).
  change (<[0%nat := T4]> [T3]) with [T4].
  assert (E4 : T4 = con_rfm fl fs sg se t) by reflexivity.
  rewrite bind_ejecuta.
  rewrite (calcular_engagement_ejecuta [T4] 0%nat T4 (recencias fl) se sg
             (valor <$> recencias fl) (valor <$> se) (valor <$> sg) eq_refl);
    [|by (unfold T4, T3, T2, T1; simplify_map_eq)
     |apply numeros_dias_desde
     |by (unfold T4, T3, T2, T1; simplify_map_eq)
     |done
     |by (unfold T4, T3, T2, T1; simplify_map_eq)
     |done].
  rewrite (con_filas_si _ "last_purchase_date" sl)
    by (try done; unfold sin_normalizacion, con_engagement, T4, T3, T2, T1;
        by simplify_map_eq).
  set (C := con_engagement _ _ _ T4).
  change (<[0%nat := C]> [T4] ++ [sin_normalizacion C])%list
    with [C; sin_normalizacion C].
  change (length [T4]) with 1%nat.
  set (T5 := sin_normalizacion C).
  rewrite bind_ejecuta.
  rewrite (crear_features_comportamiento_ejecuta [C; T5] 1%nat T5
             sg se (antiguedades fl fs) (recencias fl)
             (valor <$> sg) (valor <$> se)
             (valor <$> antiguedades fl fs) (valor <$> recencias fl) eq_refl);
    [|by (unfold T5, sin_normalizacion, C, con_engagement, T4, T3, T2, T1;
          simplify_map_eq)
     |done
     |by (unfold T5, sin_normalizacion, C, con_engagement, T4, T3, T2, T1;
          simplify_map_eq)
     |done
     |by (unfold T5, sin_normalizacion, C, con_engagement, T4, T3, T2, T1;
          simplify_map_eq)
     |apply numeros_dias_desde
     |by (unfold T5, sin_normalizacion, C, con_engagement, T4, T3, T2, T1;
          simplify_map_eq)
     |apply numeros_dias_desde].
  set (T6 := con_comportamiento _ _ _ _ T5).
  change (<[1%nat := T6]> [C; T5]) with [C; T6].
  rewrite (crear_features_riesgo_ejecuta [C; T6] 1%nat T6
             (recencias fl)
             (de_numero <$> engagement (valor <$> recencias fl) (valor <$> se)
                                       (valor <$> sg))
             (antiguedades fl fs)
             (valor <$> recencias fl)
             (engagement (valor <$> recencias fl) (valor <$> se) (valor <$> sg))
             (valor <$> antiguedades fl fs) eq_refl);
    [|by (unfold T6, con_comportamiento, T5, sin_normalizacion, C, con_engagement,
                 T4, T3, T2, T1; simplify_map_eq)
     |apply numeros_dias_desde
     |by (unfold T6, con_comportamiento, T5, sin_normalizacion, C, con_engagement,
                 T4, T3, T2, T1; simplify_map_eq)
     |apply numeros_de_numero
     |by (unfold T6, con_comportamiento, T5, sin_normalizacion, C, con_engagement,
                 T4, T3, T2, T1; simplify_map_eq)
     |apply numeros_dias_desde].
  rewrite (con_filas_si _ "last_purchase_date" sl)
    by (try done;
        unfold con_riesgo, T6, con_comportamiento, T5, sin_normalizacion, C,
          con_engagement, T4, T3, T2, T1; by simplify_map_eq).
  reflexivity.
Qed.

(** Sin filas el pipeline lanza [ZeroDivisionError] en su tercera
    función, categorizar_monetary. *)
Lemma generar_todas_features_sin_filas (t : tabla) sl ss sg se :
  t !! "last_purchase_date" = Some sl → t !! "signup_date" = Some ss →
  t !! "monthly_spend" = Some sg → t !! "total_shipments" = Some se →
  Tabla.n_filas t = 0%nat →
  ejecutar Features.generar_todas_features t = None.
Proof.
  intros El Es Eg Ee Hn.
  assert (Hv : ∀ c s, t !! c = Some s → s = []) by by apply n_filas_cero.
  rewrite (Hv _ _ El) in El. rewrite (Hv _ _ Es) in Es.
  rewrite (Hv _ _ Eg) in Eg. rewrite (Hv _ _ Ee) in Ee.
  unfold ejecutar, Features.generar_todas_features.
  rewrite bind_ejecuta,
    (calcular_recencia_ejecuta [t] 0%nat t "last_purchase_date" [] [] None eq_refl El
       eq_refl).
  cbn [fmap list_fmap].
  set (T1 := <["categoria_recencia" := _]> _).
  change (<[0%nat := T1]> [t]) with [T1].
  rewrite bind_ejecuta.
  rewrite (calcular_antiguedad_ejecuta [T1] 0%nat T1 "signup_date" [] [] [] [] eq_refl);
    [|by (unfold T1; simplify_map_eq)|done|by (unfold T1; simplify_map_eq)|done].
  cbn [fmap list_fmap].
  set (T2 := <["categoria_antiguedad" := _]> _).
  change (<[0%nat := T2]> [T1]) with [T2].
  rewrite bind_ejecuta.
  rewrite (categorizar_monetary_ejecuta [T2] 0%nat T2 "monthly_spend" [] eq_refl);
    [|by (unfold T2, T1; simplify_map_eq)
     |by (unfold numerica, T2, T1; simplify_map_eq)].
  cbn [fmap list_fmap].
  assert (E0 : Tabla.n_filas (<["segmento_gasto" := []]> T2) = 0%nat).
  { unfold T2, T1. by do 5 apply n_filas_cero_insert. }
  by rewrite E0.
Qed.

(** X18. Sobre una tabla silver con al menos una fila, con las dos columnas
    de fecha de tipo fecha y las columnas de gasto y envíos numéricas,
    generar_todas_features termina y devuelve un objeto nuevo con las
    dieciocho columnas de features, sin las tres columnas temporales de
    normalización y con las demás columnas como estaban; el objeto del
    llamador se queda a medio procesar, con las columnas de normalización
    dentro. En cada fila con las dos fechas, la antigüedad menos la recencia
    es el tiempo entre el registro y la última compra. Sobre una tabla sin
    filas el pipeline lanza ZeroDivisionError en categorizar_monetary. *)
Theorem generar_todas_features_completa (t : tabla) sl fl ss fs sg se :
  t !! "last_purchase_date" = Some sl → Features.fechas sl = Some fl →
  t !! "signup_date" = Some ss → Features.fechas ss = Some fs →
  t !! "monthly_spend" = Some sg → numerica t "monthly_spend" = true →
  t !! "total_shipments" = Some se → numerica t "total_shipments" = true →
  (sl ≠ [] →
   ∃ T orig R A,
     ejecutar Features.generar_todas_features t = Some (T, orig, false)
     ∧ (∀ k, k ∈ COLUMNAS_FEATURES → is_Some (T !! k))
     ∧ (∀ k, k ∈ COLUMNAS_NORMALIZACION → T !! k = None ∧ is_Some (orig !! k))
     ∧ (∀ k, k ∉ COLUMNAS_FEATURES → k ∉ COLUMNAS_NORMALIZACION → T !! k = t !! k)
     ∧ T !! "recencia_dias" = Some R ∧ T !! "antiguedad_dias" = Some A
     ∧ (∀ i dl ds, fl !! i = Some (Some dl) → fs !! i = Some (Some ds) →
          ∃ zr za, R !! i = Some (Num (inject_Z zr))
                   ∧ A !! i = Some (Num (inject_Z za))
                   ∧ (za - zr = dl - ds)%Z))
  ∧ (Tabla.n_filas t = 0%nat →
     ejecutar Features.generar_todas_features t = None).
Proof.
  intros El Efl Es Efs Eg Ng Ee Ne.
  split; [|by apply (generar_todas_features_sin_filas t sl ss sg se)].
  intros Hfilas.
  exists (con_todas_las_features fl fs sg se t), (a_medio_procesar fl fs sg se t),
         (recencias fl), (antiguedades fl fs).
  split.
  { unfold ejecutar.
    by rewrite (generar_todas_features_ejecuta t sl fl ss fs sg se). }
  unfold con_todas_las_features, con_riesgo, con_comportamiento, sin_normalizacion,
    a_medio_procesar, con_engagement, con_rfm.
  split.
  { intros k Hk. unfold COLUMNAS_FEATURES in Hk.
    repeat (apply elem_of_cons in Hk as [->|Hk]; [by simplify_map_eq|]).
    by apply elem_of_nil in Hk. }
  split.
  { intros k Hk. unfold COLUMNAS_NORMALIZACION in Hk.
    repeat (apply elem_of_cons in Hk as [->|Hk]; [by simplify_map_eq|]).
    by apply elem_of_nil in Hk. }
  split.
  { intros k Hk Hn. unfold COLUMNAS_FEATURES in Hk. unfold COLUMNAS_NORMALIZACION in Hn.
    repeat (apply not_elem_of_cons in Hk as [? Hk]).
    repeat (apply not_elem_of_cons in Hn as [? Hn]).
    by simplify_map_eq. }
  split; [by simplify_map_eq|]. split; [by simplify_map_eq|].
  intros i dl ds Ei Ej.
  destruct (fecha_maxima_cota fl dl) as (m & Em & _).
  { apply list_elem_of_lookup. by exists i. }
  exists (m - dl)%Z, (m - ds)%Z. unfold recencias, antiguedades.
  rewrite !list_lookup_fmap, Ei, Ej, Em. simpl.
  split; [done|]. split; [done|lia].
Qed.

Lemma generar_todas_features_completa_witness :
  ∃ T orig R A,
    ejecutar Features.generar_todas_features Ejemplo.tabla_bordes = Some (T, orig, false)
    ∧ T !! "recencia_dias" = Some R ∧ T !! "antiguedad_dias" = Some A
    ∧ T !! "recencia_norm" = None ∧ is_Some (orig !! "recencia_norm")
    ∧ T !! "customer_id" = Some [Texto "C001"; Texto "C002"]
    ∧ ∃ zr za, R !! 1%nat = Some (Num (inject_Z zr))
               ∧ A !! 1%nat = Some (Num (inject_Z za))
               ∧ (za - zr = 19870 - 19000)%Z.
Proof.
  destruct (generar_todas_features_completa Ejemplo.tabla_bordes
              [Fecha 19900; Fecha 19870] [Some 19900%Z; Some 19870%Z]
              [Fecha 19900; Fecha 19000] [Some 19900%Z; Some 19000%Z]
              [Num 500; Num 0] [Num 10; Num 0])
    as [Hf _]; [reflexivity..|].
  destruct Hf as (T & orig & R & A & E & _ & Hn & Hk & ER & EA & Hi); [discriminate|].
  exists T, orig, R, A. split; [exact E|]. split; [exact ER|]. split; [exact EA|].
  destruct (Hn "recencia_norm") as [Hn1 Hn2]; [repeat constructor|].
  split; [exact Hn1|]. split; [exact Hn2|].
  split.
  - rewrite Hk; [reflexivity| |].
    + intros Hc. repeat (apply elem_of_cons in Hc as [?|Hc]; [discriminate|]).
      by apply elem_of_nil in Hc.
    + intros Hc. repeat (apply elem_of_cons in Hc as [?|Hc]; [discriminate|]).
      by apply elem_of_nil in Hc.
  - by apply (Hi 1%nat 19870%Z 19000%Z).
Defined.

(** ** Hashear dos veces *)

Lemma filter_ninguno {A} (P : A → Prop) `{∀ x, Decision (P x)} (l : list A) :
  (∀ x, x ∈ l → ¬ P x) → filter P l = [].
Proof.
  intros Hl. induction l as [|x l IH]; [done|].
  rewrite filter_cons, decide_False by (apply Hl; by left).
  apply IH. intros y Hy. apply Hl. by right.
Qed.

(** X19. Hashear una tabla ya hasheada no cambia nada: cuando ninguna
    columna de la lista se llama como la columna de hashes de otra, el
    resultado de hashear_datos_sensibles ya no tiene ninguna de las columnas
    de la lista, y una segunda pasada las salta todas y devuelve una tabla
    igual, sin volver a hashear los hashes. *)
Theorem hashear_datos_sensibles_idempotente `{Python}
    (cols : list string) (sufijo : string) (t : tabla) :
  sin_choque_de_nombres cols sufijo = true →
  ∃ T, resultado (λ df, Hashing.hashear_datos_sensibles df cols sufijo) t = Some T
    ∧ resultado (λ df, Hashing.hashear_datos_sensibles df cols sufijo) T = Some T.
Proof.
  intros Hn0. pose proof (sin_choque_de_nombres_prop _ _ Hn0) as Hn.
  eexists. split.
  { unfold resultado, ejecutar.
    by rewrite (hashear_datos_sensibles_general cols sufijo [t] 0%nat t). }
  set (T := foldr delete _ _).
  assert (Hf : filter (λ col, is_Some (T !! col)) cols = []).
  { apply filter_ninguno. intros c Hc [s Es].
    unfold T in Es. by rewrite hashing_quita_originales in Es. }
  unfold resultado, ejecutar.
  rewrite (hashear_datos_sensibles_general cols sufijo [T] 0%nat T eq_refl), Hf.
  reflexivity.
Qed.

Lemma hashear_datos_sensibles_idempotente_witness :
  ∃ T, resultado (λ df, Hashing.hashear_datos_sensibles (H := Ejemplo.python_ejemplo)
                          df COLUMNAS_SENSIBLES "_hash") Ejemplo.tabla_limpia = Some T
    ∧ resultado (λ df, Hashing.hashear_datos_sensibles (H := Ejemplo.python_ejemplo)
                         df COLUMNAS_SENSIBLES "_hash") T = Some T.
Proof.
  apply (hashear_datos_sensibles_idempotente (H := Ejemplo.python_ejemplo)).
  vm_compute; reflexivity.
Defined.

(** ** detectar_duplicados sobre su propio resultado *)

Lemma filter_dos_inv {A} (P : A → Prop) `{∀ x, Decision (P x)} (l : list A) :
  (1 < length (filter P l))%nat →
  ∃ j k y z, j ≠ k ∧ l !! j = Some y ∧ l !! k = Some z ∧ P y ∧ P z.
Proof.
  induction l as [|x l IH]; [simpl; lia|].
  rewrite filter_cons. destruct (decide (P x)) as [Hx|Hx].
  - simpl. intros Hl.
    destruct (filter P l) as [|y r] eqn:Ef; [simpl in Hl; lia|].
    assert (Hy : y ∈ filter P l) by (rewrite Ef; by left).
    apply list_elem_of_filter in Hy as [Py [j Ej]%list_elem_of_lookup].
    exists 0%nat, (S j), x, y. by repeat split.
  - intros Hl. destruct (IH Hl) as (j & k & y & z & Hjk & Ej & Ek & Py & Pz).
    exists (S j), (S k), y, z. repeat split; try done. lia.
Qed.

Lemma distintos_sin_repetidos (l : serie) :
  distintos celda_eqb l →
  Serie.contar (Tabla.duplicated_todos celda_eqb l) = 0%nat.
Proof.
  intros Hd. unfold Tabla.duplicated_todos. apply contar_fmap_cero.
  apply list.Forall_forall. intros x [i Ei]%list_elem_of_lookup. simpl.
  apply Nat.ltb_ge. apply Nat.nlt_ge. intros Hl.
  apply filter_dos_inv in Hl as (j & k & y & z & Hjk & Ej & Ek & Py & Pz).
  destruct (decide (i = j)) as [->|Hij].
  - rewrite (Hd j k x z) in Pz; done.
  - rewrite (Hd i j x y) in Py; done.
Qed.

Lemma maximo_comun (n : nat) (xs : list nat) :
  Forall (λ x, x = n) xs → xs ≠ [] → foldr Nat.max 0%nat xs = n.
Proof.
  induction 1 as [|x xs -> Hxs IH]; [done|]. intros _. simpl.
  destruct xs as [|y ys]; [simpl; lia|]. rewrite IH by done. lia.
Qed.

Lemma rectangular_columnas (t : tabla) (n : nat) :
  (∀ c s, t !! c = Some s → length s = n) → rectangular t = true.
Proof.
  intros Hn. unfold rectangular, Tabla.n_filas.
  assert (Hl : Forall (λ x, x = n) ((λ p, length p.2) <$> map_to_list t)).
  { apply list.Forall_forall. intros x ([c s] & -> & Hp)%list_elem_of_fmap.
    apply elem_of_map_to_list in Hp. by apply (Hn c). }
  apply forallb_forall. intros [c s] Hp. apply Nat.eqb_eq.
  rewrite (maximo_comun n) by
    (try done; intros E; apply fmap_nil_inv in E; by rewrite E in Hp).
  apply list_elem_of_In, elem_of_map_to_list in Hp. by apply (Hn c).
Qed.

Section Idempotencia.
Context `{Pandas}.

(** La tabla que devuelve la etapa es rectangular y sus claves no se
    repiten. *)
Lemma sin_duplicados_claves (t : tabla) (ids : serie) :
  rectangular t = true → t !! "customer_id" = Some ids →
  Tabla.ordenable ids = true →
  ∃ T ids',
    sin_duplicados t "customer_id" = Some T
    ∧ T !! "customer_id" = Some ids'
    ∧ distintos celda_eqb ids'
    ∧ (∀ c s, T !! c = Some s → length s = length ids').
Proof.
  intros Hr Eid Ho.
  unfold sin_duplicados. rewrite filtrar_sin_repetidas by done.
  set (m1 := filas_unicas t).
  set (ids1 := Serie.seleccionar m1 ids).
  assert (E1 : Tabla.filtrar m1 t !! "customer_id" = Some ids1)
    by by rewrite filtrar_columna, Eid.
  assert (L1 : ∀ c s, Tabla.filtrar m1 t !! c = Some s → length s = length ids1).
  { intros c s. rewrite filtrar_columna. intros Es.
    destruct (t !! c) as [s0|] eqn:E0; simplify_eq/=.
    apply seleccionar_longitud.
    by rewrite (rectangular_longitud t _ _ Hr E0), (rectangular_longitud t _ _ Hr Eid). }
  rewrite E1. csimpl.
  destruct (Nat.ltb 0 (Serie.contar (Tabla.duplicated_todos celda_eqb ids1))) eqn:Ed.
  2: { exists (Tabla.filtrar m1 t), ids1. split; [done|]. split; [done|].
       split; [|exact L1].
       intros i j x y. apply duplicated_todos_cero.
       apply Nat.ltb_ge in Ed. lia. }
  destruct (Tabla.filtrar m1 t !! "last_purchase_date") as [fechas1|] eqn:E2.
  2: { exists (Tabla.filtrar (negb <$> Tabla.duplicated celda_eqb ids1)
                 (Tabla.filtrar m1 t)),
              (primeros celda_eqb ids1).
       split; [done|]. split; [by rewrite filtrar_columna, E1|].
       split; [apply primeros_desde_distintos, celda_eqb_sym|].
       intros c s. rewrite filtrar_columna. intros Es.
       destruct (Tabla.filtrar m1 t !! c) as [s0|] eqn:E0; simplify_eq/=.
       apply seleccionar_longitud. by apply (L1 c). }
  set (t1' := <["last_purchase_date_temp" := to_datetime fechas1]>
                (Tabla.filtrar m1 t)).
  assert (E3 : t1' !! "customer_id" = Some ids1)
    by (unfold t1'; by rewrite lookup_insert_ne).
  assert (E4 : t1' !! "last_purchase_date_temp" = Some (to_datetime fechas1))
    by (unfold t1'; by simplify_map_eq).
  rewrite E3. csimpl. rewrite E4. csimpl.
  destruct (ordenable_compatible ids Ho) as [n Hn].
  rewrite (compatible_ordenable n ids1) by by apply compatible_seleccionar.
  set (idx := Tabla.orden_filas ids1 (to_datetime fechas1)).
  set (ids2 := (λ i, default Nulo (ids1 !! i)) <$> idx).
  assert (E6 : Tabla.tomar idx t1' !! "customer_id" = Some ids2)
    by by rewrite tomar_columna, E3.
  rewrite E6. csimpl.
  set (m3 := negb <$> Tabla.duplicated celda_eqb ids2).
  exists (delete "last_purchase_date_temp" (Tabla.filtrar m3 (Tabla.tomar idx t1'))),
         (Serie.seleccionar m3 ids2).
  split; [done|].
  split; [by rewrite lookup_delete_ne, filtrar_columna, E6|].
  split; [apply (primeros_desde_distintos celda_eqb celda_eqb_sym)|].
  intros c s Es.
  destruct (decide (c = "last_purchase_date_temp")) as [->|Hc].
  { by rewrite lookup_delete_eq in Es. }
  rewrite lookup_delete_ne, filtrar_columna, tomar_columna in Es by done.
  destruct (t1' !! c) as [s0|]; simplify_eq/=.
  apply seleccionar_longitud. unfold ids2. by rewrite !length_fmap.
Qed.

End Idempotencia.

(** X20. detectar_duplicados es idempotente: sobre toda tabla rectangular
    con una columna customer_id de celdas comparables entre sí, la etapa
    termina y, aplicada de nuevo a la tabla que devuelve, la deja como
    está. *)
Theorem detectar_duplicados_idempotente `{Pandas} (t : tabla) (ids : serie) :
  rectangular t = true → t !! "customer_id" = Some ids →
  Tabla.ordenable ids = true →
  ∃ T, resultado (λ df, Limpieza.detectar_duplicados df "customer_id") t = Some T
    ∧ resultado (λ df, Limpieza.detectar_duplicados df "customer_id") T = Some T.
Proof.
  intros Hr Eid Ho.
  destruct (sin_duplicados_claves t ids Hr Eid Ho) as (T & ids' & E & Ei & Hd & Hl).
  exists T. split.
  - apply devuelve_resultado.
    by apply (detectar_duplicados_devuelve [t] 0%nat t T).
  - unfold resultado, ejecutar.
    rewrite (detectar_duplicados_claves_unicas [T] 0%nat T "customer_id"); [done|done| |].
    + by apply (rectangular_columnas T (length ids')).
    + unfold claves_unicas. rewrite Ei. apply Nat.eqb_eq.
      by apply distintos_sin_repetidos.
Qed.

Lemma detectar_duplicados_idempotente_witness :
  ∃ T, resultado (λ df, Limpieza.detectar_duplicados (H := Ejemplo.pandas_ejemplo)
                          df "customer_id") Ejemplo.tabla_duplicados = Some T
    ∧ resultado (λ df, Limpieza.detectar_duplicados (H := Ejemplo.pandas_ejemplo)
                         df "customer_id") T = Some T.
Proof.
  apply (detectar_duplicados_idempotente (H := Ejemplo.pandas_ejemplo)
           Ejemplo.tabla_duplicados
           [Texto "C1"; Texto "C2"; Texto "C1"; Texto "C2"]);
    vm_compute; reflexivity.
Defined.
